(** * Ceremony control plane of p0tion: queue coordinator and contribution verifier

    A shallow embedding of the Cloud Functions [coordinate],
    [coordinateCeremonyParticipant], [verifycontribution] and
    [refreshParticipantAfterContributionVerification], together with the
    helpers [formatZkeyIndex], [estimatePoT], [convertToDoubleDigits] and
    [extractPrefix], and the properties of the waiting queues, of the
    validity decision and of the rolling timings that follow from the code.

    Conventions of the embedding.
    - Firestore is a [Store] of finite maps keyed by document paths; a write
      batch is a list of [Write]s applied atomically by [commit].
    - A handler is a function of a [World] (the store, the number of clock
      readings taken so far and the log of calls made to the worker pool and
      the blob store) that either returns or throws.
    - JavaScript numbers that carry timings and timestamps are IEEE 754
      binary64 values ([float]); counters and progress indices are integers
      ([Z]). The sums and the numerals of the source are those of [Z] on
      the integers below 2^53 in absolute value, and the statements that
      depend on a sum or on a numeral are made for such integers.
    - A run of a handler is one step: what other invocations commit between
      its reads and its commit is not part of a run. A handler that writes
      a field as a whole from the copy it read (the waiting queue) is
      described by what it writes, relative to that copy.
    - A string field that is [undefined] or empty is the empty string; both
      are falsy in the source. *)

From Stdlib Require Import PrimFloat ZArith Bool.
From stdpp Require Import gmap strings list fin_maps pretty.

Local Open Scope string_scope.
Local Open Scope Z_scope.

(** ** Enumerations *)

(** Modelled from the spec: the enum [ParticipantStatus] is declared in the
    actions package, whose source is not part of this development; its
    members are those of the data model (section 3). *)
Inductive ParticipantStatus :=
  | WAITING | READY | CONTRIBUTING | CONTRIBUTED | DONE | FINALIZING | TIMEDOUT.

(** Modelled from the spec: the enum [ParticipantContributionStep]. *)
Inductive ParticipantContributionStep :=
  | DOWNLOADING | COMPUTING | UPLOADING | VERIFYING | COMPLETED.

(** Modelled from the spec: the enum [CeremonyState]. *)
Inductive CeremonyState :=
  | SCHEDULED | OPENED | PAUSED | CLOSED | FINALIZED.

#[global] Instance ParticipantStatus_eq_dec : EqDecision ParticipantStatus.
Proof. solve_decision. Defined.
#[global] Instance ParticipantContributionStep_eq_dec :
  EqDecision ParticipantContributionStep.
Proof. solve_decision. Defined.
#[global] Instance CeremonyState_eq_dec : EqDecision CeremonyState.
Proof. solve_decision. Defined.

(** ** Truthiness of JavaScript values *)

(** [!!s] for a string. *)
Definition truthyString (s : string) : bool := negb (String.eqb s "").

(** [!!x] for a number: false for [0], [-0] and [NaN]. *)
Definition truthyNumber (x : float) : bool :=
  negb (PrimFloat.eqb x 0%float) && negb (PrimFloat.is_nan x).

(** ** Documents *)

(** An entry of [participant.contributions]. *)
Module Contribution.
Record t := mk {
    hash : string;
    computationTime : float;
    doc : string
  }.
End Contribution.

Module Participant.
  (** [status] and [contributionStep] are [None] when the field holds the
      empty string, which [coordinate] can write. *)
Record t := mk {
    status : option ParticipantStatus;
    contributionStep : option ParticipantContributionStep;
    contributionProgress : Z;
    contributions : list Contribution.t;
    contributionStartedAt : float;
    verificationStartedAt : float;
    lastUpdated : float
  }.
End Participant.

Module WaitingQueue.
Record t := mk {
    contributors : list string;
    currentContributor : string;
    completedContributions : Z;
    failedContributions : Z
  }.
End WaitingQueue.

Module AvgTimings.
Record t := mk {
    contributionComputation : float;
    fullContribution : float;
    verifyCloudFunction : float
  }.
End AvgTimings.

Module Circuit.
Record t := mk {
    sequencePosition : Z;
    prefix : string;
    instanceId : string;
    waitingQueue : WaitingQueue.t;
    avgTimings : AvgTimings.t;
    lastUpdated : float
  }.
End Circuit.

Module Ceremony.
Record t := mk { state : CeremonyState }.
End Ceremony.

Module ContributionFiles.
Record t := mk {
    transcriptFilename : string;
    lastZkeyFilename : string;
    transcriptStoragePath : string;
    lastZkeyStoragePath : string;
    transcriptBlake2bHash : string
  }.
End ContributionFiles.

Module VerificationSoftware.
Record t := mk {
    name : string;
    version : string;
    commitHash : string
  }.
End VerificationSoftware.

(** A contribution document; the invalid one is created without
    [contributionComputationTime] and without [files]. *)
Module ContributionDoc.
Record t := mk {
    participantId : string;
    contributionComputationTime : option float;
    verificationComputationTime : float;
    zkeyIndex : string;
    files : option ContributionFiles.t;
    verificationSoftware : VerificationSoftware.t;
    valid : bool;
    lastUpdated : float
  }.
End ContributionDoc.

(** ** The store *)

(** Document paths: [ceremonies/{ceremonyId}],
    [ceremonies/{ceremonyId}/circuits/{circuitId}],
    [ceremonies/{ceremonyId}/participants/{participantId}] and
    [ceremonies/{ceremonyId}/circuits/{circuitId}/contributions/{id}]. *)
Record Store := mkStore {
  ceremonies : gmap string Ceremony.t;
  circuits : gmap (string * string) Circuit.t;
  participants : gmap (string * string) Participant.t;
  contributionDocs : gmap (string * string * string) ContributionDoc.t
}.

(** One operation of a write batch. An update carries the effect of merging
    its fields into the stored document. *)
Inductive Write :=
  | UpdateParticipant (ref : string * string)
      (fields : Participant.t → Participant.t)
  | UpdateCircuit (ref : string * string) (fields : Circuit.t → Circuit.t)
  | CreateContribution (ref : string * string * string)
      (document : ContributionDoc.t).

(** [update] fails on a missing document, [create] on an existing one. *)
Definition applyWrite (st : Store) (w : Write) : option Store :=
  match w with
  | UpdateParticipant ref fields =>
      match participants st !! ref with
      | Some p =>
          Some (mkStore (ceremonies st) (circuits st)
                  (<[ref := fields p]> (participants st)) (contributionDocs st))
      | None => None
      end
  | UpdateCircuit ref fields =>
      match circuits st !! ref with
      | Some c =>
          Some (mkStore (ceremonies st) (<[ref := fields c]> (circuits st))
                  (participants st) (contributionDocs st))
      | None => None
      end
  | CreateContribution ref document =>
      match contributionDocs st !! ref with
      | Some _ => None
      | None =>
          Some (mkStore (ceremonies st) (circuits st) (participants st)
                  (<[ref := document]> (contributionDocs st)))
      end
  end.

(** The batch is applied in order, in full or not at all. *)
Fixpoint commit (st : Store) (batch : list Write) : option Store :=
  match batch with
  | [] => Some st
  | w :: rest =>
      match applyWrite st w with
      | Some st' => commit st' rest
      | None => None
      end
  end.

(** ** Handlers *)

Inductive Error :=
  | SE_AUTH_NO_CURRENT_AUTH_USER
  | SE_VERIFICATION_NO_PARTICIPANT_CONTRIBUTION_DATA
  | CM_MISSING_OR_WRONG_INPUT_DATA
  | CM_WRONG_CONFIGURATION
  | CM_INEXISTENT_DOCUMENT_DATA
  | CM_INVALID_CEREMONY_FOR_PARTICIPANT
  | CM_NO_CIRCUIT_FOR_GIVEN_SEQUENCE_POSITION
  | TypeError
  | BatchCommitRejected
  | ExternalCallRejected.

(** Calls made to the worker pool and to the blob store. *)
Inductive ExternalCall :=
  | StartEC2Instance (instanceId : string)
  | CheckEC2Status (instanceId : string)
  | RunCommandOnEC2 (instanceId : string) (commands : list string)
  | RetrieveCommandOutput (commandId instanceId : string)
  | StopEC2Instance (instanceId : string)
  | DeleteObject (bucketName objectKey : string).

Record World := mkWorld {
  store : Store;
  clockReadings : nat;
  callLog : list ExternalCall
}.

Inductive Outcome (A : Type) :=
  | Returned (a : A)
  | Thrown (e : Error).
Arguments Returned {A} a.
Arguments Thrown {A} e.

Definition Handler (A : Type) : Type := World → Outcome A * World.

Definition ret {A} (a : A) : Handler A := λ w, (Returned a, w).

Definition throw {A} (e : Error) : Handler A := λ w, (Thrown e, w).

Definition bind {A B} (m : Handler A) (k : A → Handler B) : Handler B :=
  λ w, match m w with
       | (Returned a, w') => k a w'
       | (Thrown e, w') => (Thrown e, w')
       end.

#[global] Instance Handler_ret : MRet Handler := @ret.
#[global] Instance Handler_bind : MBind Handler := λ A B k m, bind m k.

(** The surroundings of one handler invocation: what the clock, the worker
    pool, the blob store and the timers answer, and the helpers and
    configuration that live in other packages. Every service is
    called at most once per invocation, so one answer per service is
    enough; [None] is a rejected call. *)
Record Env := mkEnv {
  (** the n-th reading of the server clock, in milliseconds *)
  clock : nat → float;
  (** worker pool *)
  startEC2Instance : option unit;
  checkEC2Status : option bool;
  runCommandOnEC2 : option string;
  retrieveCommandOutput : option string;
  stopEC2Instance : option unit;
  (** blob store *)
  deleteObject : option unit;
  (** [ms()] of the two timers of the verifier *)
  verificationTaskTimerMs : float;
  verifyContributionTimerMs : float;
  (** identifier of the document reference opened by [collection.doc()] *)
  autoId : string;
  (** storage path helpers *)
  getTranscriptStorageFilePath : string → string → string;
  getZkeyStorageFilePath : string → string → string;
  (** [process.env] *)
  CUSTOM_CONTRIBUTION_VERIFICATION_SOFTWARE_NAME : string;
  CUSTOM_CONTRIBUTION_VERIFICATION_SOFTWARE_VERSION : string;
  CUSTOM_CONTRIBUTION_VERIFICATION_SOFTWARE_COMMIT_HASH : string
}.

Section Primitives.
Context (env : Env).

Definition getCurrentServerTimestampInMillis : Handler float :=
  λ w, (Returned (clock env (clockReadings w)),
        mkWorld (store w) (S (clockReadings w)) (callLog w)).

(** [batch.commit()] *)
Definition batchCommit (batch : list Write) : Handler unit :=
  λ w, match commit (store w) batch with
       | Some st' => (Returned tt, mkWorld st' (clockReadings w) (callLog w))
       | None => (Thrown BatchCommitRejected, w)
       end.

(** A call to an external service: logged, then answered by [env]. *)
Definition external {A} (call : ExternalCall) (answer : option A) : Handler A :=
  λ w, let w' := mkWorld (store w) (clockReadings w) (callLog w ++ [call])%list in
       match answer with
       | Some a => (Returned a, w')
       | None => (Thrown ExternalCallRejected, w')
       end.

(** [getDocumentById] and the like: a read of the store. *)
Definition readStore {A} (f : Store → A) : Handler A :=
  λ w, (Returned (f (store w)), w).

End Primitives.

(** ** Document snapshots *)

(** A document snapshot: the ceremony the document lives under (read off
    [ref]), its identifier and its data. *)
Record Snapshot (A : Type) := mkSnapshot {
  ceremonyOf : string;
  id : string;
  data : A
}.
Arguments mkSnapshot {A} _ _ _.
Arguments ceremonyOf {A} _.
Arguments id {A} _.
Arguments data {A} _.

(** [snapshot.ref] for a participant or a circuit document. *)
Definition ref {A} (snapshot : Snapshot A) : string * string :=
  (ceremonyOf snapshot, id snapshot).

(** Modelled from the spec: [getCircuitDocumentByPosition] lives in the
    backend utilities, whose source is not part of this development. It
    returns the one
    circuit of the ceremony whose [sequencePosition] is the given one and
    fails when there is none or more than one. *)
Definition getCircuitDocumentByPosition (ceremonyId : string) (position : Z)
    : Handler (Snapshot Circuit.t) :=
  λ w,
    match
      filter (λ entry, entry.1.1 = ceremonyId
                       ∧ Circuit.sequencePosition entry.2 = position)
             (map_to_list (circuits (store w)))
    with
    | [entry] => (Returned (mkSnapshot ceremonyId entry.1.2 entry.2), w)
    | _ => (Thrown CM_NO_CIRCUIT_FOR_GIVEN_SEQUENCE_POSITION, w)
    end.

(** ** The queue coordinator *)

(** Fields written by [batch.update(participant.ref, { contributionStep, lastUpdated })]. *)
Definition setContributionStep (contributionStep : option ParticipantContributionStep)
    (lastUpdated : float) (p : Participant.t) : Participant.t :=
  Participant.mk (Participant.status p) contributionStep
    (Participant.contributionProgress p) (Participant.contributions p)
    (Participant.contributionStartedAt p) (Participant.verificationStartedAt p)
    lastUpdated.

(** Fields written by [batch.update(participant.ref, { status, contributionStartedAt, lastUpdated })]. *)
Definition setStatus (status : option ParticipantStatus)
    (contributionStartedAt lastUpdated : float) (p : Participant.t)
    : Participant.t :=
  Participant.mk status (Participant.contributionStep p)
    (Participant.contributionProgress p) (Participant.contributions p)
    contributionStartedAt (Participant.verificationStartedAt p) lastUpdated.

(** Fields written to the document of the new current contributor. *)
Definition passBaton (status : option ParticipantStatus)
    (contributionStep : option ParticipantContributionStep)
    (contributionStartedAt lastUpdated : float) (p : Participant.t)
    : Participant.t :=
  Participant.mk status contributionStep
    (Participant.contributionProgress p) (Participant.contributions p)
    contributionStartedAt (Participant.verificationStartedAt p) lastUpdated.

(** [{ ...waitingQueue, contributors, currentContributor }] *)
Definition withQueue (waitingQueue : WaitingQueue.t)
    (contributors : list string) (currentContributor : string)
    : WaitingQueue.t :=
  WaitingQueue.mk contributors currentContributor
    (WaitingQueue.completedContributions waitingQueue)
    (WaitingQueue.failedContributions waitingQueue).

(** Fields written by [batch.update(circuit.ref, { waitingQueue, lastUpdated })]. *)
Definition setWaitingQueue (waitingQueue : WaitingQueue.t)
    (lastUpdated : float) (c : Circuit.t) : Circuit.t :=
  Circuit.mk (Circuit.sequencePosition c) (Circuit.prefix c)
    (Circuit.instanceId c) waitingQueue (Circuit.avgTimings c) lastUpdated.

Section Coordinator.
Context (env : Env).

Let now := getCurrentServerTimestampInMillis env.

Definition coordinate (participant : Snapshot Participant.t)
    (circuit : Snapshot Circuit.t) (isSingleParticipantCoordination : bool)
    (ceremonyId : option string) : Handler unit :=
  (* Extract data. *)
  let status := Participant.status (data participant) in
  let contributionStep := Participant.contributionStep (data participant) in
  let waitingQueue := Circuit.waitingQueue (data circuit) in
  let contributors := WaitingQueue.contributors waitingQueue in
  let currentContributor := WaitingQueue.currentContributor waitingQueue in
  (* Prepare pre-conditions. *)
  let noCurrentContributor := negb (truthyString currentContributor) in
  let noContributorsInWaitingQueue := bool_decide (length contributors = 0%nat) in
  let emptyWaitingQueue := noCurrentContributor && noContributorsInWaitingQueue in
  let participantIsNotCurrentContributor :=
    negb (String.eqb currentContributor (id participant)) in
  let participantIsCurrentContributor :=
    String.eqb currentContributor (id participant) in
  let participantIsReady := bool_decide (status = Some READY) in
  let participantResumingAfterTimeoutExpiration :=
    participantIsCurrentContributor && participantIsReady in
  let participantCompletedOneOrAllContributions :=
    (bool_decide (status = Some CONTRIBUTED) || bool_decide (status = Some DONE))
    && bool_decide (contributionStep = Some COMPLETED) in
  (* Check for scenarios. *)
  '(batch, newContributors, newCurrentContributorId) ←
    (if isSingleParticipantCoordination then
       let '(newCurrentContributorId, newParticipantStatus, newContributionStep,
             newContributors) :=
         if emptyWaitingQueue then
           (* Scenario (A). *)
           (id participant, Some CONTRIBUTING, Some DOWNLOADING,
            (contributors ++ [id participant])%list)
         else if participantResumingAfterTimeoutExpiration then
           (* Scenario (A), resuming after a timeout. *)
           ("", Some CONTRIBUTING, Some DOWNLOADING, contributors)
         else if participantIsNotCurrentContributor then
           (* Scenario (B). *)
           (currentContributor, Some WAITING, None,
            (contributors ++ [id participant])%list)
         else ("", None, None, contributors) in
       stepUpdate ←
         (if bool_decide (is_Some newContributionStep) then
            lastUpdated ← now;
            mret [UpdateParticipant (ref participant)
                    (setContributionStep newContributionStep lastUpdated)]
          else mret []);
       contributionStartedAt ←
         (if bool_decide (newParticipantStatus = Some CONTRIBUTING)
          then now else mret 0%float);
       lastUpdated ← now;
       mret ((stepUpdate ++
                [UpdateParticipant (ref participant)
                   (setStatus newParticipantStatus contributionStartedAt
                      lastUpdated)])%list,
             newContributors, newCurrentContributorId)
     else if participantIsCurrentContributor
             && participantCompletedOneOrAllContributions
             && from_option truthyString false ceremonyId then
       (* Scenario (C): remove from the waiting queue of the circuit. *)
       let newContributors := tail contributors in
       match newContributors with
       | newCurrentContributorId :: _ =>
           (* Step (C.1): pass the baton to the new contributor. *)
           contributionStartedAt ← now;
           lastUpdated ← now;
           mret ([UpdateParticipant
                    (default "" ceremonyId, newCurrentContributorId)
                    (passBaton (Some CONTRIBUTING) (Some DOWNLOADING)
                       contributionStartedAt lastUpdated)],
                 newContributors, newCurrentContributorId)
       | [] => mret ([], newContributors, "")
       end
     else mret ([], contributors, ""));
  (* Prepare tx - must be done for all Scenarios. *)
  lastUpdated ← now;
  batchCommit
    (batch ++
       [UpdateCircuit (ref circuit)
          (setWaitingQueue
             (withQueue waitingQueue newContributors newCurrentContributorId)
             lastUpdated)])%list.

End Coordinator.

(** The before and after images of an updated participant document. *)
Record Change := mkChange {
  before : Snapshot Participant.t;
  after : Snapshot Participant.t
}.

(** The pre-conditions that [coordinateCeremonyParticipant] derives from the
    change. *)
Section PreConditions.
Context (participantChanges : Change).

Let prevContributionProgress :=
  Participant.contributionProgress (data (before participantChanges)).
Let prevStatus := Participant.status (data (before participantChanges)).
Let prevContributionStep :=
  Participant.contributionStep (data (before participantChanges)).
Let changedContributionProgress :=
  Participant.contributionProgress (data (after participantChanges)).
Let changedStatus := Participant.status (data (after participantChanges)).
Let changedContributionStep :=
  Participant.contributionStep (data (after participantChanges)).

Definition participantReadyToContribute : bool :=
  bool_decide (changedStatus = Some READY).

Definition participantReadyForFirstContribution : bool :=
  participantReadyToContribute && bool_decide (prevContributionProgress = 0).

Definition participantResumingContributionAfterTimeout : bool :=
  participantReadyToContribute
  && bool_decide (prevContributionProgress = changedContributionProgress).

Definition participantReadyForNextContribution : bool :=
  participantReadyToContribute
  && bool_decide (prevContributionProgress = changedContributionProgress - 1)
  && negb (bool_decide (prevContributionProgress = 0)).

Definition participantCompletedEveryCircuitContribution : bool :=
  bool_decide (changedStatus = Some DONE)
  && negb (bool_decide (prevStatus = Some DONE)).

Definition participantCompletedContribution : bool :=
  bool_decide (prevContributionProgress = changedContributionProgress)
  && bool_decide (prevStatus = Some CONTRIBUTING)
  && bool_decide (prevContributionStep = Some VERIFYING)
  && bool_decide (changedStatus = Some CONTRIBUTED)
  && bool_decide (changedContributionStep = Some COMPLETED).

End PreConditions.

Section Trigger.
Context (env : Env).

Definition coordinateCeremonyParticipant (participantChanges : Change)
    : Handler unit :=
  (* Step (0). Both images carry their data. *)
  let exParticipant := before participantChanges in
  let changedParticipant := after participantChanges in
  (* Step (1). *)
  let ceremonyId := ceremonyOf exParticipant in
  (if truthyString ceremonyId then mret tt
   else throw CM_INVALID_CEREMONY_FOR_PARTICIPANT);;
  (* Extract data. *)
  let prevContributionProgress :=
    Participant.contributionProgress (data exParticipant) in
  let changedContributionProgress :=
    Participant.contributionProgress (data changedParticipant) in
  (* Step (2). *)
  if participantReadyForFirstContribution participantChanges
     || participantResumingContributionAfterTimeout participantChanges
     || participantReadyForNextContribution participantChanges then
    (* Step (2.A). *)
    circuit ← getCircuitDocumentByPosition ceremonyId changedContributionProgress;
    coordinate env changedParticipant circuit true None
  else if participantCompletedContribution participantChanges
          || participantCompletedEveryCircuitContribution participantChanges then
    (* Step (2.B). *)
    circuit ← getCircuitDocumentByPosition ceremonyId prevContributionProgress;
    coordinate env changedParticipant circuit false (Some ceremonyId)
  else mret tt.

End Trigger.

(** ** Helpers of the verifier *)

(** [s.startsWith(pattern)] *)
Fixpoint startsWith (s pattern : string) {struct pattern} : bool :=
  match pattern, s with
  | EmptyString, _ => true
  | String _ _, EmptyString => false
  | String c pattern', String d s' => Ascii.eqb c d && startsWith s' pattern'
  end.

(** [s.includes(pattern)]: the pattern starts at some position of [s]. *)
Fixpoint includes (s pattern : string) : bool :=
  startsWith s pattern
  || match s with
     | EmptyString => false
     | String _ s' => includes s' pattern
     end.

(** Modelled from the spec: the constant [firstZkeyIndex] is declared in
    the constants module, whose source is not part of this development; the
    genesis index is ["00000"]. *)
Definition firstZkeyIndex : string := "00000".

(** Modelled from the spec: the constant [finalContributionIndex] is the
    literal token [final]. *)
Definition finalContributionIndex : string := "final".

(** The loop of [formatZkeyIndex]: every turn prepends one ["0"], so
    [String.length firstZkeyIndex] turns are enough to leave it. *)
Fixpoint padZkeyIndex (turns : nat) (index : string) : string :=
  match turns with
  | O => index
  | S turns' =>
      if bool_decide (String.length index < String.length firstZkeyIndex)%nat
      then padZkeyIndex turns' ("0" ++ index)
      else index
  end.

(** [progress.toString()] is the decimal numeral [pretty progress] for an
    integer below 2^53 in absolute value. *)
Definition formatZkeyIndex (progress : Z) : string :=
  padZkeyIndex (String.length firstZkeyIndex) (pretty progress).

(** The payload and the caller of a [verifycontribution] call. *)
Module VerifyContributionData.
Record t := mk {
  ceremonyId : string;
  circuitId : string;
  contributorOrCoordinatorIdentifier : string;
  bucketName : string
}.
End VerifyContributionData.

Module AuthData.
(** [token.participant] and [token.coordinator] are the role claims. *)
Record t := mk {
  uid : string;
  participant : bool;
  coordinator : bool
}.
End AuthData.

Module CallableRequest.
Record t := mk {
  auth : option AuthData.t;
  data : VerifyContributionData.t
}.
End CallableRequest.

(** Fields written by
    [batch.update(circuitDoc.ref, { avgTimings, waitingQueue, lastUpdated })]. *)
Definition setTimingsAndQueue (avgTimings : AvgTimings.t)
    (waitingQueue : WaitingQueue.t) (lastUpdated : float) (c : Circuit.t)
    : Circuit.t :=
  Circuit.mk (Circuit.sequencePosition c) (Circuit.prefix c)
    (Circuit.instanceId c) waitingQueue avgTimings lastUpdated.

(** [{ ...waitingQueue, completedContributions, failedContributions }] *)
Definition withCounters (waitingQueue : WaitingQueue.t)
    (completedContributions failedContributions : Z) : WaitingQueue.t :=
  WaitingQueue.mk (WaitingQueue.contributors waitingQueue)
    (WaitingQueue.currentContributor waitingQueue)
    completedContributions failedContributions.

(** The predicate of the filter over [participant.contributions]. *)
Definition isContributionWithoutDocRef (contribution : Contribution.t) : bool :=
  truthyString (Contribution.hash contribution)
  && truthyNumber (Contribution.computationTime contribution)
  && negb (truthyString (Contribution.doc contribution)).

(** ** The contribution verifier *)

Section Verifier.
Context (env : Env).

Let now := getCurrentServerTimestampInMillis env.

Definition verifycontribution (request : CallableRequest.t) : Handler unit :=
  let requestData := CallableRequest.data request in
  match CallableRequest.auth request with
  | None => throw SE_AUTH_NO_CURRENT_AUTH_USER
  | Some auth =>
  if negb (AuthData.participant auth) && negb (AuthData.coordinator auth)
  then throw SE_AUTH_NO_CURRENT_AUTH_USER else
  if negb (truthyString (VerifyContributionData.ceremonyId requestData))
     || negb (truthyString (VerifyContributionData.circuitId requestData))
     || negb (truthyString
                (VerifyContributionData.contributorOrCoordinatorIdentifier
                   requestData))
     || negb (truthyString (VerifyContributionData.bucketName requestData))
  then throw CM_MISSING_OR_WRONG_INPUT_DATA else
  if negb (truthyString (CUSTOM_CONTRIBUTION_VERIFICATION_SOFTWARE_NAME env))
     || negb (truthyString
                (CUSTOM_CONTRIBUTION_VERIFICATION_SOFTWARE_VERSION env))
     || negb (truthyString
                (CUSTOM_CONTRIBUTION_VERIFICATION_SOFTWARE_COMMIT_HASH env))
  then throw CM_WRONG_CONFIGURATION else
  (* Step (0). Extract data. *)
  let ceremonyId := VerifyContributionData.ceremonyId requestData in
  let circuitId := VerifyContributionData.circuitId requestData in
  let contributorOrCoordinatorIdentifier :=
    VerifyContributionData.contributorOrCoordinatorIdentifier requestData in
  let bucketName := VerifyContributionData.bucketName requestData in
  let userId := AuthData.uid auth in
  (* Look for the ceremony, circuit and participant document. *)
  ceremonyDoc ← readStore (λ st, ceremonies st !! ceremonyId);
  circuitDoc ← readStore (λ st, circuits st !! (ceremonyId, circuitId));
  participantDoc ← readStore (λ st, participants st !! (ceremonyId, userId));
  match ceremonyDoc, circuitDoc, participantDoc with
  | Some ceremonyData, Some circuitData, Some participantData =>
  (* Extract documents data. *)
  let state := Ceremony.state ceremonyData in
  let status := Participant.status participantData in
  let contributions := Participant.contributions participantData in
  let verificationStartedAt := Participant.verificationStartedAt participantData in
  let contributionStartedAt := Participant.contributionStartedAt participantData in
  let waitingQueue := Circuit.waitingQueue circuitData in
  let prefix := Circuit.prefix circuitData in
  let avgTimings := Circuit.avgTimings circuitData in
  let instanceId := Circuit.instanceId circuitData in
  let completedContributions := WaitingQueue.completedContributions waitingQueue in
  let failedContributions := WaitingQueue.failedContributions waitingQueue in
  let avgContributionComputationTime :=
    AvgTimings.contributionComputation avgTimings in
  let avgFullContributionTime := AvgTimings.fullContribution avgTimings in
  let avgVerifyCloudFunctionTime := AvgTimings.verifyCloudFunction avgTimings in
  (* Define pre-conditions. *)
  let isFinalizing :=
    bool_decide (state = CLOSED) && AuthData.coordinator auth in
  let isContributing := bool_decide (status = Some CONTRIBUTING) in
  (* Derive necessary data. *)
  let lastZkeyIndex := formatZkeyIndex (completedContributions + 1) in
  let verificationTranscriptCompleteFilename :=
    prefix ++ "_" ++
    (if isFinalizing
     then contributorOrCoordinatorIdentifier ++ "_" ++ finalContributionIndex
          ++ "_verification_transcript.log"
     else lastZkeyIndex ++ "_" ++ contributorOrCoordinatorIdentifier
          ++ "_verification_transcript.log") in
  let lastZkeyFilename :=
    prefix ++ "_"
    ++ (if isFinalizing then finalContributionIndex else lastZkeyIndex)
    ++ ".zkey" in
  let verificationSoftware :=
    VerificationSoftware.mk
      (CUSTOM_CONTRIBUTION_VERIFICATION_SOFTWARE_NAME env)
      (CUSTOM_CONTRIBUTION_VERIFICATION_SOFTWARE_VERSION env)
      (CUSTOM_CONTRIBUTION_VERIFICATION_SOFTWARE_COMMIT_HASH env) in
  (* Step (1). *)
  batch ←
    (if isContributing || isFinalizing then
       (* Step (1.A.1). Get storage paths. *)
       let verificationTranscriptStoragePathAndFilename :=
         getTranscriptStorageFilePath env prefix
           verificationTranscriptCompleteFilename in
       let lastZkeyStoragePath :=
         getZkeyStorageFilePath env prefix
           (prefix ++ "_"
            ++ (if isFinalizing then finalContributionIndex else lastZkeyIndex)
            ++ ".zkey") in
       (* start vm and give it time to start *)
       external (StartEC2Instance instanceId) (startEC2Instance env);;
       (* check status: a worker that is not running is only logged *)
       _ ← external (CheckEC2Status instanceId) (checkEC2Status env);
       let verifyCloudFunctionExecutionTime := verificationTaskTimerMs env in
       let commands :=
         [ "aws s3 cp s3://" ++ bucketName ++ "/" ++ lastZkeyStoragePath
           ++ " ./lastZKey.zkey";
           "snarkjs zkvi ./genesisZkey.zkey ./pot.ptau ./lastZKey.zkey | tee ./verification_transcript.log";
           "aws s3 cp ./verification_transcript.log s3://" ++ bucketName ++ "/"
           ++ verificationTranscriptStoragePathAndFilename;
           "rm lastZKey.zkey verification_transcript.log" ] in
       commandId ← external (RunCommandOnEC2 instanceId commands)
                     (runCommandOnEC2 env);
       commandOutput ← external (RetrieveCommandOutput commandId instanceId)
                         (retrieveCommandOutput env);
       let isContributionValid := includes commandOutput "ZKey Ok!" in
       (* stop the VM *)
       external (StopEC2Instance instanceId) (stopEC2Instance env);;
       (* Create a new contribution document. *)
       let contributionDocRef := (ceremonyId, circuitId, autoId env) in
       (* Step (1.A.4). *)
       '(contributionTx, contributionComputationTime, verifyCloudFunctionTime) ←
         (if isContributionValid then
            (* Step (1.A.4.A.1). *)
            let transcriptBlake2bHash := "" in
            (* Filter participant contributions to find the data related
               to the one verified. *)
            let participantContributions :=
              filter (λ contribution, isContributionWithoutDocRef contribution)
                contributions in
            if negb (bool_decide (length participantContributions = 1%nat))
            then throw SE_VERIFICATION_NO_PARTICIPANT_CONTRIBUTION_DATA else
            (* Get contribution computation time. *)
            match contributions with
            | [] => throw TypeError
            | first :: _ =>
            let contributionComputationTime := Contribution.computationTime first in
            (* Step (1.A.4.A.2). *)
            lastUpdated ← now;
            mret ([CreateContribution contributionDocRef
                     (ContributionDoc.mk userId
                        (Some contributionComputationTime)
                        verifyCloudFunctionExecutionTime
                        (if isFinalizing then finalContributionIndex
                         else lastZkeyIndex)
                        (Some (ContributionFiles.mk
                                 verificationTranscriptCompleteFilename
                                 lastZkeyFilename
                                 verificationTranscriptStoragePathAndFilename
                                 lastZkeyStoragePath
                                 transcriptBlake2bHash))
                        verificationSoftware
                        isContributionValid
                        lastUpdated)],
                  contributionComputationTime,
                  verifyContributionTimerMs env)
            end
          else
            (* Step (1.A.4.B). Free-up storage by deleting invalid contribution. *)
            external (DeleteObject bucketName lastZkeyStoragePath)
              (deleteObject env);;
            (* Step (1.A.4.B.1). *)
            lastUpdated ← now;
            mret ([CreateContribution contributionDocRef
                     (ContributionDoc.mk userId
                        None
                        verifyCloudFunctionExecutionTime
                        (if isFinalizing then finalContributionIndex
                         else lastZkeyIndex)
                        None
                        verificationSoftware
                        isContributionValid
                        lastUpdated)],
                  0%float, 0%float));
       (* Step (1.A.4.C) *)
       if negb isFinalizing then
         (* Step (1.A.4.C.1) *)
         let fullContributionTime :=
           (verificationStartedAt - contributionStartedAt)%float in
         let newAvgContributionComputationTime :=
           if (0 <? avgContributionComputationTime)%float
           then ((avgContributionComputationTime + contributionComputationTime)
                 / 2)%float
           else contributionComputationTime in
         let newAvgFullContributionTime :=
           if (0 <? avgFullContributionTime)%float
           then ((avgFullContributionTime + fullContributionTime) / 2)%float
           else fullContributionTime in
         let newAvgVerifyCloudFunctionTime :=
           if (0 <? avgVerifyCloudFunctionTime)%float
           then ((avgVerifyCloudFunctionTime + verifyCloudFunctionTime) / 2)%float
           else verifyCloudFunctionTime in
         lastUpdated ← now;
         mret (contributionTx ++
                 [UpdateCircuit (ceremonyId, circuitId)
                    (setTimingsAndQueue
                       (AvgTimings.mk
                          (if isContributionValid
                           then newAvgContributionComputationTime
                           else avgContributionComputationTime)
                          (if isContributionValid
                           then newAvgFullContributionTime
                           else avgFullContributionTime)
                          (if isContributionValid
                           then newAvgVerifyCloudFunctionTime
                           else avgVerifyCloudFunctionTime))
                       (withCounters waitingQueue
                          (if isContributionValid
                           then completedContributions + 1
                           else completedContributions)
                          (if isContributionValid
                           then failedContributions
                           else failedContributions + 1))
                       lastUpdated)])%list
       else mret contributionTx
     else mret []);
  (* Step (2). *)
  batchCommit batch
  | _, _, _ => throw CM_INEXISTENT_DOCUMENT_DATA
  end
  end.

End Verifier.

(** ** The post-verification refresher *)

(** Modelled from the spec: [getCeremonyCircuits] lives in the actions
    package, whose source is not part of this development. It returns the
    circuit documents of the ceremony. *)
Definition getCeremonyCircuits (ceremonyId : string)
    : Handler (list (Snapshot Circuit.t)) :=
  λ w,
    (Returned
       ((λ entry, mkSnapshot ceremonyId entry.1.2 entry.2)
        <$> filter (λ entry, entry.1.1 = ceremonyId)
              (map_to_list (circuits (store w)))),
     w).

(** Fields written by [batch.update(participantDoc.ref, { status,
    contributionStep, tempContributionData })]. The participant documents of
    this development carry no [tempContributionData], so its deletion has no
    counterpart. *)
Definition setStatusAndStep (status : option ParticipantStatus)
    (contributionStep : option ParticipantContributionStep)
    (p : Participant.t) : Participant.t :=
  Participant.mk status contributionStep
    (Participant.contributionProgress p) (Participant.contributions p)
    (Participant.contributionStartedAt p) (Participant.verificationStartedAt p)
    (Participant.lastUpdated p).

(** Fields written by [batch.update(participantDoc.ref, { contributions,
    lastUpdated })]. *)
Definition setContributions (contributions : list Contribution.t)
    (lastUpdated : float) (p : Participant.t) : Participant.t :=
  Participant.mk (Participant.status p) (Participant.contributionStep p)
    (Participant.contributionProgress p) contributions
    (Participant.contributionStartedAt p) (Participant.verificationStartedAt p)
    lastUpdated.

(** The body of the [forEach] over [contributions]: an entry without
    document reference receives the identifier of the created
    contribution. *)
Definition linkContribution (createdContributionId : string)
    (participantContribution : Contribution.t) : Contribution.t :=
  if isContributionWithoutDocRef participantContribution
  then Contribution.mk (Contribution.hash participantContribution)
         (Contribution.computationTime participantContribution)
         createdContributionId
  else participantContribution.

Section Refresher.
Context (env : Env).

Definition refreshParticipantAfterContributionVerification
    (createdContribution : Snapshot ContributionDoc.t) : Handler unit :=
  (* Derive data from document. *)
  let ceremonyId := ceremonyOf createdContribution in
  (* Extract data: the snapshot of a created document carries its data. *)
  let participantId := ContributionDoc.participantId (data createdContribution) in
  (* Get documents from derived paths. *)
  circuits ← getCeremonyCircuits ceremonyId;
  participantDoc ← readStore (λ st, participants st !! (ceremonyId, participantId));
  match participantDoc with
  | None => throw CM_INEXISTENT_DOCUMENT_DATA
  | Some participantData =>
      (* Extract data. *)
      let contributions := Participant.contributions participantData in
      let status := Participant.status participantData in
      let contributionProgress := Participant.contributionProgress participantData in
      (* Define pre-conditions. *)
      let isFinalizing := bool_decide (status = Some FINALIZING) in
      (* Link the newest created contribution document w/ participant
         contributions info. *)
      let contributions := linkContribution (id createdContribution) <$> contributions in
      (* Check if the participant is not the coordinator trying to finalize
         the ceremony. *)
      let statusUpdate :=
        if negb isFinalizing then
          [UpdateParticipant (ceremonyId, participantId)
             (setStatusAndStep
                (Some (if bool_decide (contributionProgress + 1
                                       > Z.of_nat (length circuits))
                       then DONE else CONTRIBUTED))
                (Some COMPLETED))]
        else [] in
      (* nb. valid both for participant or coordinator (finalizing). *)
      lastUpdated ← getCurrentServerTimestampInMillis env;
      batchCommit
        (statusUpdate ++
           [UpdateParticipant (ceremonyId, participantId)
              (setContributions contributions lastUpdated)])%list
  end.

End Refresher.

(** ** Helpers of the command line *)

(** The loop of [estimatePoT]; [turns] bounds the number of turns. *)
Fixpoint estimatePoTLoop (turns : nat) (constraints power pot : Z) : Z :=
  match turns with
  | O => power
  | S turns' =>
      if bool_decide (constraints * 2 > pot)
      then estimatePoTLoop turns' constraints (power + 1) (2 ^ (power + 1))
      else power
  end.

(** [estimatePoT] on integers below 2^53 in absolute value, on which the
    products and powers of the source are exact; the loop is left after at
    most [Z.log2_up (constraints * 2)] turns. *)
Definition estimatePoT (constraints : Z) : Z :=
  estimatePoTLoop (Z.to_nat (Z.log2_up (constraints * 2))) constraints 2 (2 ^ 2).

(** [convertToDoubleDigits] on integers. *)
Definition convertToDoubleDigits (amount : Z) : string :=
  if bool_decide (amount < 10) then "0" ++ pretty amount else pretty amount.

(** The white space of the ASCII range, which [\s] matches: tab, line feed,
    vertical tab, form feed, carriage return and space. *)
Definition whiteSpace : list nat := [9; 10; 11; 12; 13; 32]%nat.

(** The punctuation marks that the pattern lists, the double quote (code
    34) apart. *)
Definition listedPunctuation : string := "`~!@#$%^&*()|+-=?;:',.<>{}[]\/".

(** The character class of the pattern of [extractPrefix]. *)
Definition matchesPattern (c : Ascii.ascii) : bool :=
  bool_decide (Ascii.nat_of_ascii c ∈ whiteSpace)
  || bool_decide (Ascii.nat_of_ascii c = 34%nat)
  || existsb (Ascii.eqb c) (String.list_ascii_of_string listedPunctuation).

(** [toLowerCase] on an ASCII character. *)
Definition toLowerCase (c : Ascii.ascii) : Ascii.ascii :=
  if bool_decide (65 ≤ Ascii.nat_of_ascii c ≤ 90)%nat
  then Ascii.ascii_of_nat (Ascii.nat_of_ascii c + 32)
  else c.

Fixpoint mapString (f : Ascii.ascii → Ascii.ascii) (s : string) : string :=
  match s with
  | EmptyString => EmptyString
  | String c s' => String (f c) (mapString f s')
  end.

(** [str.replace(/[...]/gi, "_").toLowerCase()] on a string of ASCII
    characters. *)
Definition extractPrefix (str : string) : string :=
  mapString toLowerCase
    (mapString (λ c, if matchesPattern c then Ascii.ascii_of_nat 95 else c) str).

(** * Vocabulary of the statements *)

(** [m] keeps the store invariant [I], and under [I] every value it returns
    satisfies [Q]. *)
Definition keeps (I : Store → Prop) {A} (m : Handler A) (Q : A → Prop) : Prop :=
  ∀ w, I (store w) →
    I (store (m w).2) ∧ ∀ a, (m w).1 = Returned a → Q a.

(** [contributors[0] == currentContributor] whenever [currentContributor]
    is non-empty. *)
Definition headInvariant (waitingQueue : WaitingQueue.t) : Prop :=
  WaitingQueue.currentContributor waitingQueue ≠ "" →
  head (WaitingQueue.contributors waitingQueue)
  = Some (WaitingQueue.currentContributor waitingQueue).

Definition storeHeadInvariant (st : Store) : Prop :=
  map_Forall (λ _ c, headInvariant (Circuit.waitingQueue c)) (circuits st).

(** A write that cannot break the head invariant. *)
Definition headSafe (w : Write) : Prop :=
  match w with
  | UpdateCircuit _ fields => ∀ c, headInvariant (Circuit.waitingQueue (fields c))
  | _ => True
  end.

(** The branch is taken when the queue is not empty, the participant is the
    current contributor and is READY. *)
Definition resumingAfterTimeout (participant : Snapshot Participant.t)
    (circuit : Snapshot Circuit.t) : Prop :=
  let waitingQueue := Circuit.waitingQueue (data circuit) in
  (WaitingQueue.currentContributor waitingQueue ≠ ""
   ∨ WaitingQueue.contributors waitingQueue ≠ [])
  ∧ WaitingQueue.currentContributor waitingQueue = id participant
  ∧ Participant.status (data participant) = Some READY.

(** [isFinalizing] and [isContributing] as [verifycontribution] defines
    them. *)
Definition finalizing (ceremonyData : Ceremony.t) (auth : AuthData.t) : bool :=
  bool_decide (Ceremony.state ceremonyData = CLOSED) && AuthData.coordinator auth.

Definition contributing (participantData : Participant.t) : bool :=
  bool_decide (Participant.status participantData = Some CONTRIBUTING).

(** The request passes the checks on the caller, on the payload and on the
    configuration. *)
Definition wellFormedCall (env : Env) (request : CallableRequest.t)
    (auth : AuthData.t) : Prop :=
  let requestData := CallableRequest.data request in
  CallableRequest.auth request = Some auth
  ∧ (AuthData.participant auth = true ∨ AuthData.coordinator auth = true)
  ∧ VerifyContributionData.ceremonyId requestData ≠ ""
  ∧ VerifyContributionData.circuitId requestData ≠ ""
  ∧ VerifyContributionData.contributorOrCoordinatorIdentifier requestData ≠ ""
  ∧ VerifyContributionData.bucketName requestData ≠ ""
  ∧ CUSTOM_CONTRIBUTION_VERIFICATION_SOFTWARE_NAME env ≠ ""
  ∧ CUSTOM_CONTRIBUTION_VERIFICATION_SOFTWARE_VERSION env ≠ ""
  ∧ CUSTOM_CONTRIBUTION_VERIFICATION_SOFTWARE_COMMIT_HASH env ≠ "".

(** The integers on which the arithmetic of the source, done on binary64
    numbers, is the arithmetic of [Z], and which [toString] prints as
    decimal numerals. *)
Definition safeInteger (n : Z) : Prop := - 2 ^ 53 < n < 2 ^ 53.

(** A counter to which the source adds one exactly. *)
Definition exactCounter (n : Z) : Prop := 0 ≤ n < 2 ^ 53.

(** The rule of the rolling means as the specification words it:
    [new = prev > 0 ? (prev + sample) / 2 : sample]. *)
Definition rollingMean (prev sample : float) : float :=
  if (0 <? prev)%float then ((prev + sample) / 2)%float else sample.

(** The same surroundings with another command output. *)
Definition withCommandOutput (env : Env) (commandOutput : string) : Env :=
  mkEnv (clock env) (startEC2Instance env) (checkEC2Status env)
    (runCommandOnEC2 env) (Some commandOutput) (stopEC2Instance env)
    (deleteObject env) (verificationTaskTimerMs env)
    (verifyContributionTimerMs env) (autoId env)
    (getTranscriptStorageFilePath env) (getZkeyStorageFilePath env)
    (CUSTOM_CONTRIBUTION_VERIFICATION_SOFTWARE_NAME env)
    (CUSTOM_CONTRIBUTION_VERIFICATION_SOFTWARE_VERSION env)
    (CUSTOM_CONTRIBUTION_VERIFICATION_SOFTWARE_COMMIT_HASH env).

(** The references that [verifycontribution] derives from the request. *)
Definition circuitRef (request : CallableRequest.t) : string * string :=
  (VerifyContributionData.ceremonyId (CallableRequest.data request),
   VerifyContributionData.circuitId (CallableRequest.data request)).

Definition contributionRef (env : Env) (request : CallableRequest.t)
    : string * string * string :=
  (circuitRef request, autoId env).

(** The ceremony, circuit and participant documents that the call finds. *)
Definition documentsFound (w : World) (request : CallableRequest.t)
    (auth : AuthData.t) (ceremonyData : Ceremony.t) (circuitData : Circuit.t)
    (participantData : Participant.t) : Prop :=
  ceremonies (store w)
    !! VerifyContributionData.ceremonyId (CallableRequest.data request)
  = Some ceremonyData
  ∧ circuits (store w) !! circuitRef request = Some circuitData
  ∧ participants (store w)
      !! (VerifyContributionData.ceremonyId (CallableRequest.data request),
          AuthData.uid auth)
    = Some participantData.

(** The update dispatches single-participant coordination. *)
Definition singleParticipantEvent (participantChanges : Change) : bool :=
  participantReadyForFirstContribution participantChanges
  || participantResumingContributionAfterTimeout participantChanges
  || participantReadyForNextContribution participantChanges.

(** Stores compared up to the [lastUpdated] timestamps. *)
Definition eraseLastUpdated (st : Store) : Store :=
  mkStore (ceremonies st)
    ((λ c, setWaitingQueue (Circuit.waitingQueue c) 0%float c) <$> circuits st)
    ((λ p, setContributionStep (Participant.contributionStep p) 0%float p)
     <$> participants st)
    ((λ d, ContributionDoc.mk (ContributionDoc.participantId d)
             (ContributionDoc.contributionComputationTime d)
             (ContributionDoc.verificationComputationTime d)
             (ContributionDoc.zkeyIndex d) (ContributionDoc.files d)
             (ContributionDoc.verificationSoftware d)
             (ContributionDoc.valid d) 0%float)
     <$> contributionDocs st).

Definition sameUpToLastUpdated (st1 st2 : Store) : Prop :=
  eraseLastUpdated st1 = eraseLastUpdated st2.

(** ** Vocabulary of the further properties *)

(** [m] never writes to the store. *)
Definition readOnly {A} (m : Handler A) : Prop :=
  ∀ w, store (m w).2 = store w.

(** A run of [m] that throws leaves the store as it was. *)
Definition atomic {A} (m : Handler A) : Prop :=
  ∀ w e, (m w).1 = Thrown e → store (m w).2 = store w.

(** The fields of a circuit document that the coordinator does not write:
    its update replaces [waitingQueue] as a whole (members and counters, as
    the snapshot it was handed has them) and [lastUpdated], nothing else. *)
Definition sameButQueue (c c' : Circuit.t) : Prop :=
  Circuit.sequencePosition c' = Circuit.sequencePosition c
  ∧ Circuit.prefix c' = Circuit.prefix c
  ∧ Circuit.instanceId c' = Circuit.instanceId c
  ∧ Circuit.avgTimings c' = Circuit.avgTimings c.

(** What the coordinator never changes in a participant document. *)
Definition sameProgress (p p' : Participant.t) : Prop :=
  Participant.contributionProgress p' = Participant.contributionProgress p
  ∧ Participant.contributions p' = Participant.contributions p
  ∧ Participant.verificationStartedAt p' = Participant.verificationStartedAt p.

(** The store [st] differs from [st0] by writes of the coordinator only: no
    document was created or deleted, ceremonies and contributions are the
    same, and the documents of circuits and participants agree on the
    fields that the coordinator does not write. *)
Definition coordinatorFrame (st0 st : Store) : Prop :=
  ceremonies st = ceremonies st0
  ∧ contributionDocs st = contributionDocs st0
  ∧ (∀ r, option_Forall2 sameProgress (participants st0 !! r) (participants st !! r))
  ∧ (∀ r, option_Forall2 sameButQueue (circuits st0 !! r) (circuits st !! r)).

Definition coordinatorSafe (w : Write) : Prop :=
  match w with
  | UpdateParticipant _ fields => ∀ p0 p, sameProgress p0 p → sameProgress p0 (fields p)
  | UpdateCircuit _ fields => ∀ c0 c, sameButQueue c0 c → sameButQueue c0 (fields c)
  | CreateContribution _ _ => False
  end.

(** The fields of a circuit document that the verifier does not write: its
    update replaces [avgTimings], [waitingQueue] as a whole (with the
    members that the invocation read at its start) and [lastUpdated],
    nothing else. *)
Definition sameButTimingsAndQueue (c c' : Circuit.t) : Prop :=
  Circuit.sequencePosition c' = Circuit.sequencePosition c
  ∧ Circuit.prefix c' = Circuit.prefix c
  ∧ Circuit.instanceId c' = Circuit.instanceId c.

(** The store [st] differs from [st0] by writes of the verifier only:
    ceremonies and participants are the same, no circuit document was
    created or deleted and each agrees with the former one on the fields
    that the verifier does not write, and every contribution document of [st0] is
    still there, unchanged. *)
Definition verifierFrame (st0 st : Store) : Prop :=
  ceremonies st = ceremonies st0
  ∧ participants st = participants st0
  ∧ (∀ r, option_Forall2 sameButTimingsAndQueue
            (circuits st0 !! r) (circuits st !! r))
  ∧ (∀ r d, contributionDocs st0 !! r = Some d → contributionDocs st !! r = Some d).

Definition verifierSafe (w : Write) : Prop :=
  match w with
  | UpdateParticipant _ _ => False
  | UpdateCircuit _ fields =>
      ∀ c0 c, sameButTimingsAndQueue c0 c → sameButTimingsAndQueue c0 (fields c)
  | CreateContribution _ _ => True
  end.

(** The participant completed one or all contributions, as [coordinate]
    tests it. *)
Definition completedOneOrAllContributions (p : Participant.t) : Prop :=
  (Participant.status p = Some CONTRIBUTED ∨ Participant.status p = Some DONE)
  ∧ Participant.contributionStep p = Some COMPLETED.

(** The number of circuit documents of a ceremony. *)
Definition circuitCount (st : Store) (ceremonyId : string) : nat :=
  length (filter (λ entry, entry.1.1 = ceremonyId) (map_to_list (circuits st))).

(** The participant document that the refresher writes. *)
Definition refreshed (st : Store) (createdContribution : Snapshot ContributionDoc.t)
    (lastUpdated : float) (p : Participant.t) : Participant.t :=
  let linked := linkContribution (id createdContribution) <$> Participant.contributions p in
  if bool_decide (Participant.status p = Some FINALIZING)
  then setContributions linked lastUpdated p
  else setContributions linked lastUpdated
         (setStatusAndStep
            (Some (if bool_decide
                        (Participant.contributionProgress p + 1
                         > Z.of_nat (circuitCount st (ceremonyOf createdContribution)))
                   then DONE else CONTRIBUTED))
            (Some COMPLETED) p).

(** [m] throws only errors that satisfy [P]. *)
Definition throwsOnly {A} (P : Error → Prop) (m : Handler A) : Prop :=
  ∀ w e, (m w).1 = Thrown e → P e.

(** The errors of a verification under way: the worker pool or the blob
    store rejects a call, the participant has not exactly one pending
    contribution, or the batch is rejected. *)
Definition verificationError (e : Error) : Prop :=
  e ∈ [ExternalCallRejected; SE_VERIFICATION_NO_PARTICIPANT_CONTRIBUTION_DATA;
       BatchCommitRejected].

(** The errors of the checks on the caller, the payload, the configuration
    and the documents. *)
Definition validationError (e : Error) : Prop :=
  e ∈ [SE_AUTH_NO_CURRENT_AUTH_USER; CM_MISSING_OR_WRONG_INPUT_DATA;
       CM_WRONG_CONFIGURATION; CM_INEXISTENT_DOCUMENT_DATA].

(** [k] times the character [0]. *)
Fixpoint zeros (k : nat) : string :=
  match k with
  | O => ""
  | S k' => "0" ++ zeros k'
  end.

(** A status on which the trigger starts no coordination. *)
Definition quietStatus (status : option ParticipantStatus) : Prop :=
  status ≠ Some READY ∧ status ≠ Some CONTRIBUTED ∧ status ≠ Some DONE.

(** The string has ASCII characters only. *)
Definition isAscii (str : string) : Prop :=
  Forall (λ c, (Ascii.nat_of_ascii c < 128)%nat) (String.list_ascii_of_string str).

(** What [extractPrefix] makes of one character. *)
Definition prefixCharacter (c : Ascii.ascii) : Ascii.ascii :=
  toLowerCase (if matchesPattern c then Ascii.ascii_of_nat 95 else c).

(** * Scenarios *)

Definition validOutput : string := "[INFO]  snarkJS: ZKey Ok!".
Definition invalidOutput : string := "[ERROR] snarkJS: Invalid zkey".

(** Surroundings in which every service answers; the worker prints the
    given output. *)
Definition envAnswering (commandOutput documentId : string) : Env :=
  mkEnv (λ n, match n with O => 5000 | 1%nat => 5001 | 2%nat => 5002
              | _ => 5003 end%float)
    (Some tt) (Some true) (Some "command-1") (Some commandOutput) (Some tt)
    (Some tt) 7%float 9%float documentId
    (λ prefix filename, prefix ++ "/transcripts/" ++ filename)
    (λ prefix filename, prefix ++ "/contributions/" ++ filename)
    "snarkjs" "0.5.0" "3c2fb5a".

Definition envTicking : Env := envAnswering validOutput "doc-1".

(** Surroundings in which the worker starts and is probed, but the command
    script is rejected. *)
Definition envRejectingCommand : Env :=
  mkEnv (λ _, 5000%float)
    (Some tt) (Some true) None None (Some tt) (Some tt)
    7%float 9%float "doc-1"
    (λ prefix filename, prefix ++ "/transcripts/" ++ filename)
    (λ prefix filename, prefix ++ "/contributions/" ++ filename)
    "snarkjs" "0.5.0" "3c2fb5a".

(** A participant holding the slot of its first circuit, ready to have the
    contribution verified. *)
Definition contributor (contributionStartedAt verificationStartedAt : float)
    : Participant.t :=
  Participant.mk (Some CONTRIBUTING) (Some VERIFYING) 1
    [Contribution.mk "0x5b1c" 40%float ""]
    contributionStartedAt verificationStartedAt 1100%float.

Definition freshCircuit (contributors : list string)
    (currentContributor : string) : Circuit.t :=
  Circuit.mk 1 "multiplier" "i-0abc"
    (WaitingQueue.mk contributors currentContributor 0 0)
    (AvgTimings.mk 0 0 0) 900%float.

(** A ceremony with one circuit and one participant. *)
Definition soloStore (state : CeremonyState) (userId : string)
    (participantData : Participant.t) (circuitData : Circuit.t) : Store :=
  mkStore {[ "ceremony" := Ceremony.mk state ]}
    {[ ("ceremony", "circuit-1") := circuitData ]}
    {[ ("ceremony", userId) := participantData ]}
    ∅.

Definition call (userId : string) (asCoordinator : bool) : CallableRequest.t :=
  CallableRequest.mk
    (Some (AuthData.mk userId (negb asCoordinator) asCoordinator))
    (VerifyContributionData.mk "ceremony" "circuit-1" userId "bucket").

(** Scenario 1: the solo happy path. *)
Module Solo.
Definition data : Participant.t := contributor 1000 1100.
Definition auth : AuthData.t := AuthData.mk "U" true false.
Definition world : World :=
  mkWorld (soloStore OPENED "U" data (freshCircuit ["U"] "U")) 0 [].
End Solo.

(** Scenario: W waits in the queue of the circuit while U contributes, and
    calls the verifier all the same. *)
Module Waiting.
Definition data : Participant.t :=
  Participant.mk (Some WAITING) None 1 [] 0%float 0%float 1200%float.
Definition auth : AuthData.t := AuthData.mk "W" true false.
Definition circuit : Circuit.t := freshCircuit ["U"; "W"] "U".
Definition world : World :=
  mkWorld
    (mkStore {[ "ceremony" := Ceremony.mk OPENED ]}
       {[ ("ceremony", "circuit-1") := circuit ]}
       (<[ ("ceremony", "W") := data ]>
          {[ ("ceremony", "U") := contributor 1000 1100 ]})
       ∅)
    0 [].
End Waiting.

(** Scenario 6: three contributors take their turn on a fresh circuit, with
    full contribution times of 100, 300 and 500 ms. Between two runs of the
    verifier the next contributor takes the slot (the work of the refresher,
    of the coordinator and of the contributor's client). *)
Module Rolling.
Definition nextTurn (st : Store) (userId : string)
    (participantData : Participant.t) : Store :=
  mkStore (ceremonies st)
    ((λ c, setWaitingQueue
             (withQueue (Circuit.waitingQueue c)
                (tail (WaitingQueue.contributors (Circuit.waitingQueue c)))
                userId)
             (Circuit.lastUpdated c) c) <$> circuits st)
    {[ ("ceremony", userId) := participantData ]}
    (contributionDocs st).

Definition world1 : World :=
  mkWorld (soloStore OPENED "A" (contributor 1000 1100)
             (freshCircuit ["A"; "B"; "C"] "A")) 0 [].
Definition run1 : Outcome unit * World :=
  verifycontribution (envAnswering validOutput "doc-1") (call "A" false) world1.

Definition world2 : World :=
  mkWorld (nextTurn (store run1.2) "B" (contributor 2000 2300)) 0 [].
Definition run2 : Outcome unit * World :=
  verifycontribution (envAnswering validOutput "doc-2") (call "B" false) world2.

Definition world3 : World :=
  mkWorld (nextTurn (store run2.2) "C" (contributor 3000 3500)) 0 [].
Definition run3 : Outcome unit * World :=
  verifycontribution (envAnswering validOutput "doc-3") (call "C" false) world3.

(** The stored [avgTimings.fullContribution] and [completedContributions]
    of the circuit after a run. *)
Definition fullContributionAfter (run : Outcome unit * World)
    : option (float * Z) :=
  (λ c, (AvgTimings.fullContribution (Circuit.avgTimings c),
         WaitingQueue.completedContributions (Circuit.waitingQueue c)))
  <$> circuits (store run.2) !! ("ceremony", "circuit-1").
End Rolling.

(** Scenario: P has contributed to the first circuit (the entry has its
    document reference) and now holds the slot of the second one; the entry
    of the contribution under verification comes second. *)
Module SecondCircuit.
Definition linked : Contribution.t := Contribution.mk "0x5b1c" 10%float "doc-0".
Definition pending : Contribution.t := Contribution.mk "0x77aa" 20%float "".
Definition data : Participant.t :=
  Participant.mk (Some CONTRIBUTING) (Some VERIFYING) 2 [linked; pending]
    1000%float 1100%float 1100%float.
Definition circuit : Circuit.t :=
  Circuit.mk 2 "adder" "i-0def" (WaitingQueue.mk ["P"] "P" 0 0)
    (AvgTimings.mk 0 0 0) 900%float.
Definition world : World :=
  mkWorld
    (mkStore {[ "ceremony" := Ceremony.mk OPENED ]}
       {[ ("ceremony", "circuit-2") := circuit ]}
       {[ ("ceremony", "P") := data ]}
       ∅)
    0 [].
Definition request : CallableRequest.t :=
  CallableRequest.mk (Some (AuthData.mk "P" true false))
    (VerifyContributionData.mk "ceremony" "circuit-2" "P" "bucket").
End SecondCircuit.

(** Scenario 2, contention: A holds the slot of the first circuit when B
    becomes READY for its first contribution. *)
Module Contention.
Definition waitingB : Participant.t :=
  Participant.mk (Some WAITING) None 0 [] 0%float 0%float 1000%float.
Definition readyB : Participant.t :=
  Participant.mk (Some READY) None 1 [] 0%float 0%float 1200%float.
Definition change : Change :=
  mkChange (mkSnapshot "ceremony" "B" waitingB) (mkSnapshot "ceremony" "B" readyB).
Definition world : World :=
  mkWorld
    (mkStore {[ "ceremony" := Ceremony.mk OPENED ]}
       {[ ("ceremony", "circuit-1") := freshCircuit ["A"] "A" ]}
       (<[ ("ceremony", "B") := readyB ]>
          {[ ("ceremony", "A") := contributor 1000 0 ]})
       ∅)
    0 [].
Definition once : World := (coordinateCeremonyParticipant envTicking change world).2.
Definition twice : World := (coordinateCeremonyParticipant envTicking change once).2.
Definition queueOf (w : World) : option (list string * string) :=
  (λ c, (WaitingQueue.contributors (Circuit.waitingQueue c),
         WaitingQueue.currentContributor (Circuit.waitingQueue c)))
  <$> circuits (store w) !! ("ceremony", "circuit-1").
End Contention.

(** Scenario 4, timeout resumption: C timed out while holding the slot of
    the second circuit and becomes READY again with its progress unchanged;
    D waits behind. *)
Module Timeout.
Definition timedOutC : Participant.t :=
  Participant.mk (Some TIMEDOUT) (Some COMPUTING) 2
    [Contribution.mk "0x5b1c" 10%float "doc-0"] 1000%float 0%float 1500%float.
Definition readyC : Participant.t :=
  Participant.mk (Some READY) (Some COMPUTING) 2
    [Contribution.mk "0x5b1c" 10%float "doc-0"] 1000%float 0%float 4000%float.
Definition change : Change :=
  mkChange (mkSnapshot "ceremony" "C" timedOutC) (mkSnapshot "ceremony" "C" readyC).
Definition circuit : Circuit.t :=
  Circuit.mk 2 "adder" "i-0def" (WaitingQueue.mk ["C"; "D"] "C" 3 0)
    (AvgTimings.mk 40 100 9) 900%float.
Definition world : World :=
  mkWorld
    (mkStore {[ "ceremony" := Ceremony.mk OPENED ]}
       {[ ("ceremony", "circuit-2") := circuit ]}
       (<[ ("ceremony", "C") := readyC ]>
          {[ ("ceremony", "D") :=
               Participant.mk (Some WAITING) None 2
                 [Contribution.mk "0x9e0f" 12%float "doc-1"]
                 0%float 0%float 1400%float ]})
       ∅)
    0 [].
End Timeout.

(** The sole contributor U has just completed its contribution. *)
Module Finished.
Definition verifyingU : Participant.t :=
  Participant.mk (Some CONTRIBUTING) (Some VERIFYING) 1
    [Contribution.mk "0x5b1c" 40%float ""] 1000%float 1100%float 1100%float.
Definition contributedU : Participant.t :=
  Participant.mk (Some CONTRIBUTED) (Some COMPLETED) 1
    [Contribution.mk "0x5b1c" 40%float "doc-1"] 1000%float 1100%float 1300%float.
Definition change : Change :=
  mkChange (mkSnapshot "ceremony" "U" verifyingU)
    (mkSnapshot "ceremony" "U" contributedU).
Definition world : World :=
  mkWorld (soloStore OPENED "U" contributedU (freshCircuit ["U"] "U")) 0 [].
End Finished.

(** B becomes READY for the first circuit, whose queue is empty. *)
Module Opening.
Definition circuit : Circuit.t := freshCircuit [] "".
Definition world : World :=
  mkWorld (soloStore OPENED "B" Contention.readyB circuit) 0 [].
End Opening.

(** U has completed its contribution to the first circuit while W waits
    behind it. *)
Module Handover.
Definition circuit : Circuit.t := freshCircuit ["U"; "W"] "U".
Definition world : World :=
  mkWorld
    (mkStore {[ "ceremony" := Ceremony.mk OPENED ]}
       {[ ("ceremony", "circuit-1") := circuit ]}
       (<[ ("ceremony", "W") := Waiting.data ]>
          {[ ("ceremony", "U") := Finished.contributedU ]})
       ∅)
    0 [].
End Handover.

(** The contribution of P to the second and last circuit of the ceremony
    has been verified and its document created. *)
Module Refresh.
Definition createdContribution : Snapshot ContributionDoc.t :=
  mkSnapshot "ceremony" "doc-7"
    (ContributionDoc.mk "P" (Some 20%float) 3%float "00001" None
       (VerificationSoftware.mk "snarkjs" "0.5.0" "3c2fb5a") true 1200%float).
Definition world : World :=
  mkWorld
    (mkStore {[ "ceremony" := Ceremony.mk OPENED ]}
       (<[ ("ceremony", "circuit-2") := SecondCircuit.circuit ]>
          {[ ("ceremony", "circuit-1") := freshCircuit [] "" ]})
       {[ ("ceremony", "P") := SecondCircuit.data ]}
       ∅)
    0 [].
(** The same store without the document of P. *)
Definition orphaned : World :=
  mkWorld
    (mkStore {[ "ceremony" := Ceremony.mk OPENED ]}
       {[ ("ceremony", "circuit-2") := SecondCircuit.circuit ]} ∅ ∅)
    0 [].
End Refresh.

(** * Properties *)

(** ** Reasoning about handlers *)

Lemma keeps_ret (I : Store → Prop) {A} (a : A) (Q : A → Prop) :
  Q a → keeps I (mret a) Q.
Proof. intros HQ w Hw. split; [done|]. by intros ? [= <-]. Qed.

Lemma keeps_throw (I : Store → Prop) {A} (e : Error) (Q : A → Prop) :
  keeps I (throw e) Q.
Proof. intros w Hw. split; [done|]. by intros ? [=]. Qed.

Lemma keeps_bind (I : Store → Prop) {A B} (m : Handler A) (k : A → Handler B)
    (Q : A → Prop) (R : B → Prop) :
  keeps I m Q → (∀ a, Q a → keeps I (k a) R) → keeps I (m ≫= k) R.
Proof.
  intros Hm Hk w Hw. destruct (Hm w Hw) as [Hi Hq].
  unfold mbind, Handler_bind, bind.
  destruct (m w) as [[a|e] w'] eqn:E; simpl in *.
  - apply (Hk a); [by apply Hq | done].
  - split; [done|]. by intros ? [=].
Qed.

Lemma keeps_weaken (I : Store → Prop) {A} (m : Handler A) (Q R : A → Prop) :
  keeps I m Q → (∀ a, Q a → R a) → keeps I m R.
Proof. intros Hm HQR w Hw. destruct (Hm w Hw). naive_solver. Qed.

Lemma keeps_clock (I : Store → Prop) env :
  keeps I (getCurrentServerTimestampInMillis env) (λ _, True).
Proof. intros w Hw. by split. Qed.

Lemma keeps_external (I : Store → Prop) {A} call (answer : option A) :
  keeps I (external call answer) (λ _, True).
Proof. intros w Hw. unfold external. by destruct answer. Qed.

Lemma keeps_readStore (I : Store → Prop) {A} (f : Store → A) (Q : A → Prop) :
  (∀ st, I st → Q (f st)) → keeps I (readStore f) Q.
Proof. intros Hf w Hw. split; [done|]. intros a [= <-]. by apply Hf. Qed.

(** Inversion of a run that returns. *)
Lemma bind_returned {A B} (m : Handler A) (k : A → Handler B) w b w' :
  (m ≫= k) w = (Returned b, w') →
  ∃ a w1, m w = (Returned a, w1) ∧ k a w1 = (Returned b, w').
Proof.
  unfold mbind, Handler_bind, bind.
  destruct (m w) as [[a|e] w1]; [by eauto | by intros [=]].
Qed.

Lemma mret_returned {A} (a b : A) w w' :
  (mret a : Handler A) w = (Returned b, w') → b = a ∧ w' = w.
Proof. by intros [= <- <-]. Qed.

Lemma external_returned {A} call (answer : option A) w a w' :
  external call answer w = (Returned a, w') →
  answer = Some a
  ∧ w' = mkWorld (store w) (clockReadings w) (callLog w ++ [call])%list.
Proof. unfold external. destruct answer; by intros [= <- <-]. Qed.

Lemma clock_returned env w t w' :
  getCurrentServerTimestampInMillis env w = (Returned t, w') →
  t = clock env (clockReadings w)
  ∧ w' = mkWorld (store w) (S (clockReadings w)) (callLog w).
Proof. by intros [= <- <-]. Qed.

Lemma batchCommit_returned batch w u w' :
  batchCommit batch w = (Returned u, w') →
  ∃ st', commit (store w) batch = Some st'
    ∧ w' = mkWorld st' (clockReadings w) (callLog w).
Proof.
  unfold batchCommit. destruct (commit (store w) batch); [|by intros [=]].
  intros [= <- <-]. eauto.
Qed.

(** The two batches that [verifycontribution] commits. *)
Lemma commit_create st ref document st' :
  commit st [CreateContribution ref document] = Some st' →
  contributionDocs st !! ref = None
  ∧ st' = mkStore (ceremonies st) (circuits st) (participants st)
            (<[ref := document]> (contributionDocs st)).
Proof.
  simpl. destruct (contributionDocs st !! ref); [done|]. by intros [= <-].
Qed.

Lemma commit_create_update st ref document circuitRef fields c st' :
  circuits st !! circuitRef = Some c →
  commit st [CreateContribution ref document; UpdateCircuit circuitRef fields]
  = Some st' →
  contributionDocs st !! ref = None
  ∧ st' = mkStore (ceremonies st) (<[circuitRef := fields c]> (circuits st))
            (participants st) (<[ref := document]> (contributionDocs st)).
Proof.
  intros Hc. simpl. destruct (contributionDocs st !! ref); [done|].
  simpl. rewrite Hc. by intros [= <-].
Qed.

(** ** The head invariant (I2) *)

Lemma applyWrite_headSafe st w st' :
  headSafe w → storeHeadInvariant st → applyWrite st w = Some st' →
  storeHeadInvariant st'.
Proof.
  unfold storeHeadInvariant.
  destruct w as [r f|r f|r d]; simpl; intros Hs Hst Happ;
    repeat case_match; simplify_eq; simpl; try done.
  by apply map_Forall_insert_2.
Qed.

Lemma commit_headSafe batch : ∀ st st',
  Forall headSafe batch → storeHeadInvariant st → commit st batch = Some st' →
  storeHeadInvariant st'.
Proof.
  induction batch as [|w batch IH]; simpl; intros st st' Hb Hst Hc.
  - by simplify_eq.
  - inversion_clear Hb. destruct (applyWrite st w) as [st1|] eqn:E; [|done].
    eauto using applyWrite_headSafe.
Qed.

Lemma keeps_batchCommit batch :
  Forall headSafe batch →
  keeps storeHeadInvariant (batchCommit batch) (λ _, True).
Proof.
  intros Hb w Hw. unfold batchCommit.
  destruct (commit (store w) batch) eqn:E; simpl; [|done].
  split; [|done]. eauto using commit_headSafe.
Qed.

Lemma getCircuitDocumentByPosition_stored ceremonyId position w circuit w' :
  getCircuitDocumentByPosition ceremonyId position w = (Returned circuit, w') →
  w' = w ∧ ceremonyOf circuit = ceremonyId
  ∧ Circuit.sequencePosition (data circuit) = position
  ∧ circuits (store w) !! ref circuit = Some (data circuit).
Proof.
  unfold getCircuitDocumentByPosition. intros H.
  destruct (filter _ _) as [|entry [|? ?]] eqn:E; simplify_eq.
  assert (Hin : entry ∈ [entry]) by apply list_elem_of_here.
  rewrite <- E in Hin. apply list_elem_of_filter in Hin as [[Hc Hp] Hin].
  destruct entry as [[c i] d]. apply elem_of_map_to_list in Hin.
  simpl in *. by subst.
Qed.

Lemma keeps_getCircuitDocumentByPosition ceremonyId position :
  keeps storeHeadInvariant (getCircuitDocumentByPosition ceremonyId position)
    (λ circuit, headInvariant (Circuit.waitingQueue (data circuit))).
Proof.
  intros w Hw.
  destruct (getCircuitDocumentByPosition ceremonyId position w) as [o w'] eqn:E.
  destruct o as [circuit|e].
  - apply getCircuitDocumentByPosition_stored in E as (-> & _ & _ & Hl).
    split; [done|]. intros a [= <-]. by apply (Hw _ _ Hl).
  - unfold getCircuitDocumentByPosition in E. repeat case_match; simplify_eq.
    all: split; [done|]; by intros ? [=].
Qed.

Lemma headInvariant_append waitingQueue participantId :
  headInvariant waitingQueue →
  WaitingQueue.currentContributor waitingQueue ≠ "" →
  headInvariant
    (withQueue waitingQueue
       (WaitingQueue.contributors waitingQueue ++ [participantId])%list
       (WaitingQueue.currentContributor waitingQueue)).
Proof.
  unfold headInvariant. destruct waitingQueue as [cs cc n m]; simpl.
  intros H Hne _. specialize (H Hne). by destruct cs.
Qed.

Lemma headInvariant_cleared waitingQueue contributors :
  headInvariant (withQueue waitingQueue contributors "").
Proof. by unfold headInvariant. Qed.

Lemma truthyString_false s : truthyString s = false ↔ s = "".
Proof.
  unfold truthyString. rewrite negb_false_iff. apply String.eqb_eq.
Qed.

Lemma truthyString_true s : truthyString s = true ↔ s ≠ "".
Proof.
  unfold truthyString. rewrite negb_true_iff. apply String.eqb_neq.
Qed.

(** Handlers whose returned value carries no obligation. *)
Ltac keeps_true :=
  repeat first
    [ apply keeps_clock
    | apply keeps_external
    | apply keeps_throw
    | (apply keeps_ret; exact I)
    | (eapply keeps_bind with (Q := λ _, True); [|intros ? _])
    | match goal with
      | |- keeps _ (if ?b then _ else _) _ => destruct b
      end ].

(** Walk down a chain of binds whose intermediate values are unconstrained. *)
Ltac keeps_chain :=
  repeat (eapply keeps_bind with (Q := λ _, True);
          [solve [keeps_true] | intros ? _]).

(** The participant updates prepared by single-participant coordination
    never touch a circuit; what is left to show is the head invariant of
    the queue that is written back. *)
Ltac single_participant_case :=
  cbn beta iota;
  eapply keeps_bind with (Q := Forall headSafe);
  [ match goal with
    | |- keeps _ (if ?b then _ else _) _ => destruct b
    end;
    [ eapply keeps_bind with (Q := λ _, True);
      [ apply keeps_clock
      | intros ? _; apply keeps_ret; by repeat constructor ]
    | apply keeps_ret; constructor ]
  | intros ? ?; keeps_chain; apply keeps_ret; cbn [fst snd]; split;
    [ apply Forall_app; split; [done | by repeat constructor] | ] ].

Lemma keeps_coordinate env participant circuit single ceremonyId :
  headInvariant (Circuit.waitingQueue (data circuit)) →
  keeps storeHeadInvariant (coordinate env participant circuit single ceremonyId)
    (λ _, True).
Proof.
  intros Hc. unfold coordinate.
  set (waitingQueue := Circuit.waitingQueue (data circuit)) in *.
  eapply keeps_bind with
    (Q := λ r, Forall headSafe r.1.1
               ∧ headInvariant (withQueue waitingQueue r.1.2 r.2)).
  - destruct single.
    + (* single participant *)
      destruct (negb (truthyString _) && _) eqn:Eempty.
      { (* Scenario (A) *)
        apply andb_true_iff in Eempty as [_ Hlen%bool_decide_eq_true].
        apply length_zero_iff_nil in Hlen.
        single_participant_case.
        unfold headInvariant; simpl. by rewrite Hlen. }
      destruct (String.eqb _ _ && _) eqn:Eres.
      { (* resuming after a timeout *)
        single_participant_case. apply headInvariant_cleared. }
      destruct (negb (String.eqb _ _)) eqn:Enot.
      { (* Scenario (B) *)
        single_participant_case.
        destruct (decide (WaitingQueue.currentContributor waitingQueue = ""))
          as [Hcc|Hcc].
        - rewrite Hcc. apply headInvariant_cleared.
        - by apply headInvariant_append. }
      single_participant_case. apply headInvariant_cleared.
    + (* multi participant *)
      destruct (_ && _ && _).
      * destruct (tail _) as [|h rest] eqn:Etail.
        { apply keeps_ret. simpl. split; [constructor|].
          apply headInvariant_cleared. }
        keeps_chain. apply keeps_ret. simpl. split; [by repeat constructor|].
        by unfold headInvariant.
      * apply keeps_ret. simpl. split; [constructor|].
        apply headInvariant_cleared.
  - intros [[batch newContributors] newCurrent] [Hb Hq]. simpl in *.
    eapply keeps_bind; [apply keeps_clock|]. intros t _.
    apply keeps_batchCommit. apply Forall_app. split; [done|].
    repeat constructor. by intros c.
Qed.

Lemma keeps_coordinateCeremonyParticipant env participantChanges :
  keeps storeHeadInvariant
    (coordinateCeremonyParticipant env participantChanges) (λ _, True).
Proof.
  unfold coordinateCeremonyParticipant.
  eapply keeps_bind with (Q := λ _, True).
  { destruct (truthyString _); [by apply keeps_ret | apply keeps_throw]. }
  intros _ _.
  destruct (_ || _ || _).
  - eapply keeps_bind; [apply keeps_getCircuitDocumentByPosition|].
    intros circuit Hc. by apply keeps_coordinate.
  - destruct (_ || _); [|by apply keeps_ret].
    eapply keeps_bind; [apply keeps_getCircuitDocumentByPosition|].
    intros circuit Hc. by apply keeps_coordinate.
Qed.

Lemma headInvariant_withCounters waitingQueue completed failed :
  headInvariant waitingQueue →
  headInvariant (withCounters waitingQueue completed failed).
Proof. done. Qed.

Lemma keeps_verifycontribution env request :
  keeps storeHeadInvariant (verifycontribution env request) (λ _, True).
Proof.
  unfold verifycontribution.
  destruct (CallableRequest.auth request) as [auth|]; [|apply keeps_throw].
  repeat (match goal with
          | |- keeps _ (if ?b then throw _ else _) _ =>
              destruct b; [apply keeps_throw|]
          end).
  eapply keeps_bind with (Q := λ _, True); [by apply keeps_readStore|].
  intros ceremonyDoc _.
  eapply keeps_bind with
    (Q := λ o, ∀ c, o = Some c → headInvariant (Circuit.waitingQueue c)).
  { apply keeps_readStore. intros st Hst c Hc. by apply (Hst _ _ Hc). }
  intros circuitDoc Hcircuit.
  eapply keeps_bind with (Q := λ _, True); [by apply keeps_readStore|].
  intros participantDoc _.
  destruct ceremonyDoc as [ceremonyData|]; [|apply keeps_throw].
  destruct circuitDoc as [circuitData|]; [|apply keeps_throw].
  destruct participantDoc as [participantData|]; [|apply keeps_throw].
  specialize (Hcircuit _ eq_refl).
  eapply keeps_bind with (Q := Forall headSafe);
    [|intros batch Hbatch; by apply keeps_batchCommit].
  destruct (_ || _); [|apply keeps_ret; constructor].
  keeps_chain.
  eapply keeps_bind with (Q := λ r, Forall headSafe r.1.1).
  - destruct (includes _ _).
    + destruct (negb _); [apply keeps_throw|].
      destruct (Participant.contributions _); [apply keeps_throw|].
      keeps_chain. apply keeps_ret. by repeat constructor.
    + keeps_chain. apply keeps_ret. by repeat constructor.
  - intros [[contributionTx ?] ?] Htx. simpl in Htx.
    destruct (negb _); [|by apply keeps_ret].
    keeps_chain. apply keeps_ret. apply Forall_app. split; [done|].
    repeat constructor. intros c. by apply headInvariant_withCounters.
Qed.

(** C1 (I2, P2). Every queue-mutating operation preserves the head
    invariant: if in every circuit a non-empty [currentContributor] is the
    head of [contributors], then the same holds after any run of the trigger
    [coordinateCeremonyParticipant], after any run of [coordinate] on a
    circuit snapshot that satisfies the invariant (Scenario A, resume,
    Scenario B, head removal and promotion), and after any run of
    [verifycontribution] with its update of the queue counters. *)
Theorem head_invariant_preserved (env : Env) (w : World) :
  storeHeadInvariant (store w) →
  (∀ participantChanges,
     storeHeadInvariant
       (store (coordinateCeremonyParticipant env participantChanges w).2))
  ∧ (∀ participant circuit single ceremonyId,
       headInvariant (Circuit.waitingQueue (data circuit)) →
       storeHeadInvariant
         (store (coordinate env participant circuit single ceremonyId w).2))
  ∧ (∀ request,
       storeHeadInvariant (store (verifycontribution env request w).2)).
Proof.
  intros Hw. repeat split.
  - intros c. by apply keeps_coordinateCeremonyParticipant.
  - intros p c s i Hc. by apply keeps_coordinate.
  - intros r. by apply keeps_verifycontribution.
Qed.

(** ** Resuming after a timeout (the second Scenario A of [coordinate]) *)

(** What the batch of the resuming branch leaves in the world. *)
Lemma coordinate_resuming env participant circuit w stored storedCircuit :
  resumingAfterTimeout participant circuit →
  participants (store w) !! ref participant = Some stored →
  circuits (store w) !! ref circuit = Some storedCircuit →
  let n := clockReadings w in
  coordinate env participant circuit true None w
  = (Returned tt,
     mkWorld
       (mkStore (ceremonies (store w))
          (<[ref circuit :=
               setWaitingQueue
                 (withQueue (Circuit.waitingQueue (data circuit))
                    (WaitingQueue.contributors
                       (Circuit.waitingQueue (data circuit))) "")
                 (clock env (S (S (S n)))) storedCircuit]> (circuits (store w)))
          (<[ref participant :=
               setStatus (Some CONTRIBUTING) (clock env (S n))
                 (clock env (S (S n)))
                 (setContributionStep (Some DOWNLOADING) (clock env n) stored)]>
             (<[ref participant :=
                  setContributionStep (Some DOWNLOADING) (clock env n) stored]>
                (participants (store w))))
          (contributionDocs (store w)))
       (S (S (S (S n)))) (callLog w)).
Proof.
  intros (Hne & Hcc & Hready) Hp Hc n. unfold coordinate.
  assert (Hempty : negb (truthyString
                      (WaitingQueue.currentContributor
                         (Circuit.waitingQueue (data circuit))))
                   && bool_decide
                        (length (WaitingQueue.contributors
                                   (Circuit.waitingQueue (data circuit))) = 0%nat)
                   = false).
  { apply andb_false_iff. destruct Hne as [Hne|Hne].
    - left. apply negb_false_iff. by apply truthyString_true.
    - right. apply bool_decide_eq_false. by rewrite length_zero_iff_nil. }
  rewrite Hempty, Hcc, String.eqb_refl, Hready. simpl.
  unfold mbind, Handler_bind, bind, mret, Handler_ret, ret,
    getCurrentServerTimestampInMillis, batchCommit. simpl.
  rewrite Hp. simpl. rewrite lookup_insert_eq. simpl. rewrite Hc. done.
Qed.

(** C10. In the resuming branch of single-participant coordination the
    batch commits, writes the empty string over [currentContributor] and
    leaves [contributors] as it was; when the head invariant held before and
    the participant has a proper identifier, the participant is still the
    head of [contributors] but is no longer the recorded current
    contributor. *)
Theorem resume_clears_currentContributor env participant circuit w stored
    storedCircuit :
  resumingAfterTimeout participant circuit →
  participants (store w) !! ref participant = Some stored →
  circuits (store w) !! ref circuit = Some storedCircuit →
  let waitingQueue := Circuit.waitingQueue (data circuit) in
  let r := coordinate env participant circuit true None w in
  r.1 = Returned tt
  ∧ ∃ c', circuits (store r.2) !! ref circuit = Some c'
      ∧ WaitingQueue.currentContributor (Circuit.waitingQueue c') = ""
      ∧ WaitingQueue.contributors (Circuit.waitingQueue c')
        = WaitingQueue.contributors waitingQueue
      ∧ (headInvariant waitingQueue → id participant ≠ "" →
         head (WaitingQueue.contributors (Circuit.waitingQueue c'))
         = Some (id participant)
         ∧ WaitingQueue.currentContributor (Circuit.waitingQueue c')
           ≠ id participant).
Proof.
  intros Hres Hp Hc waitingQueue r. subst r.
  rewrite (coordinate_resuming env _ _ _ _ _ Hres Hp Hc). simpl.
  split; [done|]. eexists. rewrite lookup_insert_eq. split; [done|].
  simpl. split; [done|]. split; [done|].
  destruct Hres as (_ & Hcc & _). intros Hinv Hid.
  unfold headInvariant in Hinv. fold waitingQueue in Hcc.
  rewrite Hcc in Hinv. split; [by apply Hinv | congruence].
Qed.

(** C6, as the code has it. In the resuming branch the batch commits and
    sets the participant's [status] to CONTRIBUTING and [contributionStep]
    to DOWNLOADING; [contributionStartedAt] is overwritten with the reading
    of the server clock taken for it (the second reading of the
    invocation), as in Scenario A; progress, contributions and
    [verificationStartedAt] are left as they were. *)
Theorem resume_restarts_contributionStartedAt env participant circuit w stored
    storedCircuit :
  resumingAfterTimeout participant circuit →
  participants (store w) !! ref participant = Some stored →
  circuits (store w) !! ref circuit = Some storedCircuit →
  let r := coordinate env participant circuit true None w in
  r.1 = Returned tt
  ∧ ∃ p', participants (store r.2) !! ref participant = Some p'
      ∧ Participant.status p' = Some CONTRIBUTING
      ∧ Participant.contributionStep p' = Some DOWNLOADING
      ∧ Participant.contributionStartedAt p'
        = clock env (S (clockReadings w))
      ∧ Participant.contributionProgress p'
        = Participant.contributionProgress stored
      ∧ Participant.contributions p' = Participant.contributions stored
      ∧ Participant.verificationStartedAt p'
        = Participant.verificationStartedAt stored.
Proof.
  intros Hres Hp Hc r. subst r.
  rewrite (coordinate_resuming env _ _ _ _ _ Hres Hp Hc). simpl.
  split; [done|]. eexists. rewrite lookup_insert_eq. by repeat split.
Qed.

(** ** Runs of the verifier *)

Section VerifierRun.
Context (env : Env) (request : CallableRequest.t) (w : World).
Context (auth : AuthData.t) (ceremonyData : Ceremony.t)
  (circuitData : Circuit.t) (participantData : Participant.t).

Let ceremonyId := VerifyContributionData.ceremonyId (CallableRequest.data request).
Let circuitId := VerifyContributionData.circuitId (CallableRequest.data request).

Hypothesis Hauth : CallableRequest.auth request = Some auth.
Hypothesis Hceremony : ceremonies (store w) !! ceremonyId = Some ceremonyData.
Hypothesis Hcircuit :
  circuits (store w) !! (ceremonyId, circuitId) = Some circuitData.
Hypothesis Hparticipant :
  participants (store w) !! (ceremonyId, AuthData.uid auth) = Some participantData.

(** Get past the three checks and the reading of the three documents. *)
Ltac enter_verifycontribution Hcall :=
  destruct Hcall as (_ & Hrole & H1 & H2 & H3 & H4 & H5 & H6 & H7);
  unfold verifycontribution; rewrite Hauth;
  apply truthyString_true in H1, H2, H3, H4, H5, H6, H7;
  rewrite H1, H2, H3, H4, H5, H6, H7;
  replace (negb (AuthData.participant auth) && negb (AuthData.coordinator auth))
    with false by (destruct Hrole as [-> | ->]; simpl; by rewrite ?andb_false_r);
  cbn [negb orb];
  unfold mbind at 1 2 3, Handler_bind at 1 2 3, bind at 1 2 3, readStore;
  cbn beta iota delta [fst snd];
  fold ceremonyId circuitId; rewrite Hceremony, Hcircuit, Hparticipant;
  fold (finalizing ceremonyData auth) (contributing participantData).

(** Read the fields of the worlds built so far. *)
Ltac proj_world := cbn [store clockReadings callLog] in *.

(** A caller that is neither contributing nor finalizing: nothing is
    verified, the empty batch is committed and the call returns. *)
Lemma verifycontribution_not_eligible :
  wellFormedCall env request auth →
  contributing participantData = false →
  finalizing ceremonyData auth = false →
  verifycontribution env request w = (Returned tt, w).
Proof.
  intros Hcall Hc Hf. enter_verifycontribution Hcall.
  rewrite Hc, Hf. simpl. by destruct w.
Qed.

(** What a run that verifies a contribution and returns has done: the
    worker answered, one contribution document was created under a fresh
    reference, and the circuit was updated unless the caller is
    finalizing. *)
Lemma verifycontribution_eligible_returned w' :
  wellFormedCall env request auth →
  contributing participantData || finalizing ceremonyData auth = true →
  verifycontribution env request w = (Returned tt, w') →
  let waitingQueue := Circuit.waitingQueue circuitData in
  let avgTimings := Circuit.avgTimings circuitData in
  let completed := WaitingQueue.completedContributions waitingQueue in
  let failed := WaitingQueue.failedContributions waitingQueue in
  ∃ commandOutput document lastUpdated,
    retrieveCommandOutput env = Some commandOutput
    ∧ stopEC2Instance env = Some tt
    ∧ contributionDocs (store w) !! (ceremonyId, circuitId, autoId env) = None
    ∧ contributionDocs (store w')
      = <[(ceremonyId, circuitId, autoId env) := document]>
          (contributionDocs (store w))
    ∧ participants (store w') = participants (store w)
    ∧ ceremonies (store w') = ceremonies (store w)
    ∧ ContributionDoc.valid document = includes commandOutput "ZKey Ok!"
    ∧ ContributionDoc.participantId document = AuthData.uid auth
    ∧ (if includes commandOutput "ZKey Ok!" then
         ∃ first rest,
           Participant.contributions participantData = first :: rest
           ∧ length (filter (λ c, isContributionWithoutDocRef c)
                       (Participant.contributions participantData)) = 1%nat
           ∧ ContributionDoc.contributionComputationTime document
             = Some (Contribution.computationTime first)
           ∧ circuits (store w')
             = if finalizing ceremonyData auth then circuits (store w)
               else <[(ceremonyId, circuitId) :=
                        setTimingsAndQueue
                          (AvgTimings.mk
                             (rollingMean
                                (AvgTimings.contributionComputation avgTimings)
                                (Contribution.computationTime first))
                             (rollingMean
                                (AvgTimings.fullContribution avgTimings)
                                (Participant.verificationStartedAt participantData
                                 - Participant.contributionStartedAt
                                     participantData)%float)
                             (rollingMean
                                (AvgTimings.verifyCloudFunction avgTimings)
                                (verifyContributionTimerMs env)))
                          (withCounters waitingQueue (completed + 1) failed)
                          lastUpdated circuitData]> (circuits (store w))
       else
         deleteObject env = Some tt
         ∧ ContributionDoc.contributionComputationTime document = None
         ∧ circuits (store w')
           = if finalizing ceremonyData auth then circuits (store w)
             else <[(ceremonyId, circuitId) :=
                      setTimingsAndQueue
                        (AvgTimings.mk
                           (AvgTimings.contributionComputation avgTimings)
                           (AvgTimings.fullContribution avgTimings)
                           (AvgTimings.verifyCloudFunction avgTimings))
                        (withCounters waitingQueue completed (failed + 1))
                        lastUpdated circuitData]> (circuits (store w))).
Proof.
  intros Hcall Helig. enter_verifycontribution Hcall.
  rewrite Helig. intros Hrun.
  apply bind_returned in Hrun as (batch & w1 & Hbody & Hcommit).
  apply bind_returned in Hbody as ([] & wa & Hstart & Hbody).
  apply external_returned in Hstart as [Hstart ->]. proj_world.
  apply bind_returned in Hbody as (? & wb & Hprobe & Hbody).
  apply external_returned in Hprobe as [Hprobe ->]. proj_world.
  apply bind_returned in Hbody as (commandId & wc & Hcmd & Hbody).
  apply external_returned in Hcmd as [Hcmd ->]. proj_world.
  apply bind_returned in Hbody as (commandOutput & wd & Hout & Hbody).
  apply external_returned in Hout as [Hout ->]. proj_world.
  apply bind_returned in Hbody as ([] & we & Hstop & Hbody).
  apply external_returned in Hstop as [Hstop ->]. proj_world.
  apply bind_returned in Hbody as ([[tx cct] vcft] & wf & Htx & Hbody).
  exists commandOutput.
  destruct (includes commandOutput "ZKey Ok!") eqn:Hvalid.
  - (* valid *)
    destruct (negb (bool_decide _)) eqn:Hone; [discriminate Htx|].
    apply negb_false_iff, bool_decide_eq_true in Hone.
    destruct (Participant.contributions participantData) as [|first rest] eqn:Hcs;
      [discriminate Htx|].
    apply bind_returned in Htx as (t1 & wg & Ht1 & Htx).
    apply clock_returned in Ht1 as [-> ->]. proj_world.
    apply mret_returned in Htx as [[= -> -> ->] ->]. proj_world.
    destruct (finalizing ceremonyData auth) eqn:Hfin; cbn [negb] in Hbody.
    + apply mret_returned in Hbody as [-> ->]. proj_world.
      apply batchCommit_returned in Hcommit as (st' & Hcommit & ->). proj_world.
      apply commit_create in Hcommit as [Hfresh ->].
      eexists _, 0%float. repeat split; try done. by exists first, rest.
    + apply bind_returned in Hbody as (t2 & wh & Ht2 & Hbody).
      apply clock_returned in Ht2 as [-> ->]. proj_world.
      apply mret_returned in Hbody as [-> ->]. proj_world.
      apply batchCommit_returned in Hcommit as (st' & Hcommit & ->). proj_world.
      cbn [app] in Hcommit.
      eapply commit_create_update in Hcommit as [Hfresh ->]; [|exact Hcircuit].
      eexists _, _. repeat split; try done. by exists first, rest.
  - (* invalid *)
    apply bind_returned in Htx as ([] & wg & Hdel & Htx).
    apply external_returned in Hdel as [Hdel ->]. proj_world.
    apply bind_returned in Htx as (t1 & wh & Ht1 & Htx).
    apply clock_returned in Ht1 as [-> ->]. proj_world.
    apply mret_returned in Htx as [[= -> -> ->] ->]. proj_world.
    destruct (finalizing ceremonyData auth) eqn:Hfin; cbn [negb] in Hbody.
    + apply mret_returned in Hbody as [-> ->]. proj_world.
      apply batchCommit_returned in Hcommit as (st' & Hcommit & ->). proj_world.
      apply commit_create in Hcommit as [Hfresh ->].
      eexists _, 0%float. by repeat split.
    + apply bind_returned in Hbody as (t2 & wi & Ht2 & Hbody).
      apply clock_returned in Ht2 as [-> ->]. proj_world.
      apply mret_returned in Hbody as [-> ->]. proj_world.
      apply batchCommit_returned in Hcommit as (st' & Hcommit & ->). proj_world.
      cbn [app] in Hcommit.
      eapply commit_create_update in Hcommit as [Hfresh ->]; [|exact Hcircuit].
      eexists _, _. by repeat split.
Qed.

(** No call to stop the worker is among an explicit list of other calls. *)
Ltac not_among_calls :=
  let Hin := fresh "Hin" in
  intros ? Hin;
  repeat (apply elem_of_cons in Hin as [Hin|Hin]; [discriminate Hin|]);
  by apply elem_of_nil in Hin.

(** A rejected call to the worker pool before the output is in hand aborts
    the invocation on the spot. *)
Lemma verifycontribution_worker_rejected :
  wellFormedCall env request auth →
  contributing participantData || finalizing ceremonyData auth = true →
  startEC2Instance env = None ∨ checkEC2Status env = None
  ∨ runCommandOnEC2 env = None ∨ retrieveCommandOutput env = None →
  ∃ calls,
    verifycontribution env request w
    = (Thrown ExternalCallRejected,
       mkWorld (store w) (clockReadings w) (callLog w ++ calls)%list)
    ∧ ∀ instanceId, StopEC2Instance instanceId ∉ calls.
Proof.
  intros Hcall Helig Hrejected. enter_verifycontribution Hcall.
  rewrite Helig. unfold mbind, Handler_bind, bind, external.
  destruct (startEC2Instance env) as [[]|];
    cbn beta iota zeta delta [store clockReadings callLog].
  2:{ eexists [_]. split; [reflexivity|]. not_among_calls. }
  destruct (checkEC2Status env) as [running|];
    cbn beta iota zeta delta [store clockReadings callLog].
  2:{ eexists [_; _]. rewrite <- !app_assoc. split; [reflexivity|].
      not_among_calls. }
  destruct (runCommandOnEC2 env) as [commandId|];
    cbn beta iota zeta delta [store clockReadings callLog].
  2:{ eexists [_; _; _]. rewrite <- !app_assoc. split; [reflexivity|].
      not_among_calls. }
  destruct (retrieveCommandOutput env) as [commandOutput|];
    cbn beta iota zeta delta [store clockReadings callLog].
  2:{ eexists [_; _; _; _]. rewrite <- !app_assoc. split; [reflexivity|].
      not_among_calls. }
  by destruct Hrejected as [?|[?|[?|?]]].
Qed.

(** The log of the final world extends the initial one by a list of calls
    among which is the call to stop the worker. *)
Ltac log_has_stop :=
  cbn beta iota zeta delta [store clockReadings callLog snd];
  rewrite <- ?app_assoc; (eexists; split; [reflexivity|]); cbn [app];
  repeat first [apply list_elem_of_here | apply list_elem_of_further].

(** Once the command output is in hand the worker is asked to stop,
    whatever happens afterwards. *)
Lemma verifycontribution_worker_stopped running commandId commandOutput :
  wellFormedCall env request auth →
  contributing participantData || finalizing ceremonyData auth = true →
  startEC2Instance env = Some tt →
  checkEC2Status env = Some running →
  runCommandOnEC2 env = Some commandId →
  retrieveCommandOutput env = Some commandOutput →
  ∃ calls,
    callLog (verifycontribution env request w).2 = (callLog w ++ calls)%list
    ∧ StopEC2Instance (Circuit.instanceId circuitData) ∈ calls.
Proof.
  intros Hcall Helig Hstart Hprobe Hcmd Hout. enter_verifycontribution Hcall.
  rewrite Helig. unfold mbind, Handler_bind, bind, external.
  rewrite Hstart, Hprobe, Hcmd, Hout.
  cbn beta iota zeta delta [store clockReadings callLog].
  unfold throw, mret, Handler_ret, ret, getCurrentServerTimestampInMillis,
    batchCommit.
  destruct (stopEC2Instance env) as [[]|]; [|log_has_stop].
  destruct (includes commandOutput "ZKey Ok!").
  - destruct (negb (bool_decide _)); [log_has_stop|].
    destruct (Participant.contributions participantData); [log_has_stop|].
    destruct (finalizing ceremonyData auth);
      cbn beta iota zeta delta [store clockReadings callLog negb];
      destruct (commit _ _); log_has_stop.
  - destruct (deleteObject env) as [[]|]; [|log_has_stop].
    destruct (finalizing ceremonyData auth);
      cbn beta iota zeta delta [store clockReadings callLog negb];
      destruct (commit _ _); log_has_stop.
Qed.

End VerifierRun.

(** ** The validity decision *)

(** [includes] is the substring test. *)
Lemma startsWith_spec s pattern :
  startsWith s pattern = true ↔ ∃ rest, s = pattern ++ rest.
Proof.
  revert s. induction pattern as [|c pattern IH]; intros s; simpl.
  - split; [by exists s | done].
  - destruct s as [|d s]; [split; [done | by intros [? [=]]]|].
    rewrite andb_true_iff, Ascii.eqb_eq, IH. split.
    + intros [-> [rest ->]]. by exists rest.
    + intros [rest [= -> ->]]. eauto.
Qed.

Lemma includes_spec s pattern :
  includes s pattern = true ↔ ∃ l r, s = l ++ pattern ++ r.
Proof.
  induction s as [|d s IH]; simpl; rewrite orb_true_iff, startsWith_spec.
  - split.
    + intros [[rest ->]|[=]]. by exists "", rest.
    + intros ([|? l] & r & H); [|done]. left. by exists r.
  - rewrite IH. split.
    + intros [[rest ->]|(l & r & ->)]; [by exists "", rest|].
      by exists (String d l), r.
    + intros ([|c l] & r & H); [left; by exists r|].
      injection H as -> ->. right. by exists l, r.
Qed.

Lemma bind_ext {A B} (m : Handler A) (k1 k2 : A → Handler B) w :
  (∀ a w1, k1 a w1 = k2 a w1) → (m ≫= k1) w = (m ≫= k2) w.
Proof.
  intros Hk. unfold mbind, Handler_bind, bind. by destruct (m w) as [[a|e] w1].
Qed.

Lemma bind_congr {A B} (m1 m2 : Handler A) (k : A → Handler B) w :
  m1 w = m2 w → (m1 ≫= k) w = (m2 ≫= k) w.
Proof. intros Hm. unfold mbind, Handler_bind, bind. by rewrite Hm. Qed.

Lemma bind_external_answered {A B} call (a : A) (k : A → Handler B) w :
  (external call (Some a) ≫= k) w
  = k a (mkWorld (store w) (clockReadings w) (callLog w ++ [call])%list).
Proof. done. Qed.

(** Two command outputs that agree on the marker lead to the same run. *)
Lemma verifycontribution_output_irrelevant env request w output1 output2 :
  includes output1 "ZKey Ok!" = includes output2 "ZKey Ok!" →
  verifycontribution (withCommandOutput env output1) request w
  = verifycontribution (withCommandOutput env output2) request w.
Proof.
  intros Hsame. unfold verifycontribution.
  change (getCurrentServerTimestampInMillis (withCommandOutput env output1))
    with (getCurrentServerTimestampInMillis env).
  change (getCurrentServerTimestampInMillis (withCommandOutput env output2))
    with (getCurrentServerTimestampInMillis env).
  cbn [withCommandOutput clock startEC2Instance checkEC2Status runCommandOnEC2
       retrieveCommandOutput stopEC2Instance deleteObject
       verificationTaskTimerMs verifyContributionTimerMs autoId
       getTranscriptStorageFilePath getZkeyStorageFilePath
       CUSTOM_CONTRIBUTION_VERIFICATION_SOFTWARE_NAME
       CUSTOM_CONTRIBUTION_VERIFICATION_SOFTWARE_VERSION
       CUSTOM_CONTRIBUTION_VERIFICATION_SOFTWARE_COMMIT_HASH].
  destruct (CallableRequest.auth request) as [auth|]; [|done].
  repeat (match goal with
          | |- (if ?b then _ else _) _ = _ => destruct b; [done|]
          end).
  do 3 (apply bind_ext; intros ? ?).
  repeat (match goal with
          | |- match ?x with _ => _ end _ = _ => destruct x; [|done..]
          end).
  apply bind_congr. destruct (_ || _); [|done].
  do 3 (apply bind_ext; intros ? ?).
  rewrite !bind_external_answered. cbv zeta. by rewrite Hsame.
Qed.

(** ** The verifier on its scenarios *)

Lemma solo_wellFormedCall output :
  wellFormedCall (envAnswering output "doc-1") (call "U" false) Solo.auth.
Proof. by repeat split; try left. Qed.

Lemma solo_documentsFound :
  documentsFound Solo.world (call "U" false) Solo.auth (Ceremony.mk OPENED)
    (freshCircuit ["U"] "U") Solo.data.
Proof. by repeat split. Qed.

(** C2. A run of [verifycontribution] that verifies a contribution and
    returns has created one contribution document, under a fresh reference,
    whose [valid] field is [true] exactly when the command output retrieved
    from the worker contains ["ZKey Ok!"]; and two outputs that agree on
    containing the marker lead to the very same run, so nothing else in the
    output is looked at. *)
Theorem validity_is_the_marker env request w auth ceremonyData circuitData
    participantData w' :
  wellFormedCall env request auth →
  documentsFound w request auth ceremonyData circuitData participantData →
  contributing participantData || finalizing ceremonyData auth = true →
  verifycontribution env request w = (Returned tt, w') →
  (∃ commandOutput document,
     retrieveCommandOutput env = Some commandOutput
     ∧ contributionDocs (store w) !! contributionRef env request = None
     ∧ contributionDocs (store w') !! contributionRef env request
       = Some document
     ∧ ContributionDoc.valid document = includes commandOutput "ZKey Ok!"
     ∧ (ContributionDoc.valid document = true
        ↔ ∃ l r, commandOutput = l ++ "ZKey Ok!" ++ r))
  ∧ (∀ output1 output2,
       includes output1 "ZKey Ok!" = includes output2 "ZKey Ok!" →
       verifycontribution (withCommandOutput env output1) request w
       = verifycontribution (withCommandOutput env output2) request w).
Proof.
  intros Hcall (Hceremony & Hcircuit & Hparticipant) Helig Hrun.
  split; [|intros; by apply verifycontribution_output_irrelevant].
  pose proof Hcall as (Hauth & _).
  destruct (verifycontribution_eligible_returned _ _ _ _ _ _ _
              Hauth Hceremony Hcircuit Hparticipant _ Hcall Helig Hrun)
    as (commandOutput & document & t & Hout & _ & Hfresh & Hdocs & _ & _
        & Hvalid & _).
  exists commandOutput, document. unfold contributionRef, circuitRef.
  rewrite Hdocs, lookup_insert_eq, Hvalid.
  repeat split; try done; by apply includes_spec.
Qed.

Lemma validity_is_the_marker_witness :
  let env := envAnswering validOutput "doc-1" in
  let r := verifycontribution env (call "U" false) Solo.world in
  r.1 = Returned tt
  ∧ ∃ document,
      contributionDocs (store r.2) !! ("ceremony", "circuit-1", "doc-1")
      = Some document
      ∧ ContributionDoc.valid document = true.
Proof.
  split; [by vm_compute|].
  destruct (validity_is_the_marker (envAnswering validOutput "doc-1")
              (call "U" false) Solo.world Solo.auth (Ceremony.mk OPENED)
              (freshCircuit ["U"] "U") Solo.data
              (verifycontribution (envAnswering validOutput "doc-1")
                 (call "U" false) Solo.world).2
              (solo_wellFormedCall _) solo_documentsFound eq_refl
              ltac:(by vm_compute))
    as [(commandOutput & document & Hout & _ & Hdoc & Hvalid & _) _].
  exists document. split; [exact Hdoc|].
  injection Hout as <-. exact Hvalid.
Defined.

(** C4, counterexample. W, whose status is WAITING, calls the verifier on
    an OPENED ceremony with complete inputs. The invocation is not
    finalizing and commits; no contribution was found valid (the worker is
    not even asked, and no contribution document is created), and
    [failedContributions] is 0 before and 0 after instead of 1. *)
Lemma waiting_run_counts_no_failure :
  let r := verifycontribution (envAnswering invalidOutput "doc-1")
             (call "W" false) Waiting.world in
  wellFormedCall (envAnswering invalidOutput "doc-1") (call "W" false)
    Waiting.auth
  ∧ documentsFound Waiting.world (call "W" false) Waiting.auth
      (Ceremony.mk OPENED) Waiting.circuit Waiting.data
  ∧ finalizing (Ceremony.mk OPENED) Waiting.auth = false
  ∧ r.1 = Returned tt
  ∧ callLog r.2 = []
  ∧ contributionDocs (store r.2) = ∅
  ∧ (WaitingQueue.failedContributions ∘ Circuit.waitingQueue
     <$> circuits (store Waiting.world) !! ("ceremony", "circuit-1"))
    = Some 0
  ∧ (WaitingQueue.failedContributions ∘ Circuit.waitingQueue
     <$> circuits (store r.2) !! ("ceremony", "circuit-1"))
    = Some 0.
Proof.
  split; [by repeat split; try left|].
  split; [by repeat split|].
  do 5 (split; [by vm_compute|]). by vm_compute.
Qed.

(** C4, as the code has it. For a run that commits, on a circuit whose
    counters are below 2^53: if the run is not finalizing and a contribution
    was verified (the caller is CONTRIBUTING), exactly one is added to
    [completedContributions] and [failedContributions] is left alone when
    the contribution is valid, exactly one is added to [failedContributions]
    and [completedContributions] and [avgTimings] are left alone when it is
    not; if the run is not finalizing and no contribution was verified (the
    caller is not CONTRIBUTING), neither counter moves and the store is
    left as it was. For a finalizing run (ceremony CLOSED, coordinator
    caller) that commits, every circuit document is left as it was. *)
Theorem counters_follow_validity env request w auth ceremonyData circuitData
    participantData w' :
  wellFormedCall env request auth →
  documentsFound w request auth ceremonyData circuitData participantData →
  exactCounter
    (WaitingQueue.completedContributions (Circuit.waitingQueue circuitData)) →
  exactCounter
    (WaitingQueue.failedContributions (Circuit.waitingQueue circuitData)) →
  verifycontribution env request w = (Returned tt, w') →
  (finalizing ceremonyData auth = false →
   (contributing participantData = true →
    ∃ commandOutput circuitAfter,
      retrieveCommandOutput env = Some commandOutput
      ∧ circuits (store w') !! circuitRef request = Some circuitAfter
      ∧ if includes commandOutput "ZKey Ok!" then
          WaitingQueue.completedContributions (Circuit.waitingQueue circuitAfter)
          = WaitingQueue.completedContributions
              (Circuit.waitingQueue circuitData) + 1
          ∧ WaitingQueue.failedContributions (Circuit.waitingQueue circuitAfter)
            = WaitingQueue.failedContributions (Circuit.waitingQueue circuitData)
        else
          WaitingQueue.completedContributions (Circuit.waitingQueue circuitAfter)
          = WaitingQueue.completedContributions
              (Circuit.waitingQueue circuitData)
          ∧ WaitingQueue.failedContributions (Circuit.waitingQueue circuitAfter)
            = WaitingQueue.failedContributions (Circuit.waitingQueue circuitData)
              + 1
          ∧ Circuit.avgTimings circuitAfter = Circuit.avgTimings circuitData)
   ∧ (contributing participantData = false → store w' = store w))
  ∧ (finalizing ceremonyData auth = true →
     circuits (store w') = circuits (store w)).
Proof.
  intros Hcall (Hceremony & Hcircuit & Hparticipant) _ _ Hrun.
  pose proof Hcall as (Hauth & _).
  pose proof (verifycontribution_eligible_returned _ _ _ _ _ _ _
                Hauth Hceremony Hcircuit Hparticipant w' Hcall) as Hinv.
  split; [intros Hfin; split|].
  - intros Hcontributing.
    destruct Hinv as (commandOutput & document & t & Hout & _ & _ & _ & _ & _
                      & _ & _ & Hcases); [by rewrite Hcontributing | done |].
    exists commandOutput. rewrite Hfin in Hcases.
    destruct (includes commandOutput "ZKey Ok!").
    + destruct Hcases as (first & rest & _ & _ & _ & ->).
      eexists. rewrite lookup_insert_eq. by repeat split.
    + destruct Hcases as (_ & _ & ->).
      eexists. rewrite lookup_insert_eq. repeat split; try done.
      simpl. by destruct (Circuit.avgTimings circuitData).
  - intros Hwaiting.
    rewrite (verifycontribution_not_eligible _ _ _ _ _ _ _
               Hauth Hceremony Hcircuit Hparticipant Hcall Hwaiting Hfin)
      in Hrun.
    by injection Hrun as <-.
  - intros Hfin.
    destruct Hinv as (commandOutput & document & t & _ & _ & _ & _ & _ & _
                      & _ & _ & Hcases); [by rewrite Hfin, orb_true_r | done |].
    rewrite Hfin in Hcases. destruct (includes commandOutput "ZKey Ok!").
    + by destruct Hcases as (first & rest & _ & _ & _ & ->).
    + by destruct Hcases as (_ & _ & ->).
Qed.

Lemma counters_follow_validity_witness :
  let env := envAnswering invalidOutput "doc-1" in
  let r := verifycontribution env (call "U" false) Solo.world in
  r.1 = Returned tt
  ∧ ∃ circuitAfter,
      circuits (store r.2) !! ("ceremony", "circuit-1") = Some circuitAfter
      ∧ WaitingQueue.completedContributions (Circuit.waitingQueue circuitAfter)
        = 0
      ∧ WaitingQueue.failedContributions (Circuit.waitingQueue circuitAfter)
        = 1
      ∧ Circuit.avgTimings circuitAfter = AvgTimings.mk 0 0 0.
Proof.
  split; [by vm_compute|].
  destruct (counters_follow_validity (envAnswering invalidOutput "doc-1")
              (call "U" false) Solo.world Solo.auth (Ceremony.mk OPENED)
              (freshCircuit ["U"] "U") Solo.data
              (verifycontribution (envAnswering invalidOutput "doc-1")
                 (call "U" false) Solo.world).2
              (solo_wellFormedCall _) solo_documentsFound
              ltac:(unfold exactCounter; simpl; lia)
              ltac:(unfold exactCounter; simpl; lia)
              ltac:(by vm_compute))
    as [Hcontributor _].
  destruct (proj1 (Hcontributor eq_refl) eq_refl)
    as (commandOutput & circuitAfter & Hout & Hcircuit & Hcounters).
  exists circuitAfter. split; [exact Hcircuit|].
  injection Hout as <-. exact Hcounters.
Defined.

(** C7, as the code has it. A well-formed call by a caller whose status is
    not CONTRIBUTING and who is not the coordinator of a CLOSED ceremony is
    not rejected: nothing is verified, the empty batch is committed and the
    call returns normally, leaving the store untouched, the worker uncalled
    and the clock unread. *)
Theorem ineligible_caller_returns_normally env request w auth ceremonyData
    circuitData participantData :
  wellFormedCall env request auth →
  documentsFound w request auth ceremonyData circuitData participantData →
  Participant.status participantData ≠ Some CONTRIBUTING →
  ¬ (Ceremony.state ceremonyData = CLOSED ∧ AuthData.coordinator auth = true) →
  verifycontribution env request w = (Returned tt, w).
Proof.
  intros Hcall (Hceremony & Hcircuit & Hparticipant) Hstatus Hfinal.
  pose proof Hcall as (Hauth & _).
  apply (verifycontribution_not_eligible _ _ _ _ _ _ _
           Hauth Hceremony Hcircuit Hparticipant Hcall).
  - by apply bool_decide_eq_false.
  - unfold finalizing. apply andb_false_iff.
    destruct (AuthData.coordinator auth); [left | by right].
    apply bool_decide_eq_false. naive_solver.
Qed.

(** C7, counterexample. W is authenticated, the payload and the
    configuration are complete, W's status is WAITING and the ceremony is
    OPENED; the call returns normally instead of failing. *)
Lemma waiting_caller_is_not_rejected :
  wellFormedCall (envAnswering validOutput "doc-1") (call "W" false)
    Waiting.auth
  ∧ documentsFound Waiting.world (call "W" false) Waiting.auth
      (Ceremony.mk OPENED) Waiting.circuit Waiting.data
  ∧ Participant.status Waiting.data = Some WAITING
  ∧ verifycontribution (envAnswering validOutput "doc-1") (call "W" false)
      Waiting.world
    = (Returned tt, Waiting.world).
Proof.
  split; [by repeat split; try left|].
  split; [by repeat split|].
  split; [done|]. by vm_compute.
Qed.

(** The coordinator calls the verifier before the ceremony is closed. *)
Lemma ineligible_caller_returns_normally_witness :
  verifycontribution (envAnswering validOutput "doc-1") (call "W" true)
    Waiting.world
  = (Returned tt, Waiting.world).
Proof.
  apply (ineligible_caller_returns_normally
           (envAnswering validOutput "doc-1") (call "W" true) Waiting.world
           (AuthData.mk "W" false true) (Ceremony.mk OPENED) Waiting.circuit
           Waiting.data).
  - by repeat split; try right.
  - by repeat split.
  - discriminate.
  - intros [Hclosed _]. discriminate Hclosed.
Defined.

(** C8, as the code has it. In a run that gets to verify a contribution:
    when starting the worker, probing it, running the commands or retrieving
    their output is rejected, the invocation is aborted with that error, the
    store is left as it was (no contribution document is recorded, so no
    participant is advanced) and the worker is not asked to stop; when all
    four are answered (a probe that answers "not running" included), the
    worker is asked to stop whatever happens afterwards. *)
Theorem rejected_worker_call_aborts env request w auth ceremonyData circuitData
    participantData :
  wellFormedCall env request auth →
  documentsFound w request auth ceremonyData circuitData participantData →
  contributing participantData || finalizing ceremonyData auth = true →
  (startEC2Instance env = None ∨ checkEC2Status env = None
   ∨ runCommandOnEC2 env = None ∨ retrieveCommandOutput env = None →
   ∃ calls,
     verifycontribution env request w
     = (Thrown ExternalCallRejected,
        mkWorld (store w) (clockReadings w) (callLog w ++ calls)%list)
     ∧ ∀ instanceId, StopEC2Instance instanceId ∉ calls)
  ∧ (∀ running commandId commandOutput,
       startEC2Instance env = Some tt →
       checkEC2Status env = Some running →
       runCommandOnEC2 env = Some commandId →
       retrieveCommandOutput env = Some commandOutput →
       ∃ calls,
         callLog (verifycontribution env request w).2
         = (callLog w ++ calls)%list
         ∧ StopEC2Instance (Circuit.instanceId circuitData) ∈ calls).
Proof.
  intros Hcall (Hceremony & Hcircuit & Hparticipant) Helig.
  pose proof Hcall as (Hauth & _). split.
  - by apply (verifycontribution_worker_rejected _ _ _ _ _ _ _
                Hauth Hceremony Hcircuit Hparticipant).
  - intros running commandId commandOutput.
    by apply (verifycontribution_worker_stopped _ _ _ _ _ _ _
                Hauth Hceremony Hcircuit Hparticipant).
Qed.

(** C8, counterexample. U is contributing and the command script is
    rejected: the call fails, no contribution document is recorded and, of
    the three calls made to the worker pool, none asks it to stop. *)
Lemma rejected_command_leaves_worker_running :
  let r := verifycontribution envRejectingCommand (call "U" false) Solo.world in
  contributing Solo.data = true
  ∧ r.1 = Thrown ExternalCallRejected
  ∧ contributionDocs (store r.2) = ∅
  ∧ store r.2 = store Solo.world
  ∧ length (callLog r.2) = 3%nat
  ∧ ∀ instanceId, StopEC2Instance instanceId ∉ callLog r.2.
Proof.
  repeat split; try by vm_compute.
  intros instanceId Hin. vm_compute in Hin.
  repeat (apply elem_of_cons in Hin as [Hin|Hin]; [discriminate Hin|]).
  by apply elem_of_nil in Hin.
Qed.

Lemma rejected_worker_call_aborts_witness :
  ∃ calls,
    verifycontribution envRejectingCommand (call "U" false) Solo.world
    = (Thrown ExternalCallRejected,
       mkWorld (store Solo.world) 0 ([] ++ calls)%list)
    ∧ ∀ instanceId, StopEC2Instance instanceId ∉ calls.
Proof.
  apply (rejected_worker_call_aborts envRejectingCommand (call "U" false)
           Solo.world Solo.auth (Ceremony.mk OPENED) (freshCircuit ["U"] "U")
           Solo.data).
  - by repeat split; try left.
  - exact solo_documentsFound.
  - reflexivity.
  - right. right. by left.
Defined.

(** C5. On a valid contribution of a contributor each rolling mean of the
    circuit is updated by [new = prev > 0 ? (prev + sample) / 2 : sample],
    the samples being the computation time read from the participant's
    contributions, [verificationStartedAt - contributionStartedAt] and the
    time of the handler; and on a fresh circuit three valid contributions
    with full contribution times 100, 300 and 500 ms leave 100, then 200,
    then 350 in [avgTimings.fullContribution]. *)
Theorem rolling_means_rule :
  (∀ env request w auth ceremonyData circuitData participantData w'
     commandOutput,
     wellFormedCall env request auth →
     documentsFound w request auth ceremonyData circuitData participantData →
     contributing participantData = true →
     finalizing ceremonyData auth = false →
     verifycontribution env request w = (Returned tt, w') →
     retrieveCommandOutput env = Some commandOutput →
     includes commandOutput "ZKey Ok!" = true →
     ∃ first rest circuitAfter,
       Participant.contributions participantData = first :: rest
       ∧ circuits (store w') !! circuitRef request = Some circuitAfter
       ∧ Circuit.avgTimings circuitAfter
         = AvgTimings.mk
             (rollingMean
                (AvgTimings.contributionComputation
                   (Circuit.avgTimings circuitData))
                (Contribution.computationTime first))
             (rollingMean
                (AvgTimings.fullContribution (Circuit.avgTimings circuitData))
                (Participant.verificationStartedAt participantData
                 - Participant.contributionStartedAt participantData)%float)
             (rollingMean
                (AvgTimings.verifyCloudFunction (Circuit.avgTimings circuitData))
                (verifyContributionTimerMs env)))
  ∧ (Rolling.run1.1 = Returned tt
     ∧ Rolling.fullContributionAfter Rolling.run1 = Some (100%float, 1)
     ∧ Rolling.run2.1 = Returned tt
     ∧ Rolling.fullContributionAfter Rolling.run2 = Some (200%float, 2)
     ∧ Rolling.run3.1 = Returned tt
     ∧ Rolling.fullContributionAfter Rolling.run3 = Some (350%float, 3)).
Proof.
  split; [|by vm_compute].
  intros env request w auth ceremonyData circuitData participantData w'
    commandOutput Hcall (Hceremony & Hcircuit & Hparticipant) Hcontributing
    Hfin Hrun Hout Hvalid.
  pose proof Hcall as (Hauth & _).
  destruct (verifycontribution_eligible_returned _ _ _ _ _ _ _
              Hauth Hceremony Hcircuit Hparticipant w' Hcall)
    as (commandOutput' & document & t & Hout' & _ & _ & _ & _ & _ & _ & _
        & Hcases); [by rewrite Hcontributing | done |].
  rewrite Hout in Hout'. injection Hout' as <-.
  rewrite Hvalid, Hfin in Hcases.
  destruct Hcases as (first & rest & Hcs & _ & _ & ->).
  exists first, rest. eexists. rewrite lookup_insert_eq. by repeat split.
Qed.

Lemma rolling_means_rule_witness :
  ∃ circuitAfter,
    circuits (store Rolling.run2.2) !! ("ceremony", "circuit-1")
    = Some circuitAfter
    ∧ Circuit.avgTimings circuitAfter = AvgTimings.mk 40 200 9.
Proof.
  destruct (proj1 rolling_means_rule (envAnswering validOutput "doc-2")
              (call "B" false) Rolling.world2 (AuthData.mk "B" true false)
              (Ceremony.mk OPENED)
              (Circuit.mk 1 "multiplier" "i-0abc"
                 (WaitingQueue.mk ["B"; "C"] "B" 1 0)
                 (AvgTimings.mk 40 100 9) 5001%float)
              (contributor 2000 2300) Rolling.run2.2 validOutput)
    as (first & rest & circuitAfter & Hcs & Hcircuit & Havg).
  - by repeat split; try left.
  - repeat split; by vm_compute.
  - reflexivity.
  - reflexivity.
  - by vm_compute.
  - reflexivity.
  - by vm_compute.
  - exists circuitAfter. split; [exact Hcircuit|].
    injection Hcs as <- <-. rewrite Havg. by vm_compute.
Defined.

(** C3, the code at the failing input. The participant has exactly one
    entry without document reference, the second one, with computation time
    20; the run is valid and commits, and the contribution document and the
    rolling mean of the circuit receive 10, the computation time of the
    first entry of the array. *)
Lemma computation_time_read_from_first_entry :
  let r := verifycontribution (envAnswering validOutput "doc-1")
             SecondCircuit.request SecondCircuit.world in
  filter (λ c, isContributionWithoutDocRef c)
    (Participant.contributions SecondCircuit.data)
  = [SecondCircuit.pending]
  ∧ Contribution.computationTime SecondCircuit.pending = 20%float
  ∧ r.1 = Returned tt
  ∧ (ContributionDoc.contributionComputationTime
     <$> contributionDocs (store r.2) !! ("ceremony", "circuit-2", "doc-1"))
    = Some (Some 10%float)
  ∧ (AvgTimings.contributionComputation ∘ Circuit.avgTimings
     <$> circuits (store r.2) !! ("ceremony", "circuit-2"))
    = Some 10%float.
Proof. repeat split; by vm_compute. Qed.

(** ** Re-invoking the coordinator *)

(** Multi-participant coordination for a participant who is not the current
    contributor of a circuit without current contributor rewrites the queue
    as it is. *)
Lemma coordinate_without_currentContributor env participant circuit ceremonyId w :
  circuits (store w) !! ref circuit = Some (data circuit) →
  WaitingQueue.currentContributor (Circuit.waitingQueue (data circuit)) = "" →
  id participant ≠ "" →
  sameUpToLastUpdated
    (store (coordinate env participant circuit false ceremonyId w).2) (store w).
Proof.
  intros Hc Hcc Hid. unfold coordinate. rewrite Hcc.
  replace (String.eqb "" (id participant)) with false
    by (symmetry; by apply String.eqb_neq).
  cbn [andb]. unfold mbind, Handler_bind, bind, mret, Handler_ret, ret,
    getCurrentServerTimestampInMillis, batchCommit.
  cbn [app commit applyWrite store fst snd]. rewrite Hc.
  cbn [store snd]. unfold sameUpToLastUpdated, eraseLastUpdated.
  cbn [ceremonies circuits participants contributionDocs]. f_equal.
  rewrite fmap_insert. apply insert_id. rewrite lookup_fmap, Hc.
  cbn [fmap option_fmap option_map]. f_equal.
  destruct (data circuit) as [? ? ? [cs cc n m] ? ?]. simpl in *. by subst cc.
Qed.

(** C9, as the code has it. Re-invoking the coordinator with the same
    before/after pair leaves the store as the first invocation left it, up
    to [lastUpdated], when the pair does not dispatch single-participant
    coordination, the participant has a proper identifier and, after the
    first invocation, no circuit of the ceremony at the position of
    [before.contributionProgress] has a current contributor: that is, for an
    ignored update, and for a completed contribution that emptied the queue
    or was not coordinated. *)
Theorem reinvocation_without_currentContributor env participantChanges w :
  let w1 := (coordinateCeremonyParticipant env participantChanges w).2 in
  let w2 := (coordinateCeremonyParticipant env participantChanges w1).2 in
  singleParticipantEvent participantChanges = false →
  id (after participantChanges) ≠ "" →
  (∀ circuitId c,
     circuits (store w1) !! (ceremonyOf (before participantChanges), circuitId)
     = Some c →
     Circuit.sequencePosition c
     = Participant.contributionProgress (data (before participantChanges)) →
     WaitingQueue.currentContributor (Circuit.waitingQueue c) = "") →
  sameUpToLastUpdated (store w2) (store w1).
Proof.
  intros w1 w2 Hsingle Hid Hcc. subst w2. generalize dependent w1.
  intros w1 Hcc. unfold coordinateCeremonyParticipant.
  fold (singleParticipantEvent participantChanges). rewrite Hsingle.
  unfold mbind at 1, Handler_bind at 1, bind at 1.
  destruct (truthyString _); unfold mret at 1, Handler_ret, ret, throw;
    cbn beta iota; [|done].
  destruct (_ || _); [|done].
  unfold mbind at 1, Handler_bind at 1, bind at 1.
  destruct (getCircuitDocumentByPosition _ _ w1) as [[circuit|e] w'] eqn:Hget.
  - apply getCircuitDocumentByPosition_stored in Hget
      as (-> & Hceremony & Hposition & Hstored).
    apply coordinate_without_currentContributor; [done| |done].
    apply (Hcc (id circuit)); [|done]. by rewrite <- Hceremony.
  - unfold getCircuitDocumentByPosition in Hget.
    by repeat case_match; simplify_eq.
Qed.

(** ** The coordinator on its scenarios *)

Lemma head_invariant_preserved_witness :
  storeHeadInvariant
    (store (coordinateCeremonyParticipant envTicking Contention.change
              Contention.world).2).
Proof.
  refine (proj1 (head_invariant_preserved envTicking Contention.world _)
            Contention.change).
  apply map_Forall_singleton. intros _. reflexivity.
Defined.

Lemma resume_clears_currentContributor_witness :
  let r := coordinate envTicking (after Timeout.change)
             (mkSnapshot "ceremony" "circuit-2" Timeout.circuit) true None
             Timeout.world in
  r.1 = Returned tt
  ∧ ∃ c', circuits (store r.2) !! ("ceremony", "circuit-2") = Some c'
      ∧ WaitingQueue.currentContributor (Circuit.waitingQueue c') = ""
      ∧ WaitingQueue.contributors (Circuit.waitingQueue c') = ["C"; "D"].
Proof.
  destruct (resume_clears_currentContributor envTicking (after Timeout.change)
              (mkSnapshot "ceremony" "circuit-2" Timeout.circuit)
              Timeout.world Timeout.readyC Timeout.circuit)
    as (Hreturned & c' & Hc' & Hcurrent & Hcontributors & _).
  - split; [by left|]. by split.
  - reflexivity.
  - reflexivity.
  - split; [exact Hreturned|]. exists c'.
    split; [exact Hc'|]. split; [exact Hcurrent | exact Hcontributors].
Defined.

(** C6, counterexample. The update of C is classified as resuming after a
    timeout and C is the READY current contributor of a non-empty queue;
    the coordination commits and C's [contributionStartedAt], 1000 before,
    is 5001 afterwards, the second reading of the server clock. *)
Lemma resume_resets_contributionStartedAt :
  let r := coordinateCeremonyParticipant envTicking Timeout.change Timeout.world in
  participantResumingContributionAfterTimeout Timeout.change = true
  ∧ resumingAfterTimeout (after Timeout.change)
      (mkSnapshot "ceremony" "circuit-2" Timeout.circuit)
  ∧ r.1 = Returned tt
  ∧ (Participant.contributionStartedAt
     <$> participants (store Timeout.world) !! ("ceremony", "C"))
    = Some 1000%float
  ∧ (Participant.contributionStartedAt
     <$> participants (store r.2) !! ("ceremony", "C"))
    = Some 5001%float
  ∧ (5001 =? 1000)%float = false.
Proof.
  split; [reflexivity|]. split; [split; [by left | by split]|].
  repeat split; by vm_compute.
Qed.

Lemma resume_restarts_contributionStartedAt_witness :
  let r := coordinate envTicking (after Timeout.change)
             (mkSnapshot "ceremony" "circuit-2" Timeout.circuit) true None
             Timeout.world in
  r.1 = Returned tt
  ∧ ∃ p', participants (store r.2) !! ("ceremony", "C") = Some p'
      ∧ Participant.status p' = Some CONTRIBUTING
      ∧ Participant.contributionStep p' = Some DOWNLOADING
      ∧ Participant.contributionStartedAt p' = 5001%float.
Proof.
  destruct (resume_restarts_contributionStartedAt envTicking
              (after Timeout.change)
              (mkSnapshot "ceremony" "circuit-2" Timeout.circuit)
              Timeout.world Timeout.readyC Timeout.circuit)
    as (Hreturned & p' & Hp' & Hstatus & Hstep & Hstarted & _).
  - split; [by left|]. by split.
  - reflexivity.
  - reflexivity.
  - split; [exact Hreturned|]. exists p'.
    split; [exact Hp'|]. split; [exact Hstatus|]. split; [exact Hstep|].
    exact Hstarted.
Defined.

(** C9, counterexample. B's update is coordinated as Scenario B: the first
    invocation appends B behind A; the second invocation with the same pair,
    on the store the first one left, appends B once more. *)
Lemma reinvocation_enqueues_twice :
  (coordinateCeremonyParticipant envTicking Contention.change
     Contention.world).1 = Returned tt
  ∧ (coordinateCeremonyParticipant envTicking Contention.change
       Contention.once).1 = Returned tt
  ∧ Contention.queueOf Contention.world = Some (["A"], "A")
  ∧ Contention.queueOf Contention.once = Some (["A"; "B"], "A")
  ∧ Contention.queueOf Contention.twice = Some (["A"; "B"; "B"], "A")
  ∧ ¬ sameUpToLastUpdated (store Contention.twice) (store Contention.once).
Proof.
  do 5 (split; [by vm_compute|]).
  intros Hsame.
  apply (f_equal (λ st, WaitingQueue.contributors ∘ Circuit.waitingQueue
                        <$> circuits st !! ("ceremony", "circuit-1"))) in Hsame.
  vm_compute in Hsame. discriminate Hsame.
Qed.

Lemma reinvocation_without_currentContributor_witness :
  sameUpToLastUpdated
    (store (coordinateCeremonyParticipant envTicking Finished.change
              (coordinateCeremonyParticipant envTicking Finished.change
                 Finished.world).2).2)
    (store (coordinateCeremonyParticipant envTicking Finished.change
              Finished.world).2).
Proof.
  apply (reinvocation_without_currentContributor envTicking Finished.change
           Finished.world).
  - reflexivity.
  - discriminate.
  - intros circuitId c Hc _.
    assert (Hstored :
      circuits (store (coordinateCeremonyParticipant envTicking
                         Finished.change Finished.world).2)
      = {[ ("ceremony", "circuit-1") :=
             Circuit.mk 1 "multiplier" "i-0abc" (WaitingQueue.mk [] "" 0 0)
               (AvgTimings.mk 0 0 0) 5000%float ]})
      by (vm_compute; reflexivity).
    rewrite Hstored in Hc. apply lookup_singleton_Some in Hc as [_ <-].
    reflexivity.
Defined.

(** * Further properties *)

(** ** All or nothing *)

Lemma readOnly_ret {A} (a : A) : readOnly (mret a : Handler A).
Proof. done. Qed.

Lemma readOnly_throw {A} e : readOnly (throw e : Handler A).
Proof. done. Qed.

Lemma readOnly_clock env : readOnly (getCurrentServerTimestampInMillis env).
Proof. done. Qed.

Lemma readOnly_external {A} call (answer : option A) :
  readOnly (external call answer).
Proof. intros w. unfold external. by destruct answer. Qed.

Lemma readOnly_readStore {A} (f : Store → A) : readOnly (readStore f).
Proof. done. Qed.

Lemma readOnly_getCircuitDocumentByPosition ceremonyId position :
  readOnly (getCircuitDocumentByPosition ceremonyId position).
Proof. intros w. unfold getCircuitDocumentByPosition. by repeat case_match. Qed.

Lemma readOnly_getCeremonyCircuits ceremonyId :
  readOnly (getCeremonyCircuits ceremonyId).
Proof. done. Qed.

Lemma readOnly_bind {A B} (m : Handler A) (k : A → Handler B) :
  readOnly m → (∀ a, readOnly (k a)) → readOnly (m ≫= k).
Proof.
  intros Hm Hk w. unfold mbind, Handler_bind, bind. specialize (Hm w).
  destruct (m w) as [[a|e] w1]; simpl in *; [|done]. by rewrite Hk.
Qed.

Lemma atomic_readOnly {A} (m : Handler A) : readOnly m → atomic m.
Proof. intros Hm w e _. apply Hm. Qed.

Lemma atomic_batchCommit batch : atomic (batchCommit batch).
Proof.
  intros w e. unfold batchCommit. by destruct (commit (store w) batch).
Qed.

Lemma atomic_bind {A B} (m : Handler A) (k : A → Handler B) :
  readOnly m → (∀ a, atomic (k a)) → atomic (m ≫= k).
Proof.
  intros Hm Hk w e. unfold mbind, Handler_bind, bind. specialize (Hm w).
  destruct (m w) as [[a|e'] w1] eqn:E; simpl in *; [|done].
  intros Hthrown. rewrite <- Hm. by apply (Hk a w1 e).
Qed.

(** Handlers built from reads, clock readings and external calls. *)
Ltac read_only :=
  repeat first
    [ apply readOnly_ret
    | apply readOnly_throw
    | apply readOnly_clock
    | apply readOnly_external
    | apply readOnly_readStore
    | apply readOnly_getCircuitDocumentByPosition
    | apply readOnly_getCeremonyCircuits
    | (apply readOnly_bind; [|intros ?])
    | match goal with
      | |- readOnly (if ?b then _ else _) => destruct b
      | |- readOnly (match ?x with _ => _ end) => destruct x
      | |- readOnly (let '(_, _) := ?x in _) => destruct x
      end ].

(** A chain of read-only steps that ends in the commit of a batch. *)
Ltac commits_last :=
  repeat first
    [ apply atomic_batchCommit
    | (apply atomic_readOnly; solve [read_only])
    | (apply atomic_bind; [solve [read_only] | intros ?])
    | match goal with
      | |- atomic (if ?b then _ else _) => destruct b
      | |- atomic (match ?x with _ => _ end) => destruct x
      end ].

Lemma atomic_coordinate env participant circuit single ceremonyId :
  atomic (coordinate env participant circuit single ceremonyId).
Proof. unfold coordinate. commits_last. Qed.

Lemma atomic_coordinateCeremonyParticipant env participantChanges :
  atomic (coordinateCeremonyParticipant env participantChanges).
Proof.
  unfold coordinateCeremonyParticipant.
  apply atomic_bind; [read_only|]. intros _.
  destruct (_ || _ || _).
  - apply atomic_bind; [read_only|]. intros circuit. apply atomic_coordinate.
  - destruct (_ || _); [|apply atomic_readOnly; read_only].
    apply atomic_bind; [read_only|]. intros circuit. apply atomic_coordinate.
Qed.

Lemma atomic_verifycontribution env request :
  atomic (verifycontribution env request).
Proof. unfold verifycontribution. commits_last. Qed.

Lemma atomic_refreshParticipantAfterContributionVerification env created :
  atomic (refreshParticipantAfterContributionVerification env created).
Proof. unfold refreshParticipantAfterContributionVerification. commits_last. Qed.

(** X1. A run of the trigger of the coordinator, of [coordinate], of
    [verifycontribution] or of the refresher that throws leaves the store
    as it was: every write goes through the one batch committed at the end,
    which is applied in full or not at all. *)
Theorem thrown_runs_write_nothing env :
  (∀ participantChanges,
     atomic (coordinateCeremonyParticipant env participantChanges))
  ∧ (∀ participant circuit single ceremonyId,
       atomic (coordinate env participant circuit single ceremonyId))
  ∧ (∀ request, atomic (verifycontribution env request))
  ∧ (∀ createdContribution,
       atomic (refreshParticipantAfterContributionVerification env
                 createdContribution)).
Proof.
  repeat split.
  - intros c. apply atomic_coordinateCeremonyParticipant.
  - intros p c s i. apply atomic_coordinate.
  - intros r. apply atomic_verifycontribution.
  - intros d. apply atomic_refreshParticipantAfterContributionVerification.
Qed.

Lemma thrown_runs_write_nothing_witness :
  store (verifycontribution envRejectingCommand (call "U" false) Solo.world).2
  = store Solo.world.
Proof.
  refine (proj1 (proj2 (proj2 (thrown_runs_write_nothing envRejectingCommand)))
            (call "U" false) Solo.world ExternalCallRejected _).
  by vm_compute.
Defined.

(** ** What the handlers leave alone *)

Lemma commit_invariant (I : Store → Prop) (safe : Write → Prop) :
  (∀ st w st', safe w → I st → applyWrite st w = Some st' → I st') →
  ∀ batch st st',
    Forall safe batch → I st → commit st batch = Some st' → I st'.
Proof.
  intros Hstep. induction batch as [|w batch IH]; simpl; intros st st' Hb Hst Hc.
  - by simplify_eq.
  - inversion_clear Hb. destruct (applyWrite st w) as [st1|] eqn:E; [|done].
    eauto.
Qed.

Lemma keeps_batchCommit_safe (I : Store → Prop) (safe : Write → Prop) batch :
  (∀ st w st', safe w → I st → applyWrite st w = Some st' → I st') →
  Forall safe batch → keeps I (batchCommit batch) (λ _, True).
Proof.
  intros Hstep Hb w Hw. unfold batchCommit.
  destruct (commit (store w) batch) eqn:E; simpl; [|done].
  split; [|done]. by eapply (commit_invariant I safe).
Qed.

Lemma coordinatorFrame_refl st : coordinatorFrame st st.
Proof.
  repeat split; intros r.
  - destruct (participants st !! r); by constructor.
  - destruct (circuits st !! r); by constructor.
Qed.

Lemma coordinatorFrame_step st0 st w st' :
  coordinatorSafe w → coordinatorFrame st0 st → applyWrite st w = Some st' →
  coordinatorFrame st0 st'.
Proof.
  intros Hsafe (Hcer & Hdocs & Hps & Hcs) Happ.
  destruct w as [r f|r f|r d]; simpl in *; [| |done].
  - destruct (participants st !! r) as [p|] eqn:Hp; [|done].
    injection Happ as <-. repeat split; try done. simpl. intros r'.
    destruct (decide (r = r')) as [<-|Hne].
    + rewrite lookup_insert_eq. specialize (Hps r). rewrite Hp in Hps.
      inversion Hps as [p0 ? Hpp|]; subst. constructor. by apply Hsafe.
    + by rewrite lookup_insert_ne.
  - destruct (circuits st !! r) as [c|] eqn:Hc; [|done].
    injection Happ as <-. repeat split; try done. simpl. intros r'.
    destruct (decide (r = r')) as [<-|Hne].
    + rewrite lookup_insert_eq. specialize (Hcs r). rewrite Hc in Hcs.
      inversion Hcs as [c0 ? Hcc Hc0|]; subst. constructor.
      by apply Hsafe.
    + by rewrite lookup_insert_ne.
Qed.

Lemma sameProgress_setContributionStep step t p0 p :
  sameProgress p0 p → sameProgress p0 (setContributionStep step t p).
Proof. done. Qed.

Lemma sameProgress_setStatus status t1 t2 p0 p :
  sameProgress p0 p → sameProgress p0 (setStatus status t1 t2 p).
Proof. done. Qed.

Lemma sameProgress_passBaton status step t1 t2 p0 p :
  sameProgress p0 p → sameProgress p0 (passBaton status step t1 t2 p).
Proof. done. Qed.

(** The participant updates of single-participant coordination are safe for
    the frame. *)
Ltac single_participant_frame :=
  cbn beta iota;
  eapply keeps_bind with (Q := Forall coordinatorSafe);
  [ match goal with
    | |- keeps _ (if ?b then _ else _) _ => destruct b
    end;
    [ eapply keeps_bind with (Q := λ _, True);
      [ apply keeps_clock
      | intros ? _; apply keeps_ret; (constructor; [|constructor]);
        intros ? ?; apply sameProgress_setContributionStep ]
    | apply keeps_ret; constructor ]
  | intros ? ?; keeps_chain; apply keeps_ret; cbn [fst snd];
    apply Forall_app; split; [done|]; (constructor; [|constructor]);
    intros ? ?; apply sameProgress_setStatus ].

Lemma keeps_coordinatorFrame_coordinate st0 env participant circuit single
    ceremonyId :
  keeps (coordinatorFrame st0)
    (coordinate env participant circuit single ceremonyId) (λ _, True).
Proof.
  unfold coordinate.
  eapply keeps_bind with (Q := λ r, Forall coordinatorSafe r.1.1).
  - destruct single.
    + destruct (negb (truthyString _) && _); [single_participant_frame|].
      destruct (String.eqb _ _ && _); [single_participant_frame|].
      destruct (negb (String.eqb _ _)); single_participant_frame.
    + destruct (_ && _ && _); [|apply keeps_ret; constructor].
      destruct (tail _) as [|h rest]; [apply keeps_ret; constructor|].
      keeps_chain. apply keeps_ret. simpl. constructor; [|constructor].
      intros ? ?. apply sameProgress_passBaton.
  - intros [[batch newContributors] newCurrent] Hb. simpl in Hb.
    eapply keeps_bind; [apply keeps_clock|]. intros t _.
    apply (keeps_batchCommit_safe _ coordinatorSafe);
      [intros; by eapply coordinatorFrame_step|].
    apply Forall_app. split; [done|]. constructor; [|constructor].
    intros c0 c Hsame. destruct Hsame as (? & ? & ? & ?). by repeat split.
Qed.

Lemma getCircuitDocumentByPosition_world ceremonyId position w outcome w' :
  getCircuitDocumentByPosition ceremonyId position w = (outcome, w') → w' = w.
Proof.
  unfold getCircuitDocumentByPosition. intros H.
  by repeat case_match; simplify_eq.
Qed.

Lemma commit_app st batch1 batch2 st' :
  commit st (batch1 ++ batch2) = Some st' →
  ∃ st1, commit st batch1 = Some st1 ∧ commit st1 batch2 = Some st'.
Proof.
  revert st. induction batch1 as [|w batch1 IH]; intros st; simpl; [by eauto|].
  destruct (applyWrite st w); [apply IH | done].
Qed.

(** The update of the circuit that ends every batch of [coordinate] stores
    the waiting queue of the snapshot, whatever the stored document has. *)
Lemma coordinate_writes_snapshot_queue env participant circuit single
    ceremonyId w w' :
  coordinate env participant circuit single ceremonyId w = (Returned tt, w') →
  ∃ contributors currentContributor c',
    circuits (store w') !! ref circuit = Some c'
    ∧ Circuit.waitingQueue c'
      = withQueue (Circuit.waitingQueue (data circuit)) contributors
          currentContributor.
Proof.
  unfold coordinate. intros Hrun.
  apply bind_returned in Hrun
    as ([[batch newContributors] newCurrent] & w1 & _ & Hrun).
  apply bind_returned in Hrun as (t & w2 & Hclock & Hrun).
  apply batchCommit_returned in Hrun as (st' & Hcommit & ->).
  apply commit_app in Hcommit as (st1 & _ & Hcommit). simpl in Hcommit.
  destruct (circuits st1 !! ref circuit) as [c|]; [|done].
  injection Hcommit as <-. eexists _, _, _. cbn [store circuits].
  by rewrite lookup_insert_eq.
Qed.

(** X2. Whatever the update and whatever the snapshots, a run of the
    trigger of the coordinator or of [coordinate] creates and deletes no
    document, writes no ceremony and no contribution document, and leaves
    [contributionProgress], [contributions] and [verificationStartedAt] of
    every participant and the timings, the prefix, the worker and the
    position of every circuit as they are. The waiting queue is written as
    a whole: after a run of [coordinate] that returns, the circuit document
    carries the [completedContributions] and [failedContributions] of the
    snapshot that [coordinate] was handed, whatever the stored document had
    in the meantime. *)
Theorem coordinator_frame env w :
  (∀ participantChanges,
     coordinatorFrame (store w)
       (store (coordinateCeremonyParticipant env participantChanges w).2))
  ∧ ∀ participant circuit single ceremonyId,
      let run := coordinate env participant circuit single ceremonyId w in
      coordinatorFrame (store w) (store run.2)
      ∧ (run.1 = Returned tt →
         ∃ c', circuits (store run.2) !! ref circuit = Some c'
           ∧ WaitingQueue.completedContributions (Circuit.waitingQueue c')
             = WaitingQueue.completedContributions
                 (Circuit.waitingQueue (data circuit))
           ∧ WaitingQueue.failedContributions (Circuit.waitingQueue c')
             = WaitingQueue.failedContributions
                 (Circuit.waitingQueue (data circuit))).
Proof.
  split.
  - intros participantChanges. unfold coordinateCeremonyParticipant.
    unfold mbind at 1, Handler_bind at 1, bind at 1.
    destruct (truthyString _); unfold mret at 1, Handler_ret, ret, throw;
      cbn beta iota; [|apply coordinatorFrame_refl].
    destruct (_ || _ || _).
    + unfold mbind at 1, Handler_bind at 1, bind at 1.
      destruct (getCircuitDocumentByPosition _ _ w) as [[circuit|e] w'] eqn:Hget;
        apply getCircuitDocumentByPosition_world in Hget as ->;
        [|apply coordinatorFrame_refl].
      by apply keeps_coordinatorFrame_coordinate; [apply coordinatorFrame_refl].
    + destruct (_ || _); [|apply coordinatorFrame_refl].
      unfold mbind at 1, Handler_bind at 1, bind at 1.
      destruct (getCircuitDocumentByPosition _ _ w) as [[circuit|e] w'] eqn:Hget;
        apply getCircuitDocumentByPosition_world in Hget as ->;
        [|apply coordinatorFrame_refl].
      by apply keeps_coordinatorFrame_coordinate; [apply coordinatorFrame_refl].
  - intros participant circuit single ceremonyId run. split.
    + by apply keeps_coordinatorFrame_coordinate; [apply coordinatorFrame_refl].
    + intros Hreturned.
      destruct (coordinate_writes_snapshot_queue env participant circuit
                  single ceremonyId w run.2)
        as (contributors & currentContributor & c' & Hc' & Hqueue).
      { subst run. destruct (coordinate _ _ _ _ _ w) as [outcome w'].
        simpl in *. by rewrite Hreturned. }
      exists c'. split; [done|]. by rewrite Hqueue.
Qed.

(** The snapshot of the circuit is out of date: the stored document counts
    three completed contributions, the snapshot none; the run writes none. *)
Lemma coordinator_frame_witness :
  let stale := mkSnapshot "ceremony" "circuit-2"
                 (Circuit.mk 2 "adder" "i-0def"
                    (WaitingQueue.mk ["C"; "D"] "C" 0 0)
                    (AvgTimings.mk 40 100 9) 900%float) in
  let run := coordinate envTicking (after Timeout.change) stale true None
               Timeout.world in
  (WaitingQueue.completedContributions ∘ Circuit.waitingQueue
   <$> circuits (store Timeout.world) !! ("ceremony", "circuit-2")) = Some 3
  ∧ ∃ c', circuits (store run.2) !! ("ceremony", "circuit-2") = Some c'
      ∧ WaitingQueue.completedContributions (Circuit.waitingQueue c') = 0.
Proof.
  split; [reflexivity|].
  destruct (proj2 (proj2 (coordinator_frame envTicking Timeout.world)
                     (after Timeout.change)
                     (mkSnapshot "ceremony" "circuit-2"
                        (Circuit.mk 2 "adder" "i-0def"
                           (WaitingQueue.mk ["C"; "D"] "C" 0 0)
                           (AvgTimings.mk 40 100 9) 900%float))
                     true None))
    as (c' & Hc' & Hcompleted & _); [by vm_compute|].
  exists c'. split; [exact Hc' | exact Hcompleted].
Defined.

Lemma verifierFrame_refl st : verifierFrame st st.
Proof.
  repeat split; try done. intros r. destruct (circuits st !! r); by constructor.
Qed.

Lemma verifierFrame_step st0 st w st' :
  verifierSafe w → verifierFrame st0 st → applyWrite st w = Some st' →
  verifierFrame st0 st'.
Proof.
  intros Hsafe (Hcer & Hps & Hcs & Hdocs) Happ.
  destruct w as [r f|r f|r d]; simpl in *; [done| |].
  - destruct (circuits st !! r) as [c|] eqn:Hc; [|done].
    injection Happ as <-. repeat split; try done. simpl. intros r'.
    destruct (decide (r = r')) as [<-|Hne].
    + rewrite lookup_insert_eq. specialize (Hcs r). rewrite Hc in Hcs.
      inversion Hcs as [c0 ? Hcc Hc0|]; subst. constructor. by apply Hsafe.
    + by rewrite lookup_insert_ne.
  - destruct (contributionDocs st !! r) as [d'|] eqn:Hd; [done|].
    injection Happ as <-. repeat split; try done. simpl. intros r' d' Hd'.
    apply Hdocs in Hd'. rewrite lookup_insert_ne; [done|]. by intros <-; simplify_eq.
Qed.

Lemma keeps_verifierFrame_verifycontribution st0 env request :
  keeps (verifierFrame st0) (verifycontribution env request) (λ _, True).
Proof.
  unfold verifycontribution.
  destruct (CallableRequest.auth request) as [auth|]; [|apply keeps_throw].
  repeat (match goal with
          | |- keeps _ (if ?b then throw _ else _) _ =>
              destruct b; [apply keeps_throw|]
          end).
  eapply keeps_bind with (Q := λ _, True); [by apply keeps_readStore|].
  intros ceremonyDoc _.
  eapply keeps_bind with (Q := λ _, True); [by apply keeps_readStore|].
  intros circuitDoc _.
  eapply keeps_bind with (Q := λ _, True); [by apply keeps_readStore|].
  intros participantDoc _.
  destruct ceremonyDoc as [ceremonyData|]; [|apply keeps_throw].
  destruct circuitDoc as [circuitData|]; [|apply keeps_throw].
  destruct participantDoc as [participantData|]; [|apply keeps_throw].
  eapply keeps_bind with (Q := Forall verifierSafe);
    [|intros batch Hbatch;
      apply (keeps_batchCommit_safe _ verifierSafe);
        [intros; by eapply verifierFrame_step | done]].
  destruct (_ || _); [|apply keeps_ret; constructor].
  keeps_chain.
  eapply keeps_bind with (Q := λ r, Forall verifierSafe r.1.1).
  - destruct (includes _ _).
    + destruct (negb _); [apply keeps_throw|].
      destruct (Participant.contributions _); [apply keeps_throw|].
      keeps_chain. apply keeps_ret. by repeat constructor.
    + keeps_chain. apply keeps_ret. by repeat constructor.
  - intros [[contributionTx ?] ?] Htx. simpl in Htx.
    destruct (negb _); [|by apply keeps_ret].
    keeps_chain. apply keeps_ret. apply Forall_app. split; [done|].
    constructor; [|constructor]. intros c0 c Hsame.
    destruct Hsame as (? & ? & ?). by repeat split.
Qed.

(** X3. Whatever the request, a run of [verifycontribution] writes no
    ceremony and no participant document, creates and deletes no circuit
    document, writes none of the fields of a circuit document other than
    [avgTimings], [waitingQueue] and [lastUpdated] (the position, the prefix
    and the worker stay), and leaves every existing contribution document
    in place, unchanged. *)
Theorem verifier_frame env request w :
  verifierFrame (store w) (store (verifycontribution env request w).2).
Proof.
  by apply keeps_verifierFrame_verifycontribution; [apply verifierFrame_refl].
Qed.

(** ** The scenarios of [coordinate] *)

Lemma emptyWaitingQueue_false (waitingQueue : WaitingQueue.t) :
  WaitingQueue.currentContributor waitingQueue ≠ ""
  ∨ WaitingQueue.contributors waitingQueue ≠ [] →
  negb (truthyString (WaitingQueue.currentContributor waitingQueue))
  && bool_decide (length (WaitingQueue.contributors waitingQueue) = 0%nat)
  = false.
Proof.
  intros Hne. apply andb_false_iff. destruct Hne as [Hne|Hne].
  - left. apply negb_false_iff. by apply truthyString_true.
  - right. apply bool_decide_eq_false. by rewrite length_zero_iff_nil.
Qed.

Ltac run_coordinate :=
  unfold mbind, Handler_bind, bind, mret, Handler_ret, ret,
    getCurrentServerTimestampInMillis, batchCommit;
  cbn [app commit applyWrite store clockReadings callLog fst snd].

(** X4. Scenario A of [coordinate]: on a circuit with no current contributor
    and no contributors, single-participant coordination commits, makes the
    participant the only member of the queue and its current contributor,
    and sets the participant to CONTRIBUTING and DOWNLOADING with
    [contributionStartedAt] read from the server clock; the status the
    participant had does not matter. *)
Theorem empty_queue_promotes_participant env participant circuit w stored
    storedCircuit :
  WaitingQueue.currentContributor (Circuit.waitingQueue (data circuit)) = "" →
  WaitingQueue.contributors (Circuit.waitingQueue (data circuit)) = [] →
  participants (store w) !! ref participant = Some stored →
  circuits (store w) !! ref circuit = Some storedCircuit →
  let r := coordinate env participant circuit true None w in
  r.1 = Returned tt
  ∧ ∃ c' p',
      circuits (store r.2) !! ref circuit = Some c'
      ∧ WaitingQueue.contributors (Circuit.waitingQueue c') = [id participant]
      ∧ WaitingQueue.currentContributor (Circuit.waitingQueue c')
        = id participant
      ∧ participants (store r.2) !! ref participant = Some p'
      ∧ Participant.status p' = Some CONTRIBUTING
      ∧ Participant.contributionStep p' = Some DOWNLOADING
      ∧ Participant.contributionStartedAt p' = clock env (S (clockReadings w)).
Proof.
  intros Hcc Hcs Hp Hc r. subst r. unfold coordinate.
  rewrite Hcc, Hcs. simpl. run_coordinate. rewrite Hp. cbn [participants].
  rewrite lookup_insert_eq. cbn [circuits]. rewrite Hc. simpl.
  split; [done|]. eexists _, _. rewrite !lookup_insert_eq. by repeat split.
Qed.

(** X5. Scenario B of [coordinate]: on a queue that is not empty and whose
    current contributor is someone else (or nobody), single-participant
    coordination commits, appends the participant at the end of
    [contributors] (whether or not it is in the queue already), leaves
    [currentContributor] as it is, and sets the participant to WAITING with
    [contributionStartedAt] reset to 0, leaving its [contributionStep]. *)
Theorem busy_queue_enqueues_participant env participant circuit w stored
    storedCircuit :
  let waitingQueue := Circuit.waitingQueue (data circuit) in
  (WaitingQueue.currentContributor waitingQueue ≠ ""
   ∨ WaitingQueue.contributors waitingQueue ≠ []) →
  WaitingQueue.currentContributor waitingQueue ≠ id participant →
  participants (store w) !! ref participant = Some stored →
  circuits (store w) !! ref circuit = Some storedCircuit →
  let r := coordinate env participant circuit true None w in
  r.1 = Returned tt
  ∧ ∃ c' p',
      circuits (store r.2) !! ref circuit = Some c'
      ∧ WaitingQueue.contributors (Circuit.waitingQueue c')
        = (WaitingQueue.contributors waitingQueue ++ [id participant])%list
      ∧ WaitingQueue.currentContributor (Circuit.waitingQueue c')
        = WaitingQueue.currentContributor waitingQueue
      ∧ participants (store r.2) !! ref participant = Some p'
      ∧ Participant.status p' = Some WAITING
      ∧ Participant.contributionStep p' = Participant.contributionStep stored
      ∧ Participant.contributionStartedAt p' = 0%float.
Proof.
  intros waitingQueue Hne Hother Hp Hc r. subst r. unfold coordinate.
  fold waitingQueue. rewrite (emptyWaitingQueue_false _ Hne).
  apply String.eqb_neq in Hother. rewrite Hother. simpl.
  run_coordinate. rewrite Hp. cbn [circuits]. rewrite Hc. simpl.
  split; [done|]. eexists _, _. rewrite !lookup_insert_eq. by repeat split.
Qed.

Lemma completedOneOrAllContributions_true p :
  completedOneOrAllContributions p →
  (bool_decide (Participant.status p = Some CONTRIBUTED)
   || bool_decide (Participant.status p = Some DONE))
  && bool_decide (Participant.contributionStep p = Some COMPLETED) = true.
Proof.
  intros [Hstatus Hstep]. apply andb_true_iff. split.
  - apply orb_true_iff. destruct Hstatus; [left | right]; by apply bool_decide_eq_true.
  - by apply bool_decide_eq_true.
Qed.

(** X6. Scenario C of [coordinate] with a successor: when the participant is
    the current contributor and completed its contribution, multi-participant
    coordination removes the head of [contributors], makes the new head the
    current contributor and, if the document of the new head exists, sets it
    to CONTRIBUTING and DOWNLOADING with [contributionStartedAt] read from
    the server clock, writing no other participant document; if that
    document does not exist the batch is rejected and the store is left as
    it was. *)
Theorem baton_passes_to_next_contributor env participant circuit ceremonyId w
    first next rest storedCircuit :
  WaitingQueue.currentContributor (Circuit.waitingQueue (data circuit))
  = id participant →
  completedOneOrAllContributions (data participant) →
  ceremonyId ≠ "" →
  WaitingQueue.contributors (Circuit.waitingQueue (data circuit))
  = first :: next :: rest →
  circuits (store w) !! ref circuit = Some storedCircuit →
  let r := coordinate env participant circuit false (Some ceremonyId) w in
  (∀ storedNext,
     participants (store w) !! (ceremonyId, next) = Some storedNext →
     r.1 = Returned tt
     ∧ (∃ c', circuits (store r.2) !! ref circuit = Some c'
          ∧ WaitingQueue.contributors (Circuit.waitingQueue c') = next :: rest
          ∧ WaitingQueue.currentContributor (Circuit.waitingQueue c') = next)
     ∧ (∃ p', participants (store r.2) !! (ceremonyId, next) = Some p'
          ∧ Participant.status p' = Some CONTRIBUTING
          ∧ Participant.contributionStep p' = Some DOWNLOADING
          ∧ Participant.contributionStartedAt p' = clock env (clockReadings w))
     ∧ (∀ other, other ≠ (ceremonyId, next) →
          participants (store r.2) !! other = participants (store w) !! other))
  ∧ (participants (store w) !! (ceremonyId, next) = None →
     r.1 = Thrown BatchCommitRejected ∧ store r.2 = store w).
Proof.
  intros Hcc Hdone Hcer Hcs Hc r. subst r. unfold coordinate.
  rewrite Hcc, String.eqb_refl, (completedOneOrAllContributions_true _ Hdone), Hcs.
  apply truthyString_true in Hcer. cbn [from_option andb tail].
  rewrite Hcer. run_coordinate.
  change (default "" (Some ceremonyId)) with ceremonyId.
  change (Datatypes.id ceremonyId) with ceremonyId. split.
  - intros storedNext Hnext. rewrite Hnext. cbn [circuits]. rewrite Hc. simpl.
    split; [done|]. split; [|split].
    + eexists. rewrite lookup_insert_eq. by repeat split.
    + eexists. rewrite lookup_insert_eq. by repeat split.
    + intros other Hother. by rewrite lookup_insert_ne.
  - intros Hnext. by rewrite Hnext.
Qed.

(** X7. Scenario C of [coordinate] without successor: when the participant
    is the current contributor and completed its contribution and
    [contributors] has at most one member, multi-participant coordination
    commits, leaves the queue with no contributors and no current
    contributor, and writes no participant document. *)
Theorem last_contributor_empties_queue env participant circuit ceremonyId w
    storedCircuit :
  WaitingQueue.currentContributor (Circuit.waitingQueue (data circuit))
  = id participant →
  completedOneOrAllContributions (data participant) →
  ceremonyId ≠ "" →
  (length (WaitingQueue.contributors (Circuit.waitingQueue (data circuit))) ≤ 1)%nat →
  circuits (store w) !! ref circuit = Some storedCircuit →
  let r := coordinate env participant circuit false (Some ceremonyId) w in
  r.1 = Returned tt
  ∧ participants (store r.2) = participants (store w)
  ∧ ∃ c', circuits (store r.2) !! ref circuit = Some c'
      ∧ WaitingQueue.contributors (Circuit.waitingQueue c') = []
      ∧ WaitingQueue.currentContributor (Circuit.waitingQueue c') = "".
Proof.
  intros Hcc Hdone Hcer Hlen Hc r. subst r. unfold coordinate.
  rewrite Hcc, String.eqb_refl, (completedOneOrAllContributions_true _ Hdone).
  apply truthyString_true in Hcer. cbn [from_option andb default].
  rewrite Hcer.
  assert (Htail : tail (WaitingQueue.contributors
                          (Circuit.waitingQueue (data circuit))) = []).
  { destruct (WaitingQueue.contributors _) as [|? [|? ?]]; simpl in *; [done..|lia]. }
  rewrite Htail. run_coordinate. rewrite Hc. simpl.
  split; [done|]. split; [done|]. eexists. rewrite lookup_insert_eq.
  by repeat split.
Qed.

(** X8. Multi-participant coordination for a participant who is not the
    current contributor of the circuit commits all the same: it writes the
    empty string over [currentContributor], whoever was recorded there,
    leaves [contributors] as it is and writes no participant document. *)
Theorem coordination_of_another_clears_currentContributor env participant
    circuit ceremonyId w storedCircuit :
  WaitingQueue.currentContributor (Circuit.waitingQueue (data circuit))
  ≠ id participant →
  circuits (store w) !! ref circuit = Some storedCircuit →
  let r := coordinate env participant circuit false ceremonyId w in
  r.1 = Returned tt
  ∧ participants (store r.2) = participants (store w)
  ∧ ∃ c', circuits (store r.2) !! ref circuit = Some c'
      ∧ WaitingQueue.contributors (Circuit.waitingQueue c')
        = WaitingQueue.contributors (Circuit.waitingQueue (data circuit))
      ∧ WaitingQueue.currentContributor (Circuit.waitingQueue c') = "".
Proof.
  intros Hother Hc r. subst r. unfold coordinate.
  apply String.eqb_neq in Hother. rewrite Hother. cbn [andb].
  run_coordinate. rewrite Hc. simpl.
  split; [done|]. split; [done|]. eexists. rewrite lookup_insert_eq.
  by repeat split.
Qed.

(** ** The refresher *)

Lemma refresh_run env createdContribution w p :
  let r := (ceremonyOf createdContribution,
            ContributionDoc.participantId (data createdContribution)) in
  participants (store w) !! r = Some p →
  refreshParticipantAfterContributionVerification env createdContribution w
  = (Returned tt,
     mkWorld
       (mkStore (ceremonies (store w)) (circuits (store w))
          (<[r := refreshed (store w) createdContribution
                    (clock env (clockReadings w)) p]> (participants (store w)))
          (contributionDocs (store w)))
       (S (clockReadings w)) (callLog w)).
Proof.
  intros r Hp. unfold refreshParticipantAfterContributionVerification.
  unfold mbind at 1 2, Handler_bind at 1 2, bind at 1 2, getCeremonyCircuits,
    readStore. cbn [fst snd store]. fold r. rewrite Hp.
  rewrite length_fmap. fold (circuitCount (store w) (ceremonyOf createdContribution)).
  unfold refreshed. run_coordinate.
  destruct (bool_decide (Participant.status p = Some FINALIZING));
    cbn [negb app commit applyWrite participants]; rewrite Hp; [done|].
  cbn [participants]. rewrite lookup_insert_eq. cbn.
  by rewrite insert_insert_eq.
Qed.

Lemma linkContribution_linked createdId c :
  Contribution.doc c ≠ "" → linkContribution createdId c = c.
Proof.
  intros Hdoc. unfold linkContribution, isContributionWithoutDocRef.
  apply truthyString_true in Hdoc. by rewrite Hdoc, andb_false_r.
Qed.

Lemma linkContribution_not_pending createdId c :
  createdId ≠ "" → isContributionWithoutDocRef (linkContribution createdId c) = false.
Proof.
  intros Hid. unfold linkContribution.
  destruct (isContributionWithoutDocRef c) eqn:E; [|done].
  unfold isContributionWithoutDocRef. simpl.
  apply truthyString_true in Hid. by rewrite Hid, andb_false_r.
Qed.

Lemma linkContribution_none_pending createdId (cs : list Contribution.t) :
  createdId ≠ "" →
  filter (λ c, isContributionWithoutDocRef c) (linkContribution createdId <$> cs)
  = [].
Proof.
  intros Hid. induction cs as [|c cs IH]; [done|].
  rewrite fmap_cons. rewrite filter_cons_False; [exact IH|].
  rewrite linkContribution_not_pending by done. simpl. auto.
Qed.

(** X9. The refresher, for a participant whose document exists, commits and
    writes back a [contributions] array of the same length in which every
    entry that had a hash, a computation time and no document reference
    (however many there are) carries the identifier of the created
    contribution, and every entry that had a document reference is
    unchanged; when that identifier is not empty, no such pending entry is
    left. *)
Theorem refresher_links_pending_entries env createdContribution w p :
  let r := (ceremonyOf createdContribution,
            ContributionDoc.participantId (data createdContribution)) in
  participants (store w) !! r = Some p →
  let run := refreshParticipantAfterContributionVerification env
               createdContribution w in
  run.1 = Returned tt
  ∧ ∃ p', participants (store run.2) !! r = Some p'
      ∧ length (Participant.contributions p')
        = length (Participant.contributions p)
      ∧ (∀ i c, Participant.contributions p !! i = Some c →
           isContributionWithoutDocRef c = true →
           Participant.contributions p' !! i
           = Some (Contribution.mk (Contribution.hash c)
                     (Contribution.computationTime c) (id createdContribution)))
      ∧ (∀ i c, Participant.contributions p !! i = Some c →
           Contribution.doc c ≠ "" →
           Participant.contributions p' !! i = Some c)
      ∧ (id createdContribution ≠ "" →
         filter (λ c, isContributionWithoutDocRef c) (Participant.contributions p')
         = []).
Proof.
  intros r Hp run. subst run. rewrite (refresh_run env _ _ _ Hp).
  split; [done|]. eexists. cbn [snd store participants].
  rewrite lookup_insert_eq. split; [done|].
  assert (Hcs : Participant.contributions
                  (refreshed (store w) createdContribution
                     (clock env (clockReadings w)) p)
                = linkContribution (id createdContribution)
                  <$> Participant.contributions p).
  { unfold refreshed. by destruct (bool_decide _). }
  rewrite Hcs. repeat split.
  - apply length_fmap.
  - intros i c Hi Hpending. rewrite list_lookup_fmap, Hi. simpl.
    unfold linkContribution. by rewrite Hpending.
  - intros i c Hi Hdoc. rewrite list_lookup_fmap, Hi. simpl.
    by rewrite linkContribution_linked.
  - intros Hid. by apply linkContribution_none_pending.
Qed.

(** X10. The refresher, for a participant whose document exists and who is
    not FINALIZING, sets [contributionStep] to COMPLETED and [status] to
    DONE exactly when [contributionProgress] has reached the number of
    circuits of the ceremony, to CONTRIBUTED otherwise; for a FINALIZING
    participant it leaves both. In either case it leaves the progress and
    the two start times of the participant, every other participant and all
    circuits, ceremonies and contribution documents as they are. *)
Theorem refresher_advances_participant env createdContribution w p :
  let ceremonyId := ceremonyOf createdContribution in
  let r := (ceremonyId, ContributionDoc.participantId (data createdContribution)) in
  participants (store w) !! r = Some p →
  let run := refreshParticipantAfterContributionVerification env
               createdContribution w in
  ∃ p', participants (store run.2) !! r = Some p'
    ∧ (Participant.status p ≠ Some FINALIZING →
       Participant.contributionStep p' = Some COMPLETED
       ∧ (Z.of_nat (circuitCount (store w) ceremonyId)
          ≤ Participant.contributionProgress p →
          Participant.status p' = Some DONE)
       ∧ (Participant.contributionProgress p
          < Z.of_nat (circuitCount (store w) ceremonyId) →
          Participant.status p' = Some CONTRIBUTED))
    ∧ (Participant.status p = Some FINALIZING →
       Participant.status p' = Participant.status p
       ∧ Participant.contributionStep p' = Participant.contributionStep p)
    ∧ Participant.contributionProgress p' = Participant.contributionProgress p
    ∧ Participant.contributionStartedAt p' = Participant.contributionStartedAt p
    ∧ Participant.verificationStartedAt p' = Participant.verificationStartedAt p
    ∧ (∀ other, other ≠ r →
         participants (store run.2) !! other = participants (store w) !! other)
    ∧ circuits (store run.2) = circuits (store w)
    ∧ ceremonies (store run.2) = ceremonies (store w)
    ∧ contributionDocs (store run.2) = contributionDocs (store w).
Proof.
  intros ceremonyId r Hp run. subst run. rewrite (refresh_run env _ _ _ Hp).
  eexists. cbn [snd store participants circuits ceremonies contributionDocs].
  rewrite lookup_insert_eq. split; [done|]. unfold refreshed.
  fold ceremonyId.
  destruct (bool_decide (Participant.status p = Some FINALIZING)) eqn:Hfin.
  - apply bool_decide_eq_true in Hfin. repeat split; try done.
    intros other Hother. by rewrite lookup_insert_ne.
  - apply bool_decide_eq_false in Hfin. repeat split; try done.
    + intros Hlast. simpl. rewrite bool_decide_eq_true_2; [done|lia].
    + intros Hmore. simpl. rewrite bool_decide_eq_false_2; [done|lia].
    + intros other Hother. by rewrite lookup_insert_ne.
Qed.

(** X11. The refresher finds no participant document: it throws
    CM_INEXISTENT_DOCUMENT_DATA before reading the clock and before any
    write, whatever the created contribution is. *)
Theorem refresher_without_participant env createdContribution w :
  participants (store w)
    !! (ceremonyOf createdContribution,
        ContributionDoc.participantId (data createdContribution))
  = None →
  refreshParticipantAfterContributionVerification env createdContribution w
  = (Thrown CM_INEXISTENT_DOCUMENT_DATA, w).
Proof.
  intros Hp. unfold refreshParticipantAfterContributionVerification.
  unfold mbind at 1 2, Handler_bind at 1 2, bind at 1 2, getCeremonyCircuits,
    readStore. cbn [fst snd store]. by rewrite Hp.
Qed.

(** X12. The refresher and the trigger compose: the update that the
    refresher commits for a participant who was CONTRIBUTING at step
    VERIFYING, seen as a change of that participant document, satisfies the
    test of [coordinate] for a completed contribution and is dispatched by
    [coordinateCeremonyParticipant] to multi-participant coordination on the
    circuit at the participant's [contributionProgress], never to
    single-participant coordination and never to no coordination at all. *)
Theorem refreshed_participant_is_coordinated env createdContribution w p :
  let ceremonyId := ceremonyOf createdContribution in
  let participantId := ContributionDoc.participantId (data createdContribution) in
  ceremonyId ≠ "" →
  participants (store w) !! (ceremonyId, participantId) = Some p →
  Participant.status p = Some CONTRIBUTING →
  Participant.contributionStep p = Some VERIFYING →
  let run := refreshParticipantAfterContributionVerification env
               createdContribution w in
  ∃ p', participants (store run.2) !! (ceremonyId, participantId) = Some p'
    ∧ completedOneOrAllContributions p'
    ∧ ∀ w',
        coordinateCeremonyParticipant env
          (mkChange (mkSnapshot ceremonyId participantId p)
             (mkSnapshot ceremonyId participantId p')) w'
        = (circuit ← getCircuitDocumentByPosition ceremonyId
                       (Participant.contributionProgress p);
           coordinate env (mkSnapshot ceremonyId participantId p') circuit
             false (Some ceremonyId)) w'.
Proof.
  intros ceremonyId participantId Hcer Hp Hstatus Hstep run. subst run.
  rewrite (refresh_run env _ _ _ Hp). eexists.
  cbn [snd store participants]. rewrite lookup_insert_eq. split; [done|].
  unfold refreshed. rewrite Hstatus. rewrite bool_decide_eq_false_2 by done.
  fold ceremonyId. split.
  - split; [|done]. simpl. destruct (bool_decide _); [by right | by left].
  - intros w'. unfold coordinateCeremonyParticipant.
    unfold participantReadyForFirstContribution,
      participantResumingContributionAfterTimeout,
      participantReadyForNextContribution, participantReadyToContribute,
      participantCompletedContribution,
      participantCompletedEveryCircuitContribution.
    cbn [before after data ceremonyOf Participant.status
           Participant.contributionStep Participant.contributionProgress
           setContributions setStatusAndStep].
    apply truthyString_true in Hcer. rewrite Hcer, Hstatus, Hstep.
    unfold mbind at 1, Handler_bind at 1, bind at 1, mret at 1, Handler_ret, ret.
    cbn [andb orb negb].
    rewrite (bool_decide_eq_true_2
               (Participant.contributionProgress p
                = Participant.contributionProgress p)) by done.
    rewrite (bool_decide_eq_true_2 (Some CONTRIBUTING = Some CONTRIBUTING)),
      (bool_decide_eq_true_2 (Some VERIFYING = Some VERIFYING)),
      (bool_decide_eq_true_2 (Some COMPLETED = Some COMPLETED)) by done.
    destruct (bool_decide (Participant.contributionProgress p + 1 > _)).
    + by rewrite (bool_decide_eq_true_2 (Some DONE = Some DONE)), orb_true_r.
    + by rewrite (bool_decide_eq_true_2 (Some CONTRIBUTED = Some CONTRIBUTED)).
Qed.

Lemma empty_queue_promotes_participant_witness :
  let r := coordinate envTicking (after Contention.change)
             (mkSnapshot "ceremony" "circuit-1" Opening.circuit) true None
             Opening.world in
  r.1 = Returned tt
  ∧ ∃ c' p',
      circuits (store r.2) !! ("ceremony", "circuit-1") = Some c'
      ∧ WaitingQueue.contributors (Circuit.waitingQueue c') = ["B"]
      ∧ WaitingQueue.currentContributor (Circuit.waitingQueue c') = "B"
      ∧ participants (store r.2) !! ("ceremony", "B") = Some p'
      ∧ Participant.status p' = Some CONTRIBUTING
      ∧ Participant.contributionStep p' = Some DOWNLOADING
      ∧ Participant.contributionStartedAt p' = 5001%float.
Proof.
  refine (empty_queue_promotes_participant envTicking (after Contention.change)
            (mkSnapshot "ceremony" "circuit-1" Opening.circuit) Opening.world
            Contention.readyB Opening.circuit _ _ _ _); reflexivity.
Defined.

Lemma busy_queue_enqueues_participant_witness :
  let r := coordinate envTicking (after Contention.change)
             (mkSnapshot "ceremony" "circuit-1" (freshCircuit ["A"] "A")) true
             None Contention.world in
  r.1 = Returned tt
  ∧ ∃ c' p',
      circuits (store r.2) !! ("ceremony", "circuit-1") = Some c'
      ∧ WaitingQueue.contributors (Circuit.waitingQueue c') = ["A"; "B"]
      ∧ WaitingQueue.currentContributor (Circuit.waitingQueue c') = "A"
      ∧ participants (store r.2) !! ("ceremony", "B") = Some p'
      ∧ Participant.status p' = Some WAITING
      ∧ Participant.contributionStep p' = None
      ∧ Participant.contributionStartedAt p' = 0%float.
Proof.
  refine (busy_queue_enqueues_participant envTicking (after Contention.change)
            (mkSnapshot "ceremony" "circuit-1" (freshCircuit ["A"] "A"))
            Contention.world Contention.readyB (freshCircuit ["A"] "A")
            _ _ _ _).
  - by left.
  - done.
  - reflexivity.
  - reflexivity.
Defined.

Lemma baton_passes_to_next_contributor_witness :
  let r := coordinate envTicking (after Finished.change)
             (mkSnapshot "ceremony" "circuit-1" Handover.circuit) false
             (Some "ceremony") Handover.world in
  r.1 = Returned tt
  ∧ (∃ c', circuits (store r.2) !! ("ceremony", "circuit-1") = Some c'
       ∧ WaitingQueue.contributors (Circuit.waitingQueue c') = ["W"]
       ∧ WaitingQueue.currentContributor (Circuit.waitingQueue c') = "W")
  ∧ (∃ p', participants (store r.2) !! ("ceremony", "W") = Some p'
       ∧ Participant.status p' = Some CONTRIBUTING
       ∧ Participant.contributionStep p' = Some DOWNLOADING
       ∧ Participant.contributionStartedAt p' = 5000%float)
  ∧ (∀ other, other ≠ ("ceremony", "W") →
       participants (store r.2) !! other
       = participants (store Handover.world) !! other).
Proof.
  refine (proj1 (baton_passes_to_next_contributor envTicking
                   (after Finished.change)
                   (mkSnapshot "ceremony" "circuit-1" Handover.circuit)
                   "ceremony" Handover.world "U" "W" [] Handover.circuit
                   _ _ _ _ _) Waiting.data _).
  - reflexivity.
  - split; [by left | reflexivity].
  - done.
  - reflexivity.
  - reflexivity.
  - reflexivity.
Defined.

Lemma last_contributor_empties_queue_witness :
  let r := coordinate envTicking (after Finished.change)
             (mkSnapshot "ceremony" "circuit-1" (freshCircuit ["U"] "U")) false
             (Some "ceremony") Finished.world in
  r.1 = Returned tt
  ∧ participants (store r.2) = participants (store Finished.world)
  ∧ ∃ c', circuits (store r.2) !! ("ceremony", "circuit-1") = Some c'
      ∧ WaitingQueue.contributors (Circuit.waitingQueue c') = []
      ∧ WaitingQueue.currentContributor (Circuit.waitingQueue c') = "".
Proof.
  refine (last_contributor_empties_queue envTicking (after Finished.change)
            (mkSnapshot "ceremony" "circuit-1" (freshCircuit ["U"] "U"))
            "ceremony" Finished.world (freshCircuit ["U"] "U") _ _ _ _ _).
  - reflexivity.
  - split; [by left | reflexivity].
  - done.
  - simpl. lia.
  - reflexivity.
Defined.

Lemma coordination_of_another_clears_currentContributor_witness :
  let r := coordinate envTicking (after Contention.change)
             (mkSnapshot "ceremony" "circuit-1" (freshCircuit ["A"] "A")) false
             (Some "ceremony") Contention.world in
  r.1 = Returned tt
  ∧ participants (store r.2) = participants (store Contention.world)
  ∧ ∃ c', circuits (store r.2) !! ("ceremony", "circuit-1") = Some c'
      ∧ WaitingQueue.contributors (Circuit.waitingQueue c') = ["A"]
      ∧ WaitingQueue.currentContributor (Circuit.waitingQueue c') = "".
Proof.
  refine (coordination_of_another_clears_currentContributor envTicking
            (after Contention.change)
            (mkSnapshot "ceremony" "circuit-1" (freshCircuit ["A"] "A"))
            (Some "ceremony") Contention.world (freshCircuit ["A"] "A") _ _).
  - done.
  - reflexivity.
Defined.

Lemma refresher_links_pending_entries_witness :
  let run := refreshParticipantAfterContributionVerification envTicking
               Refresh.createdContribution Refresh.world in
  run.1 = Returned tt
  ∧ ∃ p', participants (store run.2) !! ("ceremony", "P") = Some p'
      ∧ Participant.contributions p'
        = [SecondCircuit.linked; Contribution.mk "0x77aa" 20%float "doc-7"].
Proof.
  destruct (refresher_links_pending_entries envTicking
              Refresh.createdContribution Refresh.world SecondCircuit.data)
    as (Hreturned & p' & Hp' & Hlength & Hpending & Hlinked & _);
    [reflexivity|].
  split; [exact Hreturned|]. exists p'. split; [exact Hp'|].
  pose proof (Hlinked 0%nat SecondCircuit.linked eq_refl) as H0.
  pose proof (Hpending 1%nat SecondCircuit.pending eq_refl eq_refl) as H1.
  destruct (Participant.contributions p') as [|c0 [|c1 [|c2 cs]]];
    try discriminate Hlength.
  simpl in H0, H1. injection (H0 ltac:(discriminate)) as ->.
  by injection H1 as ->.
Defined.

Lemma refresher_advances_participant_witness :
  let run := refreshParticipantAfterContributionVerification envTicking
               Refresh.createdContribution Refresh.world in
  ∃ p', participants (store run.2) !! ("ceremony", "P") = Some p'
    ∧ Participant.status p' = Some DONE
    ∧ Participant.contributionStep p' = Some COMPLETED
    ∧ Participant.contributionProgress p' = 2.
Proof.
  destruct (refresher_advances_participant envTicking
              Refresh.createdContribution Refresh.world SecondCircuit.data)
    as (p' & Hp' & Hadvance & _ & Hprogress & _); [reflexivity|].
  exists p'. split; [exact Hp'|].
  destruct (Hadvance ltac:(discriminate)) as (Hstep & Hdone & _).
  split; [apply Hdone; vm_compute; discriminate|]. by split.
Defined.

Lemma refresher_without_participant_witness :
  refreshParticipantAfterContributionVerification envTicking
    Refresh.createdContribution Refresh.orphaned
  = (Thrown CM_INEXISTENT_DOCUMENT_DATA, Refresh.orphaned).
Proof.
  apply (refresher_without_participant envTicking Refresh.createdContribution
           Refresh.orphaned).
  reflexivity.
Defined.

Lemma refreshed_participant_is_coordinated_witness :
  let run := refreshParticipantAfterContributionVerification envTicking
               Refresh.createdContribution Refresh.world in
  ∃ p', participants (store run.2) !! ("ceremony", "P") = Some p'
    ∧ completedOneOrAllContributions p'
    ∧ ∀ w',
        coordinateCeremonyParticipant envTicking
          (mkChange (mkSnapshot "ceremony" "P" SecondCircuit.data)
             (mkSnapshot "ceremony" "P" p')) w'
        = (circuit ← getCircuitDocumentByPosition "ceremony" 2;
           coordinate envTicking (mkSnapshot "ceremony" "P" p') circuit
             false (Some "ceremony")) w'.
Proof.
  refine (refreshed_participant_is_coordinated envTicking
            Refresh.createdContribution Refresh.world SecondCircuit.data
            _ _ _ _).
  - done.
  - reflexivity.
  - reflexivity.
  - reflexivity.
Defined.

(** ** Errors of the verifier *)

Lemma throwsOnly_ret P {A} (a : A) : throwsOnly P (mret a : Handler A).
Proof. by intros w e. Qed.

Lemma throwsOnly_throw (P : Error → Prop) {A} e :
  P e → throwsOnly P (throw e : Handler A).
Proof. by intros HP w e' [= <-]. Qed.

Lemma throwsOnly_clock P env :
  throwsOnly P (getCurrentServerTimestampInMillis env).
Proof. by intros w e. Qed.

Lemma throwsOnly_external (P : Error → Prop) {A} call (answer : option A) :
  P ExternalCallRejected → throwsOnly P (external call answer).
Proof. intros HP w e. unfold external. destruct answer; [done|]. by intros [= <-]. Qed.

Lemma throwsOnly_batchCommit (P : Error → Prop) batch :
  P BatchCommitRejected → throwsOnly P (batchCommit batch).
Proof.
  intros HP w e. unfold batchCommit. destruct (commit _ _); [done|].
  by intros [= <-].
Qed.

Lemma throwsOnly_bind P {A B} (m : Handler A) (k : A → Handler B) :
  throwsOnly P m → (∀ a, throwsOnly P (k a)) → throwsOnly P (m ≫= k).
Proof.
  intros Hm Hk w e. unfold mbind, Handler_bind, bind. specialize (Hm w).
  destruct (m w) as [[a|e'] w1]; simpl in *; [apply Hk|].
  intros [= <-]. by apply Hm.
Qed.

Lemma verificationError_external : verificationError ExternalCallRejected.
Proof. unfold verificationError. set_solver. Qed.

Lemma verificationError_batchCommit : verificationError BatchCommitRejected.
Proof. unfold verificationError. set_solver. Qed.

Lemma verificationError_no_data :
  verificationError SE_VERIFICATION_NO_PARTICIPANT_CONTRIBUTION_DATA.
Proof. unfold verificationError. set_solver. Qed.

(** Steps that throw verification errors only. *)
Ltac throws_only :=
  repeat first
    [ apply throwsOnly_ret
    | apply throwsOnly_clock
    | (apply throwsOnly_external; exact verificationError_external)
    | (apply throwsOnly_batchCommit; exact verificationError_batchCommit)
    | (apply throwsOnly_throw; exact verificationError_no_data)
    | (apply throwsOnly_bind; [|intros ?])
    | match goal with
      | |- throwsOnly _ (if negb (bool_decide (Datatypes.length ?l = 1%nat))
                         then _ else _) => fail 1
      | |- throwsOnly _ (if ?b then _ else _) => destruct b
      | |- throwsOnly _ (let '(_, _) := ?x in _) => destruct x
      end ].

(** X13. The errors of [verifycontribution]. A run that throws throws
    either one of the four validation errors, and then it has made no
    external call, read no clock and written nothing, or one of three
    errors of a verification under way: a rejected external call, not
    exactly one pending contribution, a rejected batch. In particular the
    read of [contributions.at(0).computationTime] never fails: the array is
    not empty when it is reached. *)
Theorem verifier_errors env request w e :
  (verifycontribution env request w).1 = Thrown e →
  (validationError e ∧ (verifycontribution env request w).2 = w)
  ∨ verificationError e.
Proof.
  destruct (verifycontribution env request w) as [outcome w'] eqn:Hrun.
  simpl. intros ->. revert Hrun. unfold verifycontribution.
  destruct (CallableRequest.auth request) as [auth|];
    [|intros [= <- <-]; left; split; [unfold validationError; set_solver | done]].
  repeat (match goal with
          | |- (if ?b then throw _ else _) _ = _ → _ =>
              destruct b;
              [intros [= <- <-]; left;
               split; [unfold validationError; set_solver | done]|]
          end).
  unfold mbind at 1 2 3, Handler_bind at 1 2 3, bind at 1 2 3, readStore.
  cbn beta iota delta [fst snd].
  destruct (ceremonies (store w) !! _) as [ceremonyData|];
    [|intros [= <- <-]; left; split; [unfold validationError; set_solver | done]].
  destruct (circuits (store w) !! _) as [circuitData|];
    [|intros [= <- <-]; left; split; [unfold validationError; set_solver | done]].
  destruct (participants (store w) !! _) as [participantData|];
    [|intros [= <- <-]; left; split; [unfold validationError; set_solver | done]].
  intros Hrun. right.
  match type of Hrun with
  | ?m w = _ => cut (throwsOnly verificationError m)
  end.
  { intros Hm. apply (Hm w). by rewrite Hrun. }
  clear Hrun. throws_only.
  destruct (Participant.contributions participantData) as [|first rest].
  - apply throwsOnly_throw. exact verificationError_no_data.
  - destruct (negb _); throws_only.
Qed.

Lemma verifier_errors_witness :
  (validationError ExternalCallRejected
   ∧ (verifycontribution envRejectingCommand (call "U" false) Solo.world).2
     = Solo.world)
  ∨ verificationError ExternalCallRejected.
Proof.
  apply (verifier_errors envRejectingCommand (call "U" false) Solo.world).
  by vm_compute.
Defined.

(** ** The contribution document *)

Section VerifierDocument.
Context (env : Env) (request : CallableRequest.t) (w : World).
Context (auth : AuthData.t) (ceremonyData : Ceremony.t)
  (circuitData : Circuit.t) (participantData : Participant.t).

Let ceremonyId := VerifyContributionData.ceremonyId (CallableRequest.data request).
Let circuitId := VerifyContributionData.circuitId (CallableRequest.data request).

Hypothesis Hauth : CallableRequest.auth request = Some auth.
Hypothesis Hceremony : ceremonies (store w) !! ceremonyId = Some ceremonyData.
Hypothesis Hcircuit :
  circuits (store w) !! (ceremonyId, circuitId) = Some circuitData.
Hypothesis Hparticipant :
  participants (store w) !! (ceremonyId, AuthData.uid auth) = Some participantData.

Ltac enter_verifier Hcall :=
  destruct Hcall as (_ & Hrole & H1 & H2 & H3 & H4 & H5 & H6 & H7);
  unfold verifycontribution; rewrite Hauth;
  apply truthyString_true in H1, H2, H3, H4, H5, H6, H7;
  rewrite H1, H2, H3, H4, H5, H6, H7;
  replace (negb (AuthData.participant auth) && negb (AuthData.coordinator auth))
    with false by (destruct Hrole as [-> | ->]; simpl; by rewrite ?andb_false_r);
  cbn [negb orb];
  unfold mbind at 1 2 3, Handler_bind at 1 2 3, bind at 1 2 3, readStore;
  cbn beta iota delta [fst snd];
  fold ceremonyId circuitId; rewrite Hceremony, Hcircuit, Hparticipant;
  fold (finalizing ceremonyData auth) (contributing participantData).

Ltac read_world := cbn [store clockReadings callLog] in *.

(** The contribution document of a run that verifies a contribution and
    returns. *)
Lemma verifycontribution_created_document w' :
  wellFormedCall env request auth →
  contributing participantData || finalizing ceremonyData auth = true →
  verifycontribution env request w = (Returned tt, w') →
  let requestData := CallableRequest.data request in
  let prefix := Circuit.prefix circuitData in
  let index :=
    if finalizing ceremonyData auth then finalContributionIndex
    else formatZkeyIndex
           (WaitingQueue.completedContributions (Circuit.waitingQueue circuitData)
            + 1) in
  ∃ commandOutput document,
    retrieveCommandOutput env = Some commandOutput
    ∧ contributionDocs (store w') !! (ceremonyId, circuitId, autoId env)
      = Some document
    ∧ ContributionDoc.zkeyIndex document = index
    ∧ ContributionDoc.verificationComputationTime document
      = verificationTaskTimerMs env
    ∧ ContributionDoc.verificationSoftware document
      = VerificationSoftware.mk
          (CUSTOM_CONTRIBUTION_VERIFICATION_SOFTWARE_NAME env)
          (CUSTOM_CONTRIBUTION_VERIFICATION_SOFTWARE_VERSION env)
          (CUSTOM_CONTRIBUTION_VERIFICATION_SOFTWARE_COMMIT_HASH env)
    ∧ ContributionDoc.lastUpdated document = clock env (clockReadings w)
    ∧ ContributionDoc.files document
      = if includes commandOutput "ZKey Ok!" then
          Some (ContributionFiles.mk
                  (prefix ++ "_" ++
                   (if finalizing ceremonyData auth
                    then VerifyContributionData.contributorOrCoordinatorIdentifier
                           requestData
                         ++ "_" ++ finalContributionIndex
                         ++ "_verification_transcript.log"
                    else index ++ "_"
                         ++ VerifyContributionData.contributorOrCoordinatorIdentifier
                              requestData
                         ++ "_verification_transcript.log"))
                  (prefix ++ "_" ++ index ++ ".zkey")
                  (getTranscriptStorageFilePath env prefix
                     (prefix ++ "_" ++
                      (if finalizing ceremonyData auth
                       then VerifyContributionData.contributorOrCoordinatorIdentifier
                              requestData
                            ++ "_" ++ finalContributionIndex
                            ++ "_verification_transcript.log"
                       else index ++ "_"
                            ++ VerifyContributionData.contributorOrCoordinatorIdentifier
                                 requestData
                            ++ "_verification_transcript.log")))
                  (getZkeyStorageFilePath env prefix
                     (prefix ++ "_" ++ index ++ ".zkey"))
                  "")
        else None.
Proof.
  intros Hcall Helig. enter_verifier Hcall.
  rewrite Helig. intros Hrun.
  apply bind_returned in Hrun as (batch & w1 & Hbody & Hcommit).
  apply bind_returned in Hbody as ([] & wa & Hstart & Hbody).
  apply external_returned in Hstart as [Hstart ->]. read_world.
  apply bind_returned in Hbody as (? & wb & Hprobe & Hbody).
  apply external_returned in Hprobe as [Hprobe ->]. read_world.
  apply bind_returned in Hbody as (commandId & wc & Hcmd & Hbody).
  apply external_returned in Hcmd as [Hcmd ->]. read_world.
  apply bind_returned in Hbody as (commandOutput & wd & Hout & Hbody).
  apply external_returned in Hout as [Hout ->]. read_world.
  apply bind_returned in Hbody as ([] & we & Hstop & Hbody).
  apply external_returned in Hstop as [Hstop ->]. read_world.
  apply bind_returned in Hbody as ([[tx cct] vcft] & wf & Htx & Hbody).
  exists commandOutput.
  destruct (includes commandOutput "ZKey Ok!") eqn:Hvalid.
  - (* valid *)
    destruct (negb (bool_decide _)) eqn:Hone; [discriminate Htx|].
    destruct (Participant.contributions participantData) as [|first rest] eqn:Hcs;
      [discriminate Htx|].
    apply bind_returned in Htx as (t1 & wg & Ht1 & Htx).
    apply clock_returned in Ht1 as [-> ->]. read_world.
    apply mret_returned in Htx as [[= -> -> ->] ->]. read_world.
    destruct (finalizing ceremonyData auth) eqn:Hfin;
      cbn [negb] in Hbody.
    + apply mret_returned in Hbody as [-> ->]. read_world.
      apply batchCommit_returned in Hcommit as (st' & Hcommit & ->). read_world.
      apply commit_create in Hcommit as [Hfresh ->].
      eexists. cbn [contributionDocs]. rewrite lookup_insert_eq.
      by repeat split.
    + apply bind_returned in Hbody as (t2 & wh & Ht2 & Hbody).
      apply clock_returned in Ht2 as [-> ->]. read_world.
      apply mret_returned in Hbody as [-> ->]. read_world.
      apply batchCommit_returned in Hcommit as (st' & Hcommit & ->). read_world.
      cbn [app] in Hcommit.
      eapply commit_create_update in Hcommit as [Hfresh ->]; [|exact Hcircuit].
      eexists. cbn [contributionDocs]. rewrite lookup_insert_eq.
      by repeat split.
  - (* invalid *)
    apply bind_returned in Htx as ([] & wg & Hdel & Htx).
    apply external_returned in Hdel as [Hdel ->]. read_world.
    apply bind_returned in Htx as (t1 & wh & Ht1 & Htx).
    apply clock_returned in Ht1 as [-> ->]. read_world.
    apply mret_returned in Htx as [[= -> -> ->] ->]. read_world.
    destruct (finalizing ceremonyData auth) eqn:Hfin;
      cbn [negb] in Hbody.
    + apply mret_returned in Hbody as [-> ->]. read_world.
      apply batchCommit_returned in Hcommit as (st' & Hcommit & ->). read_world.
      apply commit_create in Hcommit as [Hfresh ->].
      eexists. cbn [contributionDocs]. rewrite lookup_insert_eq.
      by repeat split.
    + apply bind_returned in Hbody as (t2 & wi & Ht2 & Hbody).
      apply clock_returned in Ht2 as [-> ->]. read_world.
      apply mret_returned in Hbody as [-> ->]. read_world.
      apply batchCommit_returned in Hcommit as (st' & Hcommit & ->). read_world.
      cbn [app] in Hcommit.
      eapply commit_create_update in Hcommit as [Hfresh ->]; [|exact Hcircuit].
      eexists. cbn [contributionDocs]. rewrite lookup_insert_eq.
      by repeat split.
Qed.

End VerifierDocument.

(** ** Zkey indexes *)

Lemma append_cons c (s1 s2 : string) : String c s1 ++ s2 = String c (s1 ++ s2).
Proof. done. Qed.

Lemma append_nil (s : string) : "" ++ s = s.
Proof. done. Qed.

Lemma length_zeros_append k s :
  String.length (zeros k ++ s) = (k + String.length s)%nat.
Proof.
  induction k as [|k IH]; [done|].
  cbn [zeros]. rewrite !append_cons, ?append_nil. cbn [String.length]. by rewrite IH.
Qed.

Lemma zeros_snoc k s : zeros k ++ "0" ++ s = zeros (S k) ++ s.
Proof.
  induction k as [|k IH]; [done|].
  cbn [zeros] in *. rewrite !append_cons, ?append_nil in *. by rewrite IH.
Qed.

(** The loop prepends zeros until the index has the length of
    [firstZkeyIndex], or the turns are used up. *)
Lemma padZkeyIndex_zeros turns index :
  padZkeyIndex turns index
  = zeros (turns `min` (String.length firstZkeyIndex - String.length index))
    ++ index.
Proof.
  revert index. induction turns as [|turns IH]; intros index; [done|].
  cbn [padZkeyIndex]. case_bool_decide as Hshort.
  - rewrite IH. rewrite !append_cons, ?append_nil in *. cbn [String.length firstZkeyIndex] in *.
    replace (S turns `min` (5 - String.length index))%nat
      with (S (turns `min` (5 - S (String.length index))))%nat by lia.
    by rewrite <- zeros_snoc.
  - replace (S turns `min` _)%nat with 0%nat; [done|]. lia.
Qed.

(** The decimal numeral of a non-zero number starts with a digit other
    than zero. *)
Lemma pretty_N_go_head x s :
  (0 < x)%N → ∃ c s', pretty_N_go x s = String c s' ∧ String c "" ≠ "0".
Proof.
  revert s. induction (N.lt_wf_0 x) as [x _ IH]; intros s Hx.
  rewrite pretty_N_go_step by done.
  destruct (decide (x `div` 10 = 0)%N) as [Hdiv|Hdiv].
  - rewrite Hdiv, pretty_N_go_0. eexists _, _. split; [done|].
    assert (x < 10)%N by (apply N.div_small_iff in Hdiv; lia).
    assert (x `mod` 10 = x)%N as -> by (by apply N.mod_small).
    assert (x = 1 ∨ x = 2 ∨ x = 3 ∨ x = 4 ∨ x = 5 ∨ x = 6
            ∨ x = 7 ∨ x = 8 ∨ x = 9)%N as Hdigit by lia.
    destruct Hdigit as [->|[->|[->|[->|[->|[->|[->|[->| ->]]]]]]]]; discriminate.
  - apply IH.
    + apply N.div_lt; [done|]. by apply N.ltb_lt.
    + by apply N.neq_0_lt_0.
Qed.

Lemma pretty_Z_head (n : Z) :
  n ≠ 0 → ∃ c s', pretty n = String c s' ∧ String c "" ≠ "0".
Proof.
  destruct n as [|p|p]; [done|..]; intros _.
  - unfold pretty, pretty_Z, pretty, pretty_positive, pretty, pretty_N.
    rewrite decide_False by done. by apply pretty_N_go_head.
  - by eexists _, _.
Qed.

Lemma pretty_Z_0 : pretty 0 = "0".
Proof. done. Qed.

Lemma zeros_append_inj k1 k2 c1 c2 s1 s2 :
  String c1 "" ≠ "0" → String c2 "" ≠ "0" →
  zeros k1 ++ String c1 s1 = zeros k2 ++ String c2 s2 →
  String c1 s1 = String c2 s2.
Proof.
  intros H1 H2. revert k2. induction k1 as [|k1 IH]; intros [|k2]; simpl.
  - done.
  - intros [= ? _]. by subst.
  - intros [= ? _]. by subst.
  - intros [= ?]. by eapply IH.
Qed.

Lemma zeros_append_not_zeros k1 k2 c s :
  String c "" ≠ "0" → zeros k1 ++ String c s ≠ zeros k2.
Proof.
  intros Hc. revert k2. induction k1 as [|k1 IH]; intros [|k2]; simpl; try done.
  - intros [= ? _]. by subst.
  - intros [= ?]. by eapply IH.
Qed.

Lemma formatZkeyIndex_zeros progress :
  formatZkeyIndex progress
  = zeros (5 - String.length (pretty progress)) ++ pretty progress.
Proof.
  unfold formatZkeyIndex. rewrite padZkeyIndex_zeros. f_equal.
  cbn [String.length firstZkeyIndex]. f_equal. lia.
Qed.

Lemma formatZkeyIndex_inj m n : formatZkeyIndex m = formatZkeyIndex n → m = n.
Proof.
  rewrite !formatZkeyIndex_zeros. intros Heq.
  destruct (decide (m = 0)) as [->|Hm], (decide (n = 0)) as [->|Hn]; [done|..].
  - destruct (pretty_Z_head n Hn) as (c & s & Hc & Hne). rewrite Hc in Heq.
    symmetry in Heq. change (zeros _ ++ pretty 0) with (zeros 5) in Heq.
    by apply zeros_append_not_zeros in Heq.
  - destruct (pretty_Z_head m Hm) as (c & s & Hc & Hne). rewrite Hc in Heq.
    change (zeros _ ++ pretty 0) with (zeros 5) in Heq.
    by apply zeros_append_not_zeros in Heq.
  - destruct (pretty_Z_head m Hm) as (c1 & s1 & Hc1 & Hne1).
    destruct (pretty_Z_head n Hn) as (c2 & s2 & Hc2 & Hne2).
    rewrite Hc1, Hc2 in Heq. apply zeros_append_inj in Heq; [|done..].
    rewrite <- Hc1, <- Hc2 in Heq. by apply (inj pretty).
Qed.

Lemma pretty_N_go_length_ge x s :
  (String.length s ≤ String.length (pretty_N_go x s))%nat.
Proof.
  revert s. induction (N.lt_wf_0 x) as [x _ IH]; intros s.
  destruct (decide (x = 0)%N) as [->|Hx]; [by rewrite pretty_N_go_0|].
  rewrite pretty_N_go_step by by apply N.neq_0_lt_0.
  etrans; [|apply IH].
  - simpl. lia.
  - apply N.div_lt; [by apply N.neq_0_lt_0 | by apply N.ltb_lt].
Qed.

Lemma pretty_N_go_length_le k x s :
  (0 < x)%N → (x < 10 ^ N.of_nat k)%N →
  (String.length (pretty_N_go x s) ≤ k + String.length s)%nat.
Proof.
  revert x s. induction k as [|k IH]; intros x s Hpos Hlt.
  { change (10 ^ N.of_nat 0)%N with 1%N in Hlt. lia. }
  rewrite pretty_N_go_step by done.
  destruct (decide (x `div` 10 = 0)%N) as [Hdiv|Hdiv].
  - rewrite Hdiv, pretty_N_go_0. simpl. lia.
  - etrans; [apply IH|simpl; lia].
    + by apply N.neq_0_lt_0.
    + apply N.Div0.div_lt_upper_bound.
      rewrite Nat2N.inj_succ, N.pow_succ_r' in Hlt. lia.
Qed.

Lemma pretty_N_go_length_gt k x s :
  (10 ^ N.of_nat k ≤ x)%N →
  (k + String.length s < String.length (pretty_N_go x s))%nat.
Proof.
  revert x s. induction k as [|k IH]; intros x s Hge.
  - change (10 ^ N.of_nat 0)%N with 1%N in Hge.
    rewrite pretty_N_go_step by lia.
    eapply Nat.lt_le_trans; [|apply pretty_N_go_length_ge]. simpl. lia.
  - assert (0 < 10 ^ N.of_nat (S k))%N by (apply N.neq_0_lt_0, N.pow_nonzero; lia).
    rewrite pretty_N_go_step by lia.
    eapply Nat.le_lt_trans; [|apply IH].
    + simpl. lia.
    + rewrite Nat2N.inj_succ, N.pow_succ_r' in Hge.
      apply N.div_le_lower_bound; lia.
Qed.

Lemma pretty_Z_length_le (n : Z) :
  0 ≤ n < 100000 → (String.length (pretty n) ≤ 5)%nat.
Proof.
  destruct n as [|p|p]; [simpl; lia| |lia]. intros Hn.
  unfold pretty, pretty_Z, pretty, pretty_positive, pretty, pretty_N.
  rewrite decide_False by done.
  etrans; [apply (pretty_N_go_length_le 5)|simpl; lia]; [done|].
  change (10 ^ N.of_nat 5)%N with 100000%N. lia.
Qed.

Lemma pretty_Z_length_gt (n : Z) :
  100000 ≤ n → (5 < String.length (pretty n))%nat.
Proof.
  destruct n as [|p|p]; [lia| |lia]. intros Hn.
  unfold pretty, pretty_Z, pretty, pretty_positive, pretty, pretty_N.
  rewrite decide_False by done.
  eapply Nat.le_lt_trans; [|apply (pretty_N_go_length_gt 5)]; [simpl; lia|].
  change (10 ^ N.of_nat 5)%N with 100000%N. lia.
Qed.

Lemma formatZkeyIndex_length progress :
  String.length (formatZkeyIndex progress)
  = (5 `max` String.length (pretty progress))%nat.
Proof. rewrite formatZkeyIndex_zeros, length_zeros_append. lia. Qed.

(** ** Powers of tau *)

Lemma le_pow2_log2_up a power :
  0 ≤ power → Z.log2_up a ≤ power → a ≤ 2 ^ power.
Proof.
  intros Hpower Hlog. destruct (decide (a ≤ 1)) as [Ha|Ha].
  - pose proof (Z.pow_pos_nonneg 2 power). lia.
  - etrans; [apply Z.log2_up_spec; lia|].
    apply Z.pow_le_mono_r; lia.
Qed.

Lemma log2_up_le_pow2 a power :
  0 ≤ power → a ≤ 2 ^ power → Z.log2_up a ≤ power.
Proof.
  intros Hpower Hle. destruct (decide (0 < a)) as [Ha|Ha].
  - by apply Z.log2_up_le_pow2.
  - rewrite Z.log2_up_nonpos; lia.
Qed.

(** The loop started at [power] with enough turns stops at the least power
    from [power] on whose power of two is not below twice the
    constraints. *)
Lemma estimatePoTLoop_least turns constraints power :
  0 ≤ power →
  Z.log2_up (constraints * 2) ≤ power + Z.of_nat turns →
  let result := estimatePoTLoop turns constraints power (2 ^ power) in
  power ≤ result
  ∧ constraints * 2 ≤ 2 ^ result
  ∧ ∀ smaller, power ≤ smaller < result → 2 ^ smaller < constraints * 2.
Proof.
  revert power. induction turns as [|turns IH]; intros power Hpower Hturns.
  - simpl. split; [done|]. split; [apply le_pow2_log2_up; lia | lia].
  - cbn [estimatePoTLoop]. case_bool_decide as Hsmall.
    + destruct (IH (power + 1)) as (Hle & Hpow & Hleast); [lia..|].
      split; [lia|]. split; [done|]. intros smaller Hsmaller.
      destruct (decide (smaller = power)) as [->|Hne]; [lia|].
      apply Hleast. lia.
    + simpl. split; [done|]. split; lia.
Qed.

Lemma estimatePoTLoop_max turns constraints :
  Z.log2_up (constraints * 2) ≤ Z.of_nat turns →
  estimatePoTLoop turns constraints 2 (2 ^ 2)
  = 2 `max` Z.log2_up (constraints * 2).
Proof.
  intros Hturns.
  destruct (estimatePoTLoop_least turns constraints 2) as (Hle & Hpow & Hleast);
    [lia..|].
  set (result := estimatePoTLoop turns constraints 2 (2 ^ 2)) in *.
  assert (Z.log2_up (constraints * 2) ≤ result)
    by (apply log2_up_le_pow2; lia).
  destruct (decide (result ≤ 2 `max` Z.log2_up (constraints * 2))) as [?|Hgt];
    [lia|].
  specialize (Hleast (result - 1)).
  assert (constraints * 2 ≤ 2 ^ (result - 1)) by (apply le_pow2_log2_up; lia).
  lia.
Qed.

(** X14. For an integer number of constraints below 2^53 in absolute
    value, [estimatePoT] returns the least power from 2 on whose power of
    two is not below twice the number of constraints, that is the greater
    of 2 and the rounded-up binary logarithm of twice the constraints (2 for
    zero or negative constraints); the loop is left within as many turns as
    that logarithm, so giving it more turns does not change the result. *)
Theorem estimatePoT_least_power constraints :
  safeInteger constraints →
  estimatePoT constraints = 2 `max` Z.log2_up (constraints * 2)
  ∧ 2 ≤ estimatePoT constraints
  ∧ constraints * 2 ≤ 2 ^ estimatePoT constraints
  ∧ (∀ power, 2 ≤ power < estimatePoT constraints →
       2 ^ power < constraints * 2)
  ∧ (∀ turns, Z.log2_up (constraints * 2) ≤ Z.of_nat turns →
       estimatePoTLoop turns constraints 2 (2 ^ 2) = estimatePoT constraints).
Proof.
  intros _.
  assert (Hfuel : Z.log2_up (constraints * 2)
                  ≤ Z.of_nat (Z.to_nat (Z.log2_up (constraints * 2)))).
  { pose proof (Z.log2_up_nonneg (constraints * 2)). lia. }
  unfold estimatePoT.
  destruct (estimatePoTLoop_least
              (Z.to_nat (Z.log2_up (constraints * 2))) constraints 2)
    as (Hle & Hpow & Hleast); [lia..|].
  split; [by apply estimatePoTLoop_max|]. split; [done|]. split; [done|].
  split; [done|]. intros turns Hturns.
  by rewrite !estimatePoTLoop_max.
Qed.

Lemma estimatePoT_least_power_witness :
  estimatePoT 1000 = 11 ∧ 1000 * 2 ≤ 2 ^ 11 ∧ 2 ^ 10 < 1000 * 2.
Proof.
  destruct (estimatePoT_least_power 1000) as (Hmax & _ & Hpow & Hleast & _).
  { unfold safeInteger. simpl. lia. }
  assert (Hresult : estimatePoT 1000 = 11) by (rewrite Hmax; by vm_compute).
  rewrite Hresult in Hpow, Hleast.
  split; [exact Hresult|]. split; [exact Hpow|]. apply Hleast. lia.
Defined.

(** X15. For an integer progress below 2^53 in absolute value,
    [formatZkeyIndex] writes the decimal numeral of the progress after as
    many zeros as it lacks to have five characters: nothing is cut off, the
    result has five characters or the length of the numeral if that is
    more, and the loop is left within five turns, so giving it more turns
    does not change the result. *)
Theorem formatZkeyIndex_pads_with_zeros progress :
  safeInteger progress →
  formatZkeyIndex progress
  = zeros (5 - String.length (pretty progress)) ++ pretty progress
  ∧ String.length (formatZkeyIndex progress)
    = (5 `max` String.length (pretty progress))%nat
  ∧ ∀ turns, (5 ≤ turns)%nat →
      padZkeyIndex turns (pretty progress) = formatZkeyIndex progress.
Proof.
  intros _.
  split; [apply formatZkeyIndex_zeros|]. split; [apply formatZkeyIndex_length|].
  intros turns Hturns. unfold formatZkeyIndex. rewrite !padZkeyIndex_zeros.
  f_equal. cbn [String.length firstZkeyIndex]. f_equal. lia.
Qed.

Lemma formatZkeyIndex_pads_with_zeros_witness :
  formatZkeyIndex 7 = "00007".
Proof.
  destruct (formatZkeyIndex_pads_with_zeros 7) as (Hzeros & _).
  { unfold safeInteger. simpl. lia. }
  rewrite Hzeros. reflexivity.
Defined.

(** X16. The index has exactly five characters for a progress from 0 to
    99999, and more than five from 100000 on, up to 2^53. *)
Theorem formatZkeyIndex_five_characters progress :
  0 ≤ progress → safeInteger progress →
  (progress < 100000 → String.length (formatZkeyIndex progress) = 5%nat)
  ∧ (100000 ≤ progress → (5 < String.length (formatZkeyIndex progress))%nat).
Proof.
  intros Hprogress _. rewrite formatZkeyIndex_length. split.
  - intros Hlt. pose proof (pretty_Z_length_le progress). lia.
  - intros Hge. pose proof (pretty_Z_length_gt progress Hge). lia.
Qed.

Lemma formatZkeyIndex_five_characters_witness :
  String.length (formatZkeyIndex 42) = 5%nat.
Proof.
  refine (proj1 (formatZkeyIndex_five_characters 42 _ _) _);
    unfold safeInteger; simpl; lia.
Defined.

(** X17. Two different progresses never get the same index, whatever their
    sign and size. *)
Theorem formatZkeyIndex_distinct m n :
  m ≠ n → formatZkeyIndex m ≠ formatZkeyIndex n.
Proof. intros Hne Heq. by apply Hne, formatZkeyIndex_inj. Qed.

Lemma formatZkeyIndex_distinct_witness :
  formatZkeyIndex 1 ≠ formatZkeyIndex 10.
Proof. apply (formatZkeyIndex_distinct 1 10). lia. Defined.

(** ** The document and the index of a verified contribution *)

(** X18. A run of [verifycontribution] that verifies a contribution and
    returns has stored, under the fresh reference, a document whose
    [zkeyIndex] is ["final"] for a finalizing caller and the formatted
    [completedContributions + 1] of the circuit otherwise, whether or not
    the contribution is valid; whose verification time is the reading of
    the task timer and whose verification software is the configured one;
    and which has [files] exactly when the output has the marker, with the
    zkey named after the circuit prefix and the index, the storage paths
    derived from the two file names, and an empty transcript hash. *)
Theorem created_document_contents env request w auth ceremonyData circuitData
    participantData w' :
  wellFormedCall env request auth →
  documentsFound w request auth ceremonyData circuitData participantData →
  contributing participantData || finalizing ceremonyData auth = true →
  verifycontribution env request w = (Returned tt, w') →
  let prefix := Circuit.prefix circuitData in
  ∃ commandOutput document,
    retrieveCommandOutput env = Some commandOutput
    ∧ contributionDocs (store w') !! contributionRef env request = Some document
    ∧ ContributionDoc.zkeyIndex document
      = (if finalizing ceremonyData auth then "final"
         else formatZkeyIndex
                (WaitingQueue.completedContributions
                   (Circuit.waitingQueue circuitData) + 1))
    ∧ ContributionDoc.verificationComputationTime document
      = verificationTaskTimerMs env
    ∧ ContributionDoc.verificationSoftware document
      = VerificationSoftware.mk
          (CUSTOM_CONTRIBUTION_VERIFICATION_SOFTWARE_NAME env)
          (CUSTOM_CONTRIBUTION_VERIFICATION_SOFTWARE_VERSION env)
          (CUSTOM_CONTRIBUTION_VERIFICATION_SOFTWARE_COMMIT_HASH env)
    ∧ if includes commandOutput "ZKey Ok!" then
        ∃ files,
          ContributionDoc.files document = Some files
          ∧ ContributionFiles.lastZkeyFilename files
            = prefix ++ "_" ++ ContributionDoc.zkeyIndex document ++ ".zkey"
          ∧ ContributionFiles.lastZkeyStoragePath files
            = getZkeyStorageFilePath env prefix
                (ContributionFiles.lastZkeyFilename files)
          ∧ ContributionFiles.transcriptStoragePath files
            = getTranscriptStorageFilePath env prefix
                (ContributionFiles.transcriptFilename files)
          ∧ ContributionFiles.transcriptBlake2bHash files = ""
      else ContributionDoc.files document = None.
Proof.
  intros Hcall (Hceremony & Hcircuit & Hparticipant) Helig Hrun prefix.
  pose proof Hcall as (Hauth & _).
  destruct (verifycontribution_created_document _ _ _ _ _ _ _
              Hauth Hceremony Hcircuit Hparticipant _ Hcall Helig Hrun)
    as (commandOutput & document & Hout & Hdoc & Hindex & Htime & Hsoftware
        & _ & Hfiles).
  exists commandOutput, document. unfold contributionRef, circuitRef.
  do 5 (split; [done|]).
  destruct (includes commandOutput "ZKey Ok!"); [|done].
  eexists. split; [exact Hfiles|]. rewrite Hindex. by repeat split.
Qed.

Lemma created_document_contents_witness :
  let env := envAnswering validOutput "doc-1" in
  let r := verifycontribution env (call "U" false) Solo.world in
  ∃ document,
    contributionDocs (store r.2) !! ("ceremony", "circuit-1", "doc-1")
    = Some document
    ∧ ContributionDoc.zkeyIndex document = "00001".
Proof.
  destruct (created_document_contents (envAnswering validOutput "doc-1")
              (call "U" false) Solo.world Solo.auth (Ceremony.mk OPENED)
              (freshCircuit ["U"] "U") Solo.data
              (verifycontribution (envAnswering validOutput "doc-1")
                 (call "U" false) Solo.world).2
              (solo_wellFormedCall _) solo_documentsFound eq_refl
              ltac:(by vm_compute))
    as (commandOutput & document & _ & Hdoc & Hindex & _).
  exists document. split; [exact Hdoc | exact Hindex].
Defined.

(** X19. The index follows the valid contributions only. When a
    contribution to a circuit whose [completedContributions] is below
    2^53 - 1 has been verified and the next verification for that circuit,
    by whichever contributor, starts from the [completedContributions] that
    the first one left, the document of the second one has the index of
    the first if the first was invalid, and another index if it was
    valid. *)
Theorem zkeyIndex_follows_completedContributions env1 env2 request1 request2
    w w1 w1' w2 auth1 auth2 ceremonyData1 ceremonyData2 circuitData1
    circuitData2 participantData1 participantData2 :
  wellFormedCall env1 request1 auth1 →
  documentsFound w request1 auth1 ceremonyData1 circuitData1 participantData1 →
  contributing participantData1 = true →
  finalizing ceremonyData1 auth1 = false →
  exactCounter
    (WaitingQueue.completedContributions (Circuit.waitingQueue circuitData1)) →
  exactCounter
    (WaitingQueue.completedContributions (Circuit.waitingQueue circuitData1)
     + 1) →
  verifycontribution env1 request1 w = (Returned tt, w1) →
  wellFormedCall env2 request2 auth2 →
  documentsFound w1' request2 auth2 ceremonyData2 circuitData2 participantData2 →
  contributing participantData2 = true →
  finalizing ceremonyData2 auth2 = false →
  (∀ c1, circuits (store w1) !! circuitRef request1 = Some c1 →
     WaitingQueue.completedContributions (Circuit.waitingQueue circuitData2)
     = WaitingQueue.completedContributions (Circuit.waitingQueue c1)) →
  verifycontribution env2 request2 w1' = (Returned tt, w2) →
  ∃ d1 d2,
    contributionDocs (store w1) !! contributionRef env1 request1 = Some d1
    ∧ contributionDocs (store w2) !! contributionRef env2 request2 = Some d2
    ∧ (ContributionDoc.valid d1 = false →
       ContributionDoc.zkeyIndex d2 = ContributionDoc.zkeyIndex d1)
    ∧ (ContributionDoc.valid d1 = true →
       ContributionDoc.zkeyIndex d2 ≠ ContributionDoc.zkeyIndex d1).
Proof.
  intros Hcall1 (Hceremony1 & Hcircuit1 & Hparticipant1) Hc1 Hf1 _ _ Hrun1
    Hcall2 (Hceremony2 & Hcircuit2 & Hparticipant2) Hc2 Hf2 Hsame Hrun2.
  pose proof Hcall1 as (Hauth1 & _). pose proof Hcall2 as (Hauth2 & _).
  assert (Helig1 : contributing participantData1
                   || finalizing ceremonyData1 auth1 = true) by by rewrite Hc1.
  assert (Helig2 : contributing participantData2
                   || finalizing ceremonyData2 auth2 = true) by by rewrite Hc2.
  destruct (verifycontribution_eligible_returned _ _ _ _ _ _ _
              Hauth1 Hceremony1 Hcircuit1 Hparticipant1 _ Hcall1 Helig1 Hrun1)
    as (output1 & d1 & t1 & Hout1 & _ & _ & Hdocs1 & _ & _ & Hvalid1 & _
        & Hcase1).
  destruct (verifycontribution_created_document _ _ _ _ _ _ _
              Hauth1 Hceremony1 Hcircuit1 Hparticipant1 _ Hcall1 Helig1 Hrun1)
    as (output1' & d1' & Hout1' & Hdoc1 & Hindex1 & _).
  destruct (verifycontribution_created_document _ _ _ _ _ _ _
              Hauth2 Hceremony2 Hcircuit2 Hparticipant2 _ Hcall2 Helig2 Hrun2)
    as (output2 & d2 & _ & Hdoc2 & Hindex2 & _).
  rewrite Hdocs1, lookup_insert_eq in Hdoc1. injection Hdoc1 as <-.
  rewrite Hf1 in Hindex1, Hcase1. rewrite Hf2 in Hindex2.
  exists d1, d2. unfold contributionRef, circuitRef in *.
  rewrite Hdocs1, lookup_insert_eq, Hdoc2, Hindex1, Hindex2, Hvalid1.
  split; [done|]. split; [done|].
  destruct (includes output1 "ZKey Ok!").
  - destruct Hcase1 as (first & rest & _ & _ & _ & Hcircuits).
    rewrite (Hsame _ ltac:(by rewrite Hcircuits, lookup_insert_eq)).
    split; [done|]. intros _ Heq. apply formatZkeyIndex_inj in Heq.
    simpl in Heq. lia.
  - destruct Hcase1 as (_ & _ & Hcircuits).
    rewrite (Hsame _ ltac:(by rewrite Hcircuits, lookup_insert_eq)).
    split; [done|]. by intros [=].
Qed.

Lemma zkeyIndex_follows_completedContributions_witness :
  ∃ d1 d2,
    contributionDocs (store Rolling.run1.2) !! ("ceremony", "circuit-1", "doc-1")
    = Some d1
    ∧ contributionDocs (store Rolling.run2.2)
        !! ("ceremony", "circuit-1", "doc-2")
      = Some d2
    ∧ ContributionDoc.zkeyIndex d1 = "00001"
    ∧ ContributionDoc.zkeyIndex d2 ≠ ContributionDoc.zkeyIndex d1.
Proof.
  destruct (zkeyIndex_follows_completedContributions
              (envAnswering validOutput "doc-1")
              (envAnswering validOutput "doc-2")
              (call "A" false) (call "B" false)
              Rolling.world1 Rolling.run1.2 Rolling.world2 Rolling.run2.2
              (AuthData.mk "A" true false) (AuthData.mk "B" true false)
              (Ceremony.mk OPENED) (Ceremony.mk OPENED)
              (freshCircuit ["A"; "B"; "C"] "A")
              (Circuit.mk 1 "multiplier" "i-0abc"
                 (WaitingQueue.mk ["B"; "C"] "B" 1 0)
                 (AvgTimings.mk 40 100 9) 5001%float)
              (contributor 1000 1100) (contributor 2000 2300))
    as (d1 & d2 & Hd1 & Hd2 & _ & Hvalid).
  - by repeat split; try left.
  - by repeat split.
  - reflexivity.
  - reflexivity.
  - unfold exactCounter. simpl. lia.
  - unfold exactCounter. simpl. lia.
  - by vm_compute.
  - by repeat split; try left.
  - repeat split; by vm_compute.
  - reflexivity.
  - reflexivity.
  - intros c1 Hc1. vm_compute in Hc1. by injection Hc1 as <-.
  - by vm_compute.
  - exists d1, d2. split; [exact Hd1|]. split; [exact Hd2|].
    pose proof Hd1 as Hd1'. vm_compute in Hd1'. injection Hd1' as <-.
    split; [reflexivity|]. by apply Hvalid.
Defined.

(** ** The calls to the worker pool and the blob store *)

Section VerifierCalls.
Context (env : Env) (request : CallableRequest.t) (w : World).
Context (auth : AuthData.t) (ceremonyData : Ceremony.t)
  (circuitData : Circuit.t) (participantData : Participant.t).

Let ceremonyId := VerifyContributionData.ceremonyId (CallableRequest.data request).
Let circuitId := VerifyContributionData.circuitId (CallableRequest.data request).

Hypothesis Hauth : CallableRequest.auth request = Some auth.
Hypothesis Hceremony : ceremonies (store w) !! ceremonyId = Some ceremonyData.
Hypothesis Hcircuit :
  circuits (store w) !! (ceremonyId, circuitId) = Some circuitData.
Hypothesis Hparticipant :
  participants (store w) !! (ceremonyId, AuthData.uid auth) = Some participantData.

Ltac enter_verifier Hcall :=
  destruct Hcall as (_ & Hrole & H1 & H2 & H3 & H4 & H5 & H6 & H7);
  unfold verifycontribution; rewrite Hauth;
  apply truthyString_true in H1, H2, H3, H4, H5, H6, H7;
  rewrite H1, H2, H3, H4, H5, H6, H7;
  replace (negb (AuthData.participant auth) && negb (AuthData.coordinator auth))
    with false by (destruct Hrole as [-> | ->]; simpl; by rewrite ?andb_false_r);
  cbn [negb orb];
  unfold mbind at 1 2 3, Handler_bind at 1 2 3, bind at 1 2 3, readStore;
  cbn beta iota delta [fst snd];
  fold ceremonyId circuitId; rewrite Hceremony, Hcircuit, Hparticipant;
  fold (finalizing ceremonyData auth) (contributing participantData).

Ltac same_log :=
  cbn beta iota zeta delta [store clockReadings callLog fst snd negb];
  rewrite <- ?app_assoc; reflexivity.

(** The calls of a run whose worker answers up to the command output. *)
Lemma verifycontribution_calls running commandId commandOutput :
  wellFormedCall env request auth →
  contributing participantData || finalizing ceremonyData auth = true →
  startEC2Instance env = Some tt →
  checkEC2Status env = Some running →
  runCommandOnEC2 env = Some commandId →
  retrieveCommandOutput env = Some commandOutput →
  let instanceId := Circuit.instanceId circuitData in
  let prefix := Circuit.prefix circuitData in
  let bucketName :=
    VerifyContributionData.bucketName (CallableRequest.data request) in
  let lastZkeyStoragePath :=
    getZkeyStorageFilePath env prefix
      (prefix ++ "_"
       ++ (if finalizing ceremonyData auth then finalContributionIndex
           else formatZkeyIndex
                  (WaitingQueue.completedContributions
                     (Circuit.waitingQueue circuitData) + 1))
       ++ ".zkey") in
  ∃ commands,
    head commands
    = Some ("aws s3 cp s3://" ++ bucketName ++ "/" ++ lastZkeyStoragePath
            ++ " ./lastZKey.zkey")
    ∧ callLog (verifycontribution env request w).2
      = (callLog w
         ++ [StartEC2Instance instanceId; CheckEC2Status instanceId;
             RunCommandOnEC2 instanceId commands;
             RetrieveCommandOutput commandId instanceId;
             StopEC2Instance instanceId]
         ++ (if includes commandOutput "ZKey Ok!" then []
             else match stopEC2Instance env with
                  | Some _ => [DeleteObject bucketName lastZkeyStoragePath]
                  | None => []
                  end))%list.
Proof.
  intros Hcall Helig Hstart Hprobe Hcmd Hout. enter_verifier Hcall.
  rewrite Helig. unfold mbind, Handler_bind, bind, external.
  rewrite Hstart, Hprobe, Hcmd, Hout.
  cbn beta iota zeta delta [store clockReadings callLog].
  unfold throw, mret, Handler_ret, ret, getCurrentServerTimestampInMillis,
    batchCommit.
  eexists. split; cycle 1.
  { destruct (stopEC2Instance env) as [[]|].
    2:{ destruct (includes commandOutput "ZKey Ok!"); same_log. }
    destruct (includes commandOutput "ZKey Ok!").
    - destruct (negb (bool_decide _)); [same_log|].
      destruct (Participant.contributions participantData); [same_log|].
      destruct (finalizing ceremonyData auth);
        cbn beta iota zeta delta [store clockReadings callLog negb];
        destruct (commit _ _); same_log.
    - destruct (deleteObject env) as [[]|]; [|same_log].
      destruct (finalizing ceremonyData auth);
        cbn beta iota zeta delta [store clockReadings callLog negb];
        destruct (commit _ _); same_log. }
  reflexivity.
Qed.

End VerifierCalls.

(** X20. The calls of [verifycontribution]. When the worker starts, answers
    the probe, accepts the command and hands out its output, the run makes
    these calls and no other, in this order, whatever happens afterwards:
    start, probe, run command, retrieve output, stop; and then, only if the
    output lacks the marker and the stop was accepted, the deletion from
    the bucket of the very zkey that the first command downloads. *)
Theorem verifier_calls env request w auth ceremonyData circuitData
    participantData running commandId commandOutput :
  wellFormedCall env request auth →
  documentsFound w request auth ceremonyData circuitData participantData →
  contributing participantData || finalizing ceremonyData auth = true →
  startEC2Instance env = Some tt →
  checkEC2Status env = Some running →
  runCommandOnEC2 env = Some commandId →
  retrieveCommandOutput env = Some commandOutput →
  let instanceId := Circuit.instanceId circuitData in
  let bucketName :=
    VerifyContributionData.bucketName (CallableRequest.data request) in
  ∃ commands lastZkeyStoragePath,
    head commands
    = Some ("aws s3 cp s3://" ++ bucketName ++ "/" ++ lastZkeyStoragePath
            ++ " ./lastZKey.zkey")
    ∧ callLog (verifycontribution env request w).2
      = (callLog w
         ++ [StartEC2Instance instanceId; CheckEC2Status instanceId;
             RunCommandOnEC2 instanceId commands;
             RetrieveCommandOutput commandId instanceId;
             StopEC2Instance instanceId]
         ++ (if includes commandOutput "ZKey Ok!" then []
             else match stopEC2Instance env with
                  | Some _ => [DeleteObject bucketName lastZkeyStoragePath]
                  | None => []
                  end))%list.
Proof.
  intros Hcall (Hceremony & Hcircuit & Hparticipant) Helig Hstart Hprobe Hcmd
    Hout instanceId bucketName.
  pose proof Hcall as (Hauth & _).
  destruct (verifycontribution_calls _ _ _ _ _ _ _
              Hauth Hceremony Hcircuit Hparticipant _ _ _ Hcall Helig Hstart
              Hprobe Hcmd Hout) as (commands & Hhead & Hlog).
  by eexists commands, _.
Qed.

Lemma verifier_calls_witness :
  ∃ commands,
    callLog (verifycontribution (envAnswering invalidOutput "doc-1")
               (call "U" false) Solo.world).2
    = [StartEC2Instance "i-0abc"; CheckEC2Status "i-0abc";
       RunCommandOnEC2 "i-0abc" commands;
       RetrieveCommandOutput "command-1" "i-0abc";
       StopEC2Instance "i-0abc";
       DeleteObject "bucket" "multiplier/contributions/multiplier_00001.zkey"].
Proof.
  destruct (verifier_calls (envAnswering invalidOutput "doc-1")
              (call "U" false) Solo.world Solo.auth (Ceremony.mk OPENED)
              (freshCircuit ["U"] "U") Solo.data true "command-1" invalidOutput
              (solo_wellFormedCall _) solo_documentsFound eq_refl eq_refl
              eq_refl eq_refl eq_refl)
    as (commands & path & Hhead & Hlog).
  exists commands. rewrite Hlog.
  pose proof Hlog as Hlog'. vm_compute in Hlog'.
  injection Hlog' as _ Hpath. by subst path.
Defined.

(** ** Double digits *)

Lemma pretty_Z_length_digits (k : nat) (n : Z) :
  0 < n → 10 ^ Z.of_nat k ≤ n < 10 ^ Z.of_nat (S k) →
  String.length (pretty n) = S k.
Proof.
  destruct n as [|p|p]; [lia| |lia]. intros _ [Hge Hlt].
  unfold pretty, pretty_Z, pretty, pretty_positive, pretty, pretty_N.
  rewrite decide_False by done.
  pose proof (pretty_N_go_length_le (S k) (N.pos p) "") as Hle.
  pose proof (pretty_N_go_length_gt k (N.pos p) "") as Hgt.
  cbn [String.length] in Hle, Hgt.
  assert (N.pos p < 10 ^ N.of_nat (S k))%N.
  { apply N2Z.inj_lt. rewrite N2Z.inj_pow, nat_N_Z. by simpl. }
  assert (10 ^ N.of_nat k ≤ N.pos p)%N.
  { apply N2Z.inj_le. rewrite N2Z.inj_pow, nat_N_Z. by simpl. }
  specialize (Hle ltac:(lia) ltac:(done)). specialize (Hgt ltac:(done)). lia.
Qed.

(** X21. [convertToDoubleDigits] gives exactly two characters for every
    amount from 0 to 99, and more than two from 100 on. *)
Theorem convertToDoubleDigits_two_characters amount :
  0 ≤ amount →
  (amount < 100 → String.length (convertToDoubleDigits amount) = 2%nat)
  ∧ (100 ≤ amount → (2 < String.length (convertToDoubleDigits amount))%nat).
Proof.
  intros Hamount. unfold convertToDoubleDigits. case_bool_decide as Hsmall.
  - split; [|lia]. intros _.
    rewrite append_cons, append_nil. cbn [String.length]. f_equal.
    destruct (decide (amount = 0)) as [->|Hne]; [done|].
    apply (pretty_Z_length_digits 0); simpl; lia.
  - split.
    + intros Hlt. apply (pretty_Z_length_digits 1); simpl; lia.
    + intros Hge. destruct amount as [|p|p]; [lia| |lia].
      unfold pretty, pretty_Z, pretty, pretty_positive, pretty, pretty_N.
      rewrite decide_False by done.
      eapply Nat.le_lt_trans; [|apply (pretty_N_go_length_gt 2)]; [simpl; lia|].
      change (10 ^ N.of_nat 2)%N with 100%N. lia.
Qed.

Lemma convertToDoubleDigits_two_characters_witness :
  String.length (convertToDoubleDigits 7) = 2%nat.
Proof.
  refine (proj1 (convertToDoubleDigits_two_characters 7 _) _); lia.
Defined.

(** ** No cascade of coordinations *)

Lemma coordinate_written_status env participant circuit single ceremonyId w r p p' :
  participants (store w) !! r = Some p →
  participants (store (coordinate env participant circuit single ceremonyId w).2)
    !! r = Some p' →
  p' ≠ p →
  quietStatus (Participant.status p').
Proof.
  intros Hp Hp' Hne. revert Hp'. unfold coordinate.
  destruct single.
  - destruct (negb _ && bool_decide _); [|destruct (_ && _); [|destruct (negb _)]];
      simpl; run_coordinate.
    all: destruct (participants (store w) !! ref participant) as [stored|] eqn:Hstored;
      simpl; rewrite ?lookup_insert_eq; simpl;
      try (intros Hp'; congruence).
    all: destruct (circuits (store w) !! ref circuit) as [storedCircuit|];
      simpl; try (intros Hp'; congruence).
    all: destruct (decide (r = ref participant)) as [->|Hr];
      rewrite ?lookup_insert_eq, ?lookup_insert_ne by done;
      try (intros Hp'; congruence).
    all: intros [= <-]; by repeat split.
  - destruct (_ && _ && _).
    + destruct (tail _) as [|next rest]; simpl; run_coordinate.
      * destruct (circuits (store w) !! ref circuit); simpl; intros Hp'; congruence.
      * destruct (participants (store w) !! (default "" ceremonyId, next))
          as [storedNext|] eqn:Hnext; simpl; [|intros Hp'; congruence].
        destruct (circuits (store w) !! ref circuit); simpl;
          [|intros Hp'; congruence].
        destruct (decide (r = (default "" ceremonyId, next))) as [->|Hr];
          rewrite ?lookup_insert_eq, ?lookup_insert_ne by done;
          [|intros Hp'; congruence].
        intros [= <-]. by repeat split.
    + simpl; run_coordinate.
      destruct (circuits (store w) !! ref circuit); simpl; intros Hp'; congruence.
Qed.

(** X22. The coordinator does not trigger itself. When a run of
    [coordinate] leaves a participant document other than it was, the
    change of that document, handed to [coordinateCeremonyParticipant],
    matches none of its pre-conditions: the trigger returns without reading
    the clock, without a write and without a further coordination. *)
Theorem coordination_does_not_cascade env participant circuit single ceremonyId
    w r p p' :
  r.1 ≠ "" →
  participants (store w) !! r = Some p →
  participants (store (coordinate env participant circuit single ceremonyId w).2)
    !! r = Some p' →
  p' ≠ p →
  ∀ env' w',
    coordinateCeremonyParticipant env'
      (mkChange (mkSnapshot r.1 r.2 p) (mkSnapshot r.1 r.2 p')) w'
    = (Returned tt, w').
Proof.
  intros Hcer Hp Hp' Hne env' w'.
  destruct (coordinate_written_status _ _ _ _ _ _ _ _ _ Hp Hp' Hne)
    as (Hready & Hcontributed & Hdone).
  unfold coordinateCeremonyParticipant,
    participantReadyForFirstContribution,
    participantResumingContributionAfterTimeout,
    participantReadyForNextContribution, participantReadyToContribute,
    participantCompletedContribution,
    participantCompletedEveryCircuitContribution.
  cbn [before after data ceremonyOf].
  rewrite !(bool_decide_eq_false_2 _ Hready),
    !(bool_decide_eq_false_2 _ Hcontributed),
    !(bool_decide_eq_false_2 _ Hdone).
  rewrite !andb_false_r. cbn [andb orb].
  apply truthyString_true in Hcer. by rewrite Hcer.
Qed.

Lemma coordination_does_not_cascade_witness :
  coordinateCeremonyParticipant envTicking
    (mkChange (mkSnapshot "ceremony" "B" Contention.readyB)
       (mkSnapshot "ceremony" "B"
          (setStatus (Some WAITING) 0 5000 Contention.readyB)))
    Contention.once
  = (Returned tt, Contention.once).
Proof.
  refine (coordination_does_not_cascade envTicking (after Contention.change)
            (mkSnapshot "ceremony" "circuit-1" (freshCircuit ["A"] "A")) true
            None Contention.world ("ceremony", "B") Contention.readyB
            (setStatus (Some WAITING) 0 5000 Contention.readyB)
            _ _ _ _ envTicking Contention.once).
  - done.
  - reflexivity.
  - by vm_compute.
  - discriminate.
Defined.

(** ** Prefixes *)

Lemma extractPrefix_cons c str :
  extractPrefix (String c str) = String (prefixCharacter c) (extractPrefix str).
Proof. done. Qed.

Lemma prefixCharacter_idempotent c :
  prefixCharacter (prefixCharacter c) = prefixCharacter c.
Proof. destruct c as [[] [] [] [] [] [] [] []]; by vm_compute. Qed.

Lemma prefixCharacter_clean c :
  matchesPattern (prefixCharacter c) = false
  ∧ toLowerCase (prefixCharacter c) = prefixCharacter c.
Proof. destruct c as [[] [] [] [] [] [] [] []]; by vm_compute. Qed.

(** X23. On a string of ASCII characters [extractPrefix] keeps the length,
    leaves no character that its pattern matches and no upper-case letter,
    and is idempotent: a prefix is its own prefix. *)
Theorem extractPrefix_normal_form str :
  isAscii str →
  String.length (extractPrefix str) = String.length str
  ∧ extractPrefix (extractPrefix str) = extractPrefix str
  ∧ Forall (λ c, matchesPattern c = false ∧ toLowerCase c = c)
      (String.list_ascii_of_string (extractPrefix str)).
Proof.
  intros _.
  induction str as [|c str (IHlength & IHidem & IHclean)]; [done|].
  rewrite !extractPrefix_cons. cbn [String.length String.list_ascii_of_string].
  split; [by rewrite IHlength|]. split.
  - by rewrite prefixCharacter_idempotent, IHidem.
  - constructor; [apply prefixCharacter_clean | done].
Qed.

Lemma extractPrefix_normal_form_witness :
  extractPrefix (extractPrefix "My Circuit-v2") = extractPrefix "My Circuit-v2".
Proof.
  refine (proj1 (proj2 (extractPrefix_normal_form "My Circuit-v2" _))).
  unfold isAscii. repeat constructor.
Defined.

(** ** From the verifier to the refresher *)

(** X24. The verifier and the refresher compose. When a run of
    [verifycontribution] for a CONTRIBUTING caller returns, the refresher
    run on the contribution document that it created finds the caller's
    participant document, commits, and sets the caller to step COMPLETED
    and status CONTRIBUTED or DONE, whether the contribution was found
    valid or not; every entry of [contributions] that was pending carries
    the identifier of the created document afterwards. *)
Theorem verified_participant_is_refreshed env env' request w auth ceremonyData
    circuitData participantData w' :
  wellFormedCall env request auth →
  documentsFound w request auth ceremonyData circuitData participantData →
  Participant.status participantData = Some CONTRIBUTING →
  verifycontribution env request w = (Returned tt, w') →
  let ceremonyId :=
    VerifyContributionData.ceremonyId (CallableRequest.data request) in
  ∃ document,
    contributionDocs (store w') !! contributionRef env request = Some document
    ∧ let run := refreshParticipantAfterContributionVerification env'
                   (mkSnapshot ceremonyId (autoId env) document) w' in
      run.1 = Returned tt
      ∧ ∃ p', participants (store run.2) !! (ceremonyId, AuthData.uid auth)
              = Some p'
          ∧ Participant.contributionStep p' = Some COMPLETED
          ∧ (Participant.status p' = Some CONTRIBUTED
             ∨ Participant.status p' = Some DONE)
          ∧ Participant.contributions p'
            = linkContribution (autoId env)
              <$> Participant.contributions participantData.
Proof.
  intros Hcall (Hceremony & Hcircuit & Hparticipant) Hstatus Hrun ceremonyId.
  pose proof Hcall as (Hauth & _).
  assert (Helig : contributing participantData
                  || finalizing ceremonyData auth = true).
  { unfold contributing. by rewrite bool_decide_eq_true_2. }
  destruct (verifycontribution_eligible_returned _ _ _ _ _ _ _
              Hauth Hceremony Hcircuit Hparticipant _ Hcall Helig Hrun)
    as (output & document & t & _ & _ & _ & Hdocs & Hparticipants & _ & _
        & Huid & _).
  exists document. unfold contributionRef, circuitRef.
  rewrite Hdocs, lookup_insert_eq. split; [done|].
  assert (Hp : participants (store w')
               !! (ceremonyOf (mkSnapshot ceremonyId (autoId env) document),
                   ContributionDoc.participantId
                     (data (mkSnapshot ceremonyId (autoId env) document)))
               = Some participantData).
  { cbn [ceremonyOf data]. by rewrite Huid, Hparticipants. }
  rewrite (refresh_run env' _ _ _ Hp). cbn [fst snd store participants].
  split; [done|]. eexists. cbn [ceremonyOf data]. rewrite Huid, lookup_insert_eq.
  split; [done|]. unfold refreshed. rewrite Hstatus.
  rewrite bool_decide_eq_false_2 by done. cbn [id].
  split; [done|]. split; [|done].
  simpl. destruct (bool_decide _); [by right | by left].
Qed.

Lemma verified_participant_is_refreshed_witness :
  let w' := (verifycontribution (envAnswering invalidOutput "doc-1")
               (call "U" false) Solo.world).2 in
  ∃ document,
    contributionDocs (store w') !! ("ceremony", "circuit-1", "doc-1")
    = Some document
    ∧ ContributionDoc.valid document = false
    ∧ ∃ p',
        participants
          (store (refreshParticipantAfterContributionVerification envTicking
                    (mkSnapshot "ceremony" "doc-1" document) w').2)
          !! ("ceremony", "U")
        = Some p'
        ∧ Participant.contributionStep p' = Some COMPLETED.
Proof.
  destruct (verified_participant_is_refreshed
              (envAnswering invalidOutput "doc-1") envTicking
              (call "U" false) Solo.world Solo.auth (Ceremony.mk OPENED)
              (freshCircuit ["U"] "U") Solo.data
              (verifycontribution (envAnswering invalidOutput "doc-1")
                 (call "U" false) Solo.world).2
              (solo_wellFormedCall _) solo_documentsFound eq_refl
              ltac:(by vm_compute))
    as (document & Hdoc & _ & p' & Hp' & Hstep & _).
  exists document. split; [exact Hdoc|]. split.
  - pose proof Hdoc as Hdoc'. vm_compute in Hdoc'. by injection Hdoc' as <-.
  - exists p'. split; [exact Hp' | exact Hstep].
Defined.
